(** * Friday deploys: a shallow embedding of [simulation.py]

    The day-stepped deployment simulation of [DeploymentSimulation] is
    modelled as a state-and-exception monad over the engine object and the
    process-wide random generator.

    Modelling conventions.
    - Python numbers ([int] and [float]) that enter cost formulas are exact
      rationals ([Q]); counters and dates are integers ([Z]).  Rounding of
      binary floating point is not modelled: equalities between costs are
      equalities of rationals ([Qeq], written [==]).
    - A [datetime] truncated to midnight is its proleptic Gregorian ordinal
      ([date.toordinal()]); [weekday()] is [(ordinal + 6) mod 7], as in
      CPython's [datetime] module (Monday is 0, Friday is 4).
    - [datetime.now()] is an input of the constructor (argument [now]).
    - The [random] module is a tape of uniform draws from the unit interval
      with a cursor; every call of [random.random], [random.randint] and
      [random.choice] consumes exactly one draw.
    - The task registry is a list of task objects addressed by position;
      a Python reference to a task held in another list ([ready_tasks]) is
      the position of that task in [self.tasks]. *)

From stdpp Require Import base relations list strings.
From Stdlib Require Import ZArith QArith Qround Lia Lqa.

(** ** Numbers *)

(** [x < y] on Python numbers, as a boolean. *)
Definition Qltb (x y : Q) : bool :=
  (Qnum x * QDen y <? Qnum y * QDen x)%Z.

(** ** Data model *)

Inductive TaskStatus : Set :=
  | IN_PROGRESS
  | READY_TO_DEPLOY
  | DEPLOYED
  | FAILED.

#[global] Instance TaskStatus_eq_dec : EqDecision TaskStatus.
Proof. solve_decision. Defined.

Record Task : Type := mkTask {
  id : Z;
  created_date : Z;
  complexity : Z;
  status : TaskStatus;
  deploy_date : option Z;
  recovery_hours : Q;
  dependencies : list string
}.

Record Team : Type := mkTeam {
  name : string;
  task_completion_rate : Q;
  allows_friday_deploys : bool
}.

Record Params : Type := mkParams {
  team_size : Q;
  avg_hourly_rate : Q;
  new_tasks_per_day : Z;
  task_complexity_range : Z * Z;
  hourly_revenue : Q;
  hourly_downtime_cost : Q;
  base_deploy_failure_rate : Q;
  weekend_recovery_multiplier : Q;
  normal_recovery_hours : Q;
  context_switch_cost_hours : Q;
  dependency_probability : Q;
  other_teams : list Team
}.

Definition SIMULATION_DEFAULTS : Params := {|
  team_size := 5;
  avg_hourly_rate := 75;
  new_tasks_per_day := 3;
  task_complexity_range := (1, 5)%Z;
  hourly_revenue := 1000;
  hourly_downtime_cost := 2000;
  base_deploy_failure_rate := 0.05;
  weekend_recovery_multiplier := 3;
  normal_recovery_hours := 2;
  context_switch_cost_hours := 1;
  dependency_probability := 0.3;
  other_teams :=
    [ {| name := "Backend Team"; task_completion_rate := 0.2;
         allows_friday_deploys := false |};
      {| name := "Security Team"; task_completion_rate := 0.1;
         allows_friday_deploys := false |} ]
|}.

Record Metrics : Type := mkMetrics {
  failed_deploys : Z;
  successful_deploys : Z;
  delayed_tasks : Z;
  total_recovery_hours : Q
}.

(** The fields of a [DeploymentSimulation] instance. *)
Record Engine : Type := mkEngine {
  params : Params;
  failure_cost_multiplier : Q;
  allow_friday_deploys : bool;
  current_date : Z;
  tasks : list Task;
  task_counter : Z;
  total_cost : Q;
  daily_costs : list Q;
  metrics : Metrics
}.

(** The dictionary returned by [run_simulation]. *)
Record SimulationResult : Type := mkResult {
  res_total_cost : Q;
  res_daily_costs : list Q;
  res_metrics : Metrics;
  res_allow_friday_deploys : bool
}.

(** *** Attribute assignment *)

Definition set_status (s : TaskStatus) (t : Task) : Task :=
  mkTask (id t) (created_date t) (complexity t) s (deploy_date t)
         (recovery_hours t) (dependencies t).

Definition set_deploy_date (d : Z) (t : Task) : Task :=
  mkTask (id t) (created_date t) (complexity t) (status t) (Some d)
         (recovery_hours t) (dependencies t).

Definition set_recovery_hours (h : Q) (t : Task) : Task :=
  mkTask (id t) (created_date t) (complexity t) (status t) (deploy_date t)
         h (dependencies t).

Definition set_dependencies (ds : list string) (t : Task) : Task :=
  mkTask (id t) (created_date t) (complexity t) (status t) (deploy_date t)
         (recovery_hours t) ds.

Definition set_tasks (ts : list Task) (e : Engine) : Engine :=
  mkEngine (params e) (failure_cost_multiplier e) (allow_friday_deploys e)
           (current_date e) ts (task_counter e) (total_cost e)
           (daily_costs e) (metrics e).

Definition set_task_counter (n : Z) (e : Engine) : Engine :=
  mkEngine (params e) (failure_cost_multiplier e) (allow_friday_deploys e)
           (current_date e) (tasks e) n (total_cost e)
           (daily_costs e) (metrics e).

Definition set_total_cost (c : Q) (e : Engine) : Engine :=
  mkEngine (params e) (failure_cost_multiplier e) (allow_friday_deploys e)
           (current_date e) (tasks e) (task_counter e) c
           (daily_costs e) (metrics e).

Definition set_daily_costs (cs : list Q) (e : Engine) : Engine :=
  mkEngine (params e) (failure_cost_multiplier e) (allow_friday_deploys e)
           (current_date e) (tasks e) (task_counter e) (total_cost e)
           cs (metrics e).

Definition set_metrics (m : Metrics) (e : Engine) : Engine :=
  mkEngine (params e) (failure_cost_multiplier e) (allow_friday_deploys e)
           (current_date e) (tasks e) (task_counter e) (total_cost e)
           (daily_costs e) m.

Definition set_current_date (d : Z) (e : Engine) : Engine :=
  mkEngine (params e) (failure_cost_multiplier e) (allow_friday_deploys e)
           d (tasks e) (task_counter e) (total_cost e)
           (daily_costs e) (metrics e).

(** [task.attr = v] for the task object at position [i] of [self.tasks]. *)
Definition update_task (i : nat) (f : Task -> Task) (e : Engine) : Engine :=
  set_tasks (alter f i (tasks e)) e.

(** ** The random source *)

Record Rng : Type := mkRng {
  tape : nat -> Q;
  pos : nat
}.

Definition rng_next (r : Rng) : Rng := mkRng (tape r) (S (pos r)).

(** ** The monad of engine methods *)

Inductive exn : Set :=
  | ValueError
  | IndexError
  | StopIteration.

Definition World : Type := Engine * Rng.

(** A method call returns a value or raises; either way it leaves the engine
    and the generator in the state its assignments produced so far. *)
Inductive result (A : Type) : Type :=
  | Ok (a : A) (w : World)
  | Raise (x : exn) (w : World).
Arguments Ok {A} a w.
Arguments Raise {A} x w.

Definition world_of {A : Type} (r : result A) : World :=
  match r with
  | Ok _ w => w
  | Raise _ w => w
  end.

Definition M (A : Type) : Type := World -> result A.

#[global] Instance M_ret : MRet M := fun A a w => Ok a w.

#[global] Instance M_bind : MBind M := fun A B f c w =>
  match c w with
  | Ok a w' => f a w'
  | Raise x w' => Raise x w'
  end.

Definition raise {A : Type} (x : exn) : M A := fun w => Raise x w.

Definition get_self : M Engine := fun w => Ok (fst w) w.

Definition modify_self (f : Engine -> Engine) : M unit :=
  fun w => Ok tt (f (fst w), snd w).

(** [for x in xs: acc = body(acc, x)] *)
Fixpoint for_each {A B : Type} (body : B -> A -> M B) (acc : B) (xs : list A)
  : M B :=
  match xs with
  | [] => mret acc
  | x :: xs' => acc' ← body acc x; for_each body acc' xs'
  end.

(** [for _ in range(n): body()] *)
Fixpoint repeat_times (n : nat) (body : M unit) : M unit :=
  match n with
  | O => mret tt
  | S n' => _ ← body; repeat_times n' body
  end.

(** *** The [random] module *)

Definition random : M Q :=
  fun w => Ok (tape (snd w) (pos (snd w))) (fst w, rng_next (snd w)).

Definition randint (a b : Z) : M Z :=
  if (b <? a)%Z then raise ValueError
  else u ← random; mret (a + Qfloor (u * inject_Z (b - a + 1)))%Z.

Definition choice {A : Type} (xs : list A) : M A :=
  match xs with
  | [] => raise IndexError
  | _ =>
      u ← random;
      match xs !! Z.to_nat (Qfloor (u * inject_Z (Z.of_nat (length xs)))) with
      | Some x => mret x
      | None => raise IndexError
      end
  end.

(** ** The engine *)

(** [DeploymentSimulation.__init__]; [ps = None] selects the defaults. *)
Definition init (now : Z) (allow : bool) (ps : option Params) (multiplier : Q)
  : Engine := {|
  params := default SIMULATION_DEFAULTS ps;
  failure_cost_multiplier := multiplier;
  allow_friday_deploys := allow;
  current_date := now;
  tasks := [];
  task_counter := 0;
  total_cost := 0;
  daily_costs := [];
  metrics := mkMetrics 0 0 0 0
|}.

Definition weekday (d : Z) : Z := ((d + 6) mod 7)%Z.

Definition generate_task : M unit :=
  _ ← modify_self (fun e => set_task_counter (task_counter e + 1) e);
  e ← get_self;
  complexity ← randint (fst (task_complexity_range (params e)))
                       (snd (task_complexity_range (params e)));
  u ← random;
  dependencies ←
    (if Qltb u (dependency_probability (params e))
     then team ← choice (other_teams (params e)); mret [name team]
     else mret []);
  modify_self (fun e' =>
    set_tasks (tasks e' ++
      [ {| id := task_counter e;
           created_date := current_date e;
           complexity := complexity;
           status := IN_PROGRESS;
           deploy_date := None;
           recovery_hours := 0;
           dependencies := dependencies |} ]) e').

Definition generate_daily_tasks : M unit :=
  e ← get_self;
  repeat_times (Z.to_nat (new_tasks_per_day (params e))) generate_task.

Definition should_deploy_today (e : Engine) : bool :=
  if (weekday (current_date e) =? 4)%Z then allow_friday_deploys e else true.

Definition calculate_deploy_risk (e : Engine) : Q :=
  base_deploy_failure_rate (params e).

Definition calculate_recovery_time (e : Engine) : Q :=
  let base_time := normal_recovery_hours (params e) in
  if bool_decide (weekday (current_date e) ∈ [4; 5; 6]%Z)
  then base_time * weekend_recovery_multiplier (params e)
  else base_time.

(** [xs.remove(x)]: drop the first element equal to [x]. *)
Fixpoint list_remove_first (x : string) (xs : list string) : list string :=
  match xs with
  | [] => []
  | y :: ys => if String.eqb y x then ys else y :: list_remove_first x ys
  end.

(** [next(t for t in other_teams if t['name'] == dep)] *)
Definition team_named (dep : string) (teams : list Team) : M Team :=
  match List.find (fun t => String.eqb (name t) dep) teams with
  | Some team => mret team
  | None => raise StopIteration
  end.

(** The loop [for dep in task.dependencies: ...] of [progress_tasks], for the
    task at position [i].  The list iterator holds a position [j] into the
    live list, which the body shortens by [remove]; the loop ends when [j]
    runs past the end.  [fuel] bounds the number of iterations and is started
    at the length of the list (see [resolve_dependencies_fuel]). *)
Fixpoint resolve_dependencies (i fuel j : nat) : M unit :=
  match fuel with
  | O => mret tt
  | S fuel' =>
      e ← get_self;
      match tasks e !! i with
      | None => mret tt
      | Some task =>
          match dependencies task !! j with
          | None => mret tt
          | Some dep =>
              team ← team_named dep (other_teams (params e));
              u ← random;
              _ ← (if Qltb u (task_completion_rate team)
                   then modify_self (update_task i (fun t =>
                          set_dependencies
                            (list_remove_first dep (dependencies t)) t))
                   else mret tt);
              resolve_dependencies i fuel' (S j)
          end
      end
  end.

(** [not task.dependencies], read from the task at position [i]. *)
Definition no_dependencies (i : nat) (e : Engine) : bool :=
  match dependencies <$> tasks e !! i with
  | Some (_ :: _) => false
  | _ => true
  end.

(** The body of [for task in self.tasks] in [progress_tasks], for the task
    at position [i]. *)
Definition progress_task (i : nat) : M unit :=
  e ← get_self;
  match tasks e !! i with
  | None => mret tt
  | Some task =>
      if bool_decide (status task = IN_PROGRESS) then
        _ ← (if no_dependencies i e then mret tt
             else resolve_dependencies i (length (dependencies task)) 0);
        e' ← get_self;
        if no_dependencies i e' then
          u ← random;
          if Qltb u 0.3
          then modify_self (update_task i (set_status READY_TO_DEPLOY))
          else mret tt
        else mret tt
      else mret tt
  end.

Definition progress_tasks : M unit :=
  e ← get_self;
  for_each (fun _ i => progress_task i) tt (seq 0 (length (tasks e))).

(** [[t for t in self.tasks if t.status == TaskStatus.READY_TO_DEPLOY]], as
    task objects and as references into [self.tasks]. *)
Definition ready_tasks (ts : list Task) : list Task :=
  filter (fun t => status t = READY_TO_DEPLOY) ts.

Definition is_ready (ts : list Task) (i : nat) : Prop :=
  status <$> ts !! i = Some READY_TO_DEPLOY.

#[global] Instance is_ready_dec ts i : Decision (is_ready ts i).
Proof. unfold is_ready. apply _. Defined.

Definition ready_refs (ts : list Task) : list nat :=
  filter (is_ready ts) (seq 0 (length ts)).

(** The body of [for task in ready_tasks] in [attempt_deployments]; the
    local [daily_cost] is threaded through. *)
Definition deploy_task (daily_cost : Q) (i : nat) : M Q :=
  e ← get_self;
  let failure_chance := calculate_deploy_risk e in
  u ← random;
  if Qltb u failure_chance then
    let hours := calculate_recovery_time e in
    let recovery_cost :=
      hours * team_size (params e) * avg_hourly_rate (params e)
        * failure_cost_multiplier e in
    let downtime_cost :=
      hours * hourly_downtime_cost (params e) * failure_cost_multiplier e in
    _ ← modify_self (fun e =>
          let m := metrics e in
          set_metrics
            (mkMetrics (failed_deploys m + 1) (successful_deploys m)
                       (delayed_tasks m) (total_recovery_hours m + hours))
            (set_total_cost (total_cost e + (recovery_cost + downtime_cost))
               (update_task i
                  (fun t => set_recovery_hours hours (set_status FAILED t))
                  e)));
    mret (daily_cost + (recovery_cost + downtime_cost))
  else
    _ ← modify_self (fun e =>
          let m := metrics e in
          set_metrics
            (mkMetrics (failed_deploys m) (successful_deploys m + 1)
                       (delayed_tasks m) (total_recovery_hours m))
            (update_task i
               (fun t => set_deploy_date (current_date e)
                           (set_status DEPLOYED t))
               e));
    mret daily_cost.

Definition attempt_deployments : M Q :=
  e ← get_self;
  if negb (should_deploy_today e) then mret 0
  else for_each deploy_task 0 (ready_refs (tasks e)).

Definition calculate_daily_delay_cost : M Q :=
  e ← get_self;
  let ready := ready_tasks (tasks e) in
  match ready with
  | _ :: _ =>
      if negb (should_deploy_today e) then
        let delay_cost :=
          inject_Z (Z.of_nat (length ready)) * hourly_revenue (params e) * 24 in
        _ ← modify_self (fun e =>
              let m := metrics e in
              set_metrics
                (mkMetrics (failed_deploys m) (successful_deploys m)
                           (delayed_tasks m + Z.of_nat (length ready))
                           (total_recovery_hours m))
                (set_total_cost (total_cost e + delay_cost) e));
        mret (0 + delay_cost)
      else mret 0
  | [] => mret 0
  end.

(** [self.daily_costs.append(deploy_cost + delay_cost)] followed by
    [self.current_date += timedelta(days=1)]. *)
Definition close_day (deploy_cost delay_cost : Q) : M unit :=
  modify_self (fun e =>
    set_current_date (current_date e + 1)
      (set_daily_costs (daily_costs e ++ [deploy_cost + delay_cost]) e)).

Definition simulate_day : M unit :=
  _ ← generate_daily_tasks;
  _ ← progress_tasks;
  deploy_cost ← attempt_deployments;
  delay_cost ← calculate_daily_delay_cost;
  close_day deploy_cost delay_cost.

Definition result_of (e : Engine) : SimulationResult := {|
  res_total_cost := total_cost e;
  res_daily_costs := daily_costs e;
  res_metrics := metrics e;
  res_allow_friday_deploys := allow_friday_deploys e
|}.

Definition run_simulation (days : Z) : M SimulationResult :=
  _ ← repeat_times (Z.to_nat days) simulate_day;
  e ← get_self;
  mret (result_of e).

(** ** Concrete random tapes and dates, for worked examples *)

(** A generator that replays [us] and then draws zeros. *)
Definition rng_of (us : list Q) : Rng :=
  mkRng (fun n => default 0 (us !! n)) O.

(** 2024-01-01, a Monday, and 2024-01-05, the Friday of that week. *)
Definition monday : Z := 738886.
Definition friday : Z := 738890.

(** ** Calling the engine from outside *)

(** The methods of [DeploymentSimulation] that change the object. *)
Inductive method : Set :=
  | GenerateDailyTasks
  | ProgressTasks
  | AttemptDeployments
  | CalculateDailyDelayCost
  | SimulateDay
  | RunSimulation (days : Z).

(** The state left behind by a call, whether it returned or raised. *)
Definition call (m : method) (w : World) : World :=
  match m with
  | GenerateDailyTasks => world_of (generate_daily_tasks w)
  | ProgressTasks => world_of (progress_tasks w)
  | AttemptDeployments => world_of (attempt_deployments w)
  | CalculateDailyDelayCost => world_of (calculate_daily_delay_cost w)
  | SimulateDay => world_of (simulate_day w)
  | RunSimulation days => world_of (run_simulation days w)
  end.

(** The methods that [simulate_day] is made of. *)
Definition primitive (m : method) : Prop :=
  match m with
  | SimulateDay | RunSimulation _ => False
  | _ => True
  end.

(** Engines that a caller can obtain: a constructed engine, on which any
    methods were called in any order, with any state of the generator at
    each call. *)
Inductive reachable : Engine -> Prop :=
  | reachable_init now allow ps multiplier :
      reachable (init now allow ps multiplier)
  | reachable_call e g m :
      reachable e -> reachable (fst (call m (e, g))).


(** ** The task life cycle *)

Inductive transition : TaskStatus -> TaskStatus -> Prop :=
  | become_ready : transition IN_PROGRESS READY_TO_DEPLOY
  | deploy_succeeds : transition READY_TO_DEPLOY DEPLOYED
  | deploy_fails : transition READY_TO_DEPLOY FAILED.

(** What [progress_tasks] may do to one task object. *)
Inductive progress_step : Task -> Task -> Prop :=
  | step_resolve t ds :
      status t = IN_PROGRESS ->
      sublist ds (dependencies t) ->
      progress_step t (set_dependencies ds t)
  | step_ready t :
      status t = IN_PROGRESS ->
      dependencies t = [] ->
      progress_step t (set_status READY_TO_DEPLOY t).

(** What [attempt_deployments] may do to one task object, under the
    parameters [ps]. *)
Inductive deploy_step (ps : Params) : Task -> Task -> Prop :=
  | step_deployed t d :
      status t = READY_TO_DEPLOY ->
      deploy_step ps t (set_deploy_date d (set_status DEPLOYED t))
  | step_failed t h :
      status t = READY_TO_DEPLOY ->
      h = normal_recovery_hours ps \/
      h = normal_recovery_hours ps * weekend_recovery_multiplier ps ->
      deploy_step ps t (set_recovery_hours h (set_status FAILED t)).

Definition task_step (ps : Params) (t t' : Task) : Prop :=
  progress_step t t' \/ deploy_step ps t t'.

(** A task object as [generate_daily_tasks] builds it. *)
Definition fresh (t : Task) : Prop :=
  status t = IN_PROGRESS /\ deploy_date t = None /\ recovery_hours t = 0 /\
  (length (dependencies t) <= 1)%nat.

(** Two states of the registry: every task object of [ts] is still there, at
    its position, related by [T]; every object that was added satisfies
    [N]. *)
Definition registry_rel (T : relation Task) (N : Task -> Prop)
    (ts ts' : list Task) : Prop :=
  (forall i t, ts !! i = Some t -> exists t', ts' !! i = Some t' /\ T t t') /\
  (forall i t', ts !! i = None -> ts' !! i = Some t' -> N t').

(** A method leaves the engine in a state related by [R] to the one it
    found, whether it returns or raises. *)
Definition respects {A : Type} (R : relation Engine) (c : M A) : Prop :=
  forall w, R (fst w) (fst (world_of (c w))).

(** Fields that no method but the end of a day-step assigns. *)
Definition same_config (e e' : Engine) : Prop :=
  params e' = params e /\
  failure_cost_multiplier e' = failure_cost_multiplier e /\
  allow_friday_deploys e' = allow_friday_deploys e.

Definition same_ledger (e e' : Engine) : Prop :=
  total_cost e' = total_cost e /\ daily_costs e' = daily_costs e /\
  metrics e' = metrics e /\ current_date e' = current_date e.

(** ** Observing the two cost components of each day *)

Fixpoint sumQ (xs : list Q) : Q :=
  match xs with
  | [] => 0
  | x :: xs' => x + sumQ xs'
  end.




(** ** What each method does to the engine *)

(** [generate_daily_tasks] appends fresh task objects and touches nothing
    else but the counter. *)
Definition generated (e e' : Engine) : Prop :=
  same_config e e' /\ same_ledger e e' /\
  exists new, tasks e' = tasks e ++ new /\ Forall fresh new.

(** The effect of one dependency loop on its task object: some dependencies
    were removed. *)
Definition resolve_step (t t' : Task) : Prop :=
  exists ds, sublist ds (dependencies t) /\ t' = set_dependencies ds t.

(** Only the task object at position [i] was assigned to, along [T]. *)
Definition modified_at (i : nat) (T : relation Task) (ts ts' : list Task)
  : Prop :=
  length ts' = length ts /\
  (forall j, j <> i -> ts' !! j = ts !! j) /\
  (forall t, ts !! i = Some t -> exists t', ts' !! i = Some t' /\ T t t').

Definition resolving (i : nat) (e e' : Engine) : Prop :=
  same_config e e' /\ same_ledger e e' /\
  modified_at i resolve_step (tasks e) (tasks e').

Definition progressing (i : nat) (e e' : Engine) : Prop :=
  same_config e e' /\ same_ledger e e' /\
  modified_at i (rtc progress_step) (tasks e) (tasks e').

(** [progress_tasks] moves task objects along [progress_step] and touches
    nothing else. *)
Definition progressed (e e' : Engine) : Prop :=
  same_config e e' /\ same_ledger e e' /\
  registry_rel (rtc progress_step) (fun _ => False) (tasks e) (tasks e').

Definition task_deployed (d : Z) (t : Task) : Task :=
  set_deploy_date d (set_status DEPLOYED t).

Definition task_failed (h : Q) (t : Task) : Task :=
  set_recovery_hours h (set_status FAILED t).

(** The task objects referenced by [refs] were each assigned the outcome of
    one deployment attempt on day [d] with recovery time [h]; the others
    were not assigned to. *)
Definition attempted (refs : list nat) (d : Z) (h : Q) (ts ts' : list Task)
  : Prop :=
  length ts' = length ts /\
  (forall j, j ∉ refs -> ts' !! j = ts !! j) /\
  (forall j t, j ∈ refs -> ts !! j = Some t ->
     ts' !! j = Some (task_deployed d t) \/ ts' !! j = Some (task_failed h t)).

(** What the loop of [attempt_deployments] over [refs] does to the engine
    [e], started with the local [daily_cost] at [acc] and ending with it at
    [c]. *)
Definition deploy_loop_post (refs : list nat) (acc : Q) (e : Engine)
    (c : Q) (e' : Engine) : Prop :=
  same_config e e' /\
  current_date e' = current_date e /\
  daily_costs e' = daily_costs e /\
  task_counter e' = task_counter e /\
  delayed_tasks (metrics e') = delayed_tasks (metrics e) /\
  attempted refs (current_date e) (calculate_recovery_time e)
    (tasks e) (tasks e') /\
  total_cost e' - total_cost e == c - acc.

(** What [attempt_deployments] does to the engine [e], returning [c]. *)
Definition attempt_post (e : Engine) (c : Q) (e' : Engine) : Prop :=
  if should_deploy_today e
  then deploy_loop_post (ready_refs (tasks e)) 0 e c e'
  else e' = e /\ c = 0.

(** The delay cost of the day: one day of revenue per ready task. *)
Definition delay_cost_of (e : Engine) : Q :=
  inject_Z (Z.of_nat (length (ready_tasks (tasks e))))
  * hourly_revenue (params e) * 24.

(** The engine after [calculate_daily_delay_cost] charged the delay. *)
Definition charge_delay (e : Engine) : Engine :=
  set_metrics
    (mkMetrics (failed_deploys (metrics e)) (successful_deploys (metrics e))
               (delayed_tasks (metrics e)
                + Z.of_nat (length (ready_tasks (tasks e))))
               (total_recovery_hours (metrics e)))
    (set_total_cost (total_cost e + delay_cost_of e) e).

(** Deploys are skipped today and some task is waiting. *)
Definition delayed_today (e : Engine) : bool :=
  negb (should_deploy_today e)
  && bool_decide (0 < length (ready_tasks (tasks e)))%nat.

(** A task object moved by at most one step of [attempt_deployments]. *)
Definition deploy_step_opt (ps : Params) (t t' : Task) : Prop :=
  t' = t \/ deploy_step ps t t'.

(** [attempt_deployments] moves task objects along [deploy_step]. *)
Definition deployed (e e' : Engine) : Prop :=
  same_config e e' /\
  registry_rel (deploy_step_opt (params e)) (fun _ => False)
    (tasks e) (tasks e').

(** A task object that was built by [generate_daily_tasks] and then moved
    along its life cycle. *)
Definition born (ps : Params) (t' : Task) : Prop :=
  exists t0, fresh t0 /\ rtc (task_step ps) t0 t'.

(** What any sequence of method calls does to the registry: the task objects
    stay in place and move along their life cycle; new ones are born. *)
Definition evolved (e e' : Engine) : Prop :=
  same_config e e' /\
  registry_rel (rtc (task_step (params e))) (born (params e))
    (tasks e) (tasks e').



(** The defaults with one new task per day. *)
Definition one_task_per_day : Params :=
  mkParams 5 75 1 (1, 5)%Z 1000 2000 0.05 3 2 1 0.3
           (other_teams SIMULATION_DEFAULTS).

(** A Monday on which one task without dependencies is created and stays in
    progress (draws: complexity, dependency, readiness); the rest of the tape
    is for the Tuesday: a second task that stays in progress, the first one
    becoming ready (0.1) and being deployed (0.5). *)
Definition monday_evening : World :=
  call SimulateDay
    (init monday true (Some one_task_per_day) 1,
     rng_of [0.5; 0.9; 0.9; 0.5; 0.9; 0.1; 0.9; 0.5]).

(** The three tasks of a Monday under the defaults: the first one waits for
    the Security Team (draws 0.1 and 0.6), the others for nobody. *)
Definition monday_tasks : Engine :=
  fst (call GenerateDailyTasks
         (init monday true None 1, rng_of [0.5; 0.1; 0.6; 0.5; 0.9; 0.5; 0.9])).


(** A Monday on which the task of the day becomes ready (0.1) and fails to
    deploy (0.01). *)
Definition monday_failure (ps : Params) : Engine :=
  fst (call SimulateDay
         (init monday true (Some ps) 1, rng_of [0.5; 0.9; 0.1; 0.01])).

(** Friday, Saturday or Sunday. *)
Definition weekend_rate (d : Z) : Prop :=
  weekday d = 4%Z \/ weekday d = 5%Z \/ weekday d = 6%Z.

(** A Friday on which deploys are allowed, with one task that is ready. *)
Definition ready_on_friday : Engine :=
  set_tasks [mkTask 1 friday 3 READY_TO_DEPLOY None 0 []]
            (init friday true None 1).

(** [simulate_day] up to the point where the delay cost is computed; the
    value is the local [deploy_cost]. *)
Definition day_until_delay : M Q :=
  _ ← generate_daily_tasks;
  _ ← progress_tasks;
  attempt_deployments.

(** The day is a Friday and the policy forbids Friday deploys. *)
Definition deploys_skipped (e : Engine) : Prop :=
  weekday (current_date e) = 4%Z /\ allow_friday_deploys e = false.

(** A Friday without Friday deploys: the task of the day becomes ready (0.1)
    and waits. *)
Definition blocked_friday : World :=
  (init friday false (Some one_task_per_day) 1, rng_of [0.5; 0.9; 0.1]).

(** The Saturday after [blocked_friday]: the tape is exhausted and every
    draw is 0, so both tasks fail to deploy. *)
Definition saturday_evening : World :=
  call SimulateDay (call SimulateDay blocked_friday).

(** ** Two runs that differ in the failure-cost multiplier *)


(** Run from engines related by [Sim] and the same generator, [c1] and [c2]
    end the same way, with values related by [Rv], engines related by [Sim]
    and the same generator. *)
Definition related {A : Type} (Sim : relation Engine) (Rv : A -> A -> Prop)
    (c1 c2 : M A) : Prop :=
  forall e1 e2 g, Sim e1 e2 ->
    match c1 (e1, g), c2 (e2, g) with
    | Ok a1 (e1', g1'), Ok a2 (e2', g2') =>
        Rv a1 a2 /\ Sim e1' e2' /\ g1' = g2'
    | Raise x1 (e1', g1'), Raise x2 (e2', g2') =>
        x1 = x2 /\ Sim e1' e2' /\ g1' = g2'
    | _, _ => False
    end.




(** The value a call returned, if it did. *)
Definition returned {A : Type} (r : result A) : option A :=
  match r with
  | Ok a _ => Some a
  | Raise _ _ => None
  end.

(** One day of one task that becomes ready (0.1) and, if a deployment is
    attempted, deploys (0.5); the engine forbids Friday deploys and is
    constructed on the day [now]. *)
Definition one_day_from (now : Z) : result SimulationResult :=
  run_simulation 1
    (init now false (Some one_task_per_day) 1, rng_of [0.5; 0.9; 0.1; 0.5]).

(** ** Caller-contract violations *)

(** The three violations named by the specification, for a run of [days]
    days under the parameters [ps]. *)
Definition contract_violated (days : Z) (ps : Params) : Prop :=
  (days <= 0)%Z \/
  (other_teams ps = [] /\ ~ dependency_probability ps == 0) \/
  (snd (task_complexity_range ps) < fst (task_complexity_range ps))%Z.

(** The defaults without external teams. *)
Definition no_teams : Params :=
  mkParams 5 75 3 (1, 5)%Z 1000 2000 0.05 3 2 1 0.3 [].

(** The defaults with the complexity range reversed. *)
Definition reversed_range : Params :=
  mkParams 5 75 3 (5, 1)%Z 1000 2000 0.05 3 2 1 0.3
           (other_teams SIMULATION_DEFAULTS).

(** ** Two runs that differ in the construction date *)

(** Two task objects that differ in their dates at most. *)
Definition same_but_dates (t1 t2 : Task) : Prop :=
  id t2 = id t1 /\ complexity t2 = complexity t1 /\ status t2 = status t1 /\
  recovery_hours t2 = recovery_hours t1 /\
  dependencies t2 = dependencies t1.

(** The engine [e2] is in the state of [e1] but for the dates: its clock
    shows the same day of the week. *)
Definition same_weekday (e1 e2 : Engine) : Prop :=
  params e2 = params e1 /\
  failure_cost_multiplier e2 = failure_cost_multiplier e1 /\
  allow_friday_deploys e2 = allow_friday_deploys e1 /\
  weekday (current_date e2) = weekday (current_date e1) /\
  Forall2 same_but_dates (tasks e1) (tasks e2) /\
  task_counter e2 = task_counter e1 /\
  total_cost e2 = total_cost e1 /\
  daily_costs e2 = daily_costs e1 /\
  metrics e2 = metrics e1.

(** * Further definitions: the rest of the engine's behaviour *)

(** ** Invariants with a precondition *)

(** A method keeps [P], whether it returns or raises. *)
Definition preserves {A : Type} (P : World -> Prop) (c : M A) : Prop :=
  forall w, P w -> P (world_of (c w)).

(** From a state in [P], a method returns, with a value and a state in [Q]. *)
Definition returns {A : Type} (P : World -> Prop) (c : M A)
    (Q : A -> World -> Prop) : Prop :=
  forall w, P w -> exists a w', c w = Ok a w' /\ Q a w'.

(** ** Task identifiers *)

(** Later entries are larger. *)
Definition increasing (ns : list Z) : Prop :=
  forall i j a b, (i < j)%nat -> ns !! i = Some a -> ns !! j = Some b ->
    (a < b)%Z.

(** No task object was assigned a new [id] and the counter is the same. *)
Definition same_ids (e e' : Engine) : Prop :=
  task_counter e' = task_counter e /\ id <$> tasks e' = id <$> tasks e.

(** The registry of [e'] continues that of [e] with task objects whose
    identifiers increase and lie between the two counters. *)
Definition ids_extended (e e' : Engine) : Prop :=
  (task_counter e <= task_counter e')%Z /\
  exists new,
    id <$> tasks e' = (id <$> tasks e) ++ new /\
    increasing new /\
    Forall (fun n => (task_counter e < n <= task_counter e')%Z) new.

(** ** Worked examples *)

(** A Friday with Friday deploys on which the task of the day becomes ready
    (0.1) and fails to deploy (0.01). *)
Definition friday_failure : World :=
  call SimulateDay
    (init friday true (Some one_task_per_day) 1, rng_of [0.5; 0.9; 0.1; 0.01]).

(** ** Configurations and random tapes *)

(** Every dependency of every task names a configured team. *)
Definition known_team (ps : Params) (d : string) : Prop :=
  exists team, team ∈ other_teams ps /\ name team = d.

Definition known_teams (e : Engine) : Prop :=
  forall t d, t ∈ tasks e -> d ∈ dependencies t -> known_team (params e) d.

(** The configuration that [generate_daily_tasks] needs: a complexity range
    that is not empty, and a team to choose from unless no task ever gets a
    dependency. *)
Definition well_configured (ps : Params) : Prop :=
  (fst (task_complexity_range ps) <= snd (task_complexity_range ps))%Z /\
  (other_teams ps <> [] \/ dependency_probability ps <= 0).

(** Every draw of the generator lies in the unit interval, as the draws of
    [random.random()] do. *)
Definition unit_tape (g : Rng) : Prop :=
  forall n, 0 <= tape g n /\ tape g n < 1.

(** The configuration is well formed and the draws are in range. *)
Definition frame_ok (w : World) : Prop :=
  well_configured (params (fst w)) /\ unit_tape (snd w).


(** A call keeps the parameters, and keeps [known_teams] if it held. *)
Definition teams_kept (e e' : Engine) : Prop :=
  params e' = params e /\ (known_teams e -> known_teams e').

(** ** The total cost in terms of the metrics *)

(** The cost of the recovery hours and of the delayed tasks counted in the
    metrics. *)
Definition cost_of_metrics (e : Engine) : Q :=
  total_recovery_hours (metrics e)
  * (team_size (params e) * avg_hourly_rate (params e)
     + hourly_downtime_cost (params e))
  * failure_cost_multiplier e
  + inject_Z (delayed_tasks (metrics e)) * hourly_revenue (params e) * 24.

(** A call keeps the configuration, and keeps the total cost equal to
    [cost_of_metrics] if it was. *)
Definition cost_kept (e e' : Engine) : Prop :=
  same_config e e' /\
  (total_cost e == cost_of_metrics e -> total_cost e' == cost_of_metrics e').

(** ** Policies and risks that switch a cost off *)

(** A call keeps the policy flag, and adds no delayed task if Friday deploys
    are allowed. *)
Definition delay_kept (e e' : Engine) : Prop :=
  allow_friday_deploys e' = allow_friday_deploys e /\
  (allow_friday_deploys e = true ->
   delayed_tasks (metrics e') = delayed_tasks (metrics e)).

(** No deployment can fail: the failure rate is not positive and the draws
    are in range; [failed] and [hours] are the failure metrics. *)
Definition no_risk (failed : Z) (hours : Q) (w : World) : Prop :=
  base_deploy_failure_rate (params (fst w)) <= 0 /\
  unit_tape (snd w) /\
  failed_deploys (metrics (fst w)) = failed /\
  total_recovery_hours (metrics (fst w)) = hours.

(** ** Invariants of the engine *)

(** A call keeps the property [I] of the engine, if it held. *)
Definition keeps (I : Engine -> Prop) (e e' : Engine) : Prop := I e -> I e'.

(** ** The metrics and the registry *)




(** A task object that kept its recovery hours and did not enter or leave a
    final status. *)
Definition quiet (t t' : Task) : Prop :=
  recovery_hours t' = recovery_hours t /\
  (status t' = DEPLOYED <-> status t = DEPLOYED) /\
  (status t' = FAILED <-> status t = FAILED).

(** ** The dates on a task object *)

(** Seen from the engine [e]: the task was created no later than today, and
    if it carries a deploy date, it was deployed between its creation and
    today, on a day other than a Friday when the policy forbids Friday
    deploys. *)
Definition dates_ordered (e : Engine) (t : Task) : Prop :=
  (created_date t <= current_date e)%Z /\
  forall d, deploy_date t = Some d ->
    (created_date t <= d <= current_date e)%Z /\
    (allow_friday_deploys e = false -> weekday d <> 4%Z).

Definition dates_kept (e : Engine) : Prop :=
  Forall (dates_ordered e) (tasks e).

(** ** Costs that cannot be negative *)

(** No rate, duration or multiplier that enters a cost is negative. *)
Definition nonneg_costs (e : Engine) : Prop :=
  0 <= team_size (params e) /\
  0 <= avg_hourly_rate (params e) /\
  0 <= hourly_downtime_cost (params e) /\
  0 <= hourly_revenue (params e) /\
  0 <= normal_recovery_hours (params e) /\
  0 <= weekend_recovery_multiplier (params e) /\
  0 <= failure_cost_multiplier e.

(** A call keeps the configuration, and does not lower the running total if
    no cost can be negative. *)
Definition cost_grows (e e' : Engine) : Prop :=
  same_config e e' /\ (nonneg_costs e -> total_cost e <= total_cost e').

(** No day cost in the ledger is negative, if no cost can be. *)
Definition daily_nonneg (e : Engine) : Prop :=
  nonneg_costs e -> Forall (fun c => 0 <= c) (daily_costs e).

(** ** The tasks of a day *)

(** A task object as [generate_daily_tasks] builds it on the day [today]
    under the parameters [ps], with identifier [n]. *)
Definition as_generated (ps : Params) (today : Z) (n : Z) (t : Task) : Prop :=
  id t = n /\ created_date t = today /\ status t = IN_PROGRESS /\
  deploy_date t = None /\ recovery_hours t = 0 /\
  (fst (task_complexity_range ps) <= complexity t
   <= snd (task_complexity_range ps))%Z /\
  (dependencies t = [] \/
   exists team, team ∈ other_teams ps /\ dependencies t = [name team]).

(** ** The comparison of the two strategies *)

(** [[sum(daily_costs[:i+1]) for i in range(len(daily_costs))]] *)
Definition cumulative (daily_costs : list Q) : list Q :=
  (fun i => sumQ (take (S i) daily_costs)) <$> seq 0 (length daily_costs).


(** ** What a call never takes back *)

(** The counters, the clock, the registry and the ledger of [e'] continue
    those of [e]. *)
Definition grown (e e' : Engine) : Prop :=
  (task_counter e <= task_counter e')%Z /\
  (current_date e <= current_date e')%Z /\
  (length (tasks e) <= length (tasks e'))%nat /\
  daily_costs e `prefix_of` daily_costs e' /\
  (failed_deploys (metrics e) <= failed_deploys (metrics e'))%Z /\
  (successful_deploys (metrics e) <= successful_deploys (metrics e'))%Z /\
  (delayed_tasks (metrics e) <= delayed_tasks (metrics e'))%Z.

(** ** Parameters that no method reads *)

(** Two teams that differ in [allows_friday_deploys] at most. *)
Definition same_team (t1 t2 : Team) : Prop :=
  name t2 = name t1 /\ task_completion_rate t2 = task_completion_rate t1.

(** Two configurations that differ at most in [context_switch_cost_hours]
    and in the [allows_friday_deploys] of their teams. *)
Definition same_read (p1 p2 : Params) : Prop :=
  team_size p2 = team_size p1 /\
  avg_hourly_rate p2 = avg_hourly_rate p1 /\
  new_tasks_per_day p2 = new_tasks_per_day p1 /\
  task_complexity_range p2 = task_complexity_range p1 /\
  hourly_revenue p2 = hourly_revenue p1 /\
  hourly_downtime_cost p2 = hourly_downtime_cost p1 /\
  base_deploy_failure_rate p2 = base_deploy_failure_rate p1 /\
  weekend_recovery_multiplier p2 = weekend_recovery_multiplier p1 /\
  normal_recovery_hours p2 = normal_recovery_hours p1 /\
  dependency_probability p2 = dependency_probability p1 /\
  Forall2 same_team (other_teams p1) (other_teams p2).

(** The engine [e2] is in the state of [e1], under a configuration that
    differs in the parameters above at most. *)
Definition same_but_unread (e1 e2 : Engine) : Prop :=
  same_read (params e1) (params e2) /\
  failure_cost_multiplier e2 = failure_cost_multiplier e1 /\
  allow_friday_deploys e2 = allow_friday_deploys e1 /\
  current_date e2 = current_date e1 /\
  tasks e2 = tasks e1 /\
  task_counter e2 = task_counter e1 /\
  total_cost e2 = total_cost e1 /\
  daily_costs e2 = daily_costs e1 /\
  metrics e2 = metrics e1.

(** The defaults with one task per day, a context switch of seven hours and
    teams that allow Friday deploys. *)
Definition other_unread : Params :=
  mkParams 5 75 1 (1, 5)%Z 1000 2000 0.05 3 2 7 0.3
    [ mkTeam "Backend Team" 0.2 true; mkTeam "Security Team" 0.1 true ].
(** * Properties *)

(** ** Numbers *)

Lemma Qltb_lt (x y : Q) : Qltb x y = true <-> x < y.
Proof. unfold Qltb, Qlt. apply Z.ltb_lt. Qed.

Lemma Qltb_ge (x y : Q) : Qltb x y = false <-> y <= x.
Proof. unfold Qltb, Qle. apply Z.ltb_ge. Qed.

(** ** The monad *)

Lemma bind_eq {A B : Type} (c : M A) (f : A -> M B) (w : World) :
  (c ≫= f) w =
  match c w with
  | Ok a w' => f a w'
  | Raise x w' => Raise x w'
  end.
Proof. reflexivity. Qed.

Section Respects.
Context (R : relation Engine) `{!PreOrder R}.

Lemma respects_ret {A : Type} (a : A) : respects R (mret a).
Proof. intros w. reflexivity. Qed.

Lemma respects_raise {A : Type} (x : exn) : respects R (@raise A x).
Proof. intros w. reflexivity. Qed.

Lemma respects_get : respects R get_self.
Proof. intros w. reflexivity. Qed.

Lemma respects_random : respects R random.
Proof. intros w. reflexivity. Qed.

Lemma respects_modify (f : Engine -> Engine) :
  (forall e, R e (f e)) -> respects R (modify_self f).
Proof. intros Hf w. apply Hf. Qed.

Lemma respects_bind {A B : Type} (c : M A) (f : A -> M B) :
  respects R c -> (forall a, respects R (f a)) -> respects R (c ≫= f).
Proof.
  intros Hc Hf w. rewrite bind_eq. specialize (Hc w).
  destruct (c w) as [a w'|x w']; simpl in *; [|exact Hc].
  etrans; [exact Hc|]. apply Hf.
Qed.

Lemma respects_randint (a b : Z) : respects R (randint a b).
Proof.
  unfold randint. destruct (b <? a)%Z.
  - apply respects_raise.
  - apply respects_bind; [apply respects_random|].
    intros u. apply respects_ret.
Qed.

Lemma respects_choice {A : Type} (xs : list A) : respects R (choice xs).
Proof.
  unfold choice. destruct xs as [|x xs]; [apply respects_raise|].
  apply respects_bind; [apply respects_random|]. intros u.
  destruct (_ !! _); [apply respects_ret|apply respects_raise].
Qed.

Lemma respects_team_named (dep : string) (teams : list Team) :
  respects R (team_named dep teams).
Proof.
  unfold team_named.
  destruct (List.find _ _); [apply respects_ret|apply respects_raise].
Qed.

Lemma respects_for_each {A B : Type} (body : B -> A -> M B) (xs : list A) :
  (forall acc x, respects R (body acc x)) ->
  forall acc, respects R (for_each body acc xs).
Proof.
  intros Hbody. induction xs as [|x xs IH]; intros acc; simpl.
  - apply respects_ret.
  - apply respects_bind; [apply Hbody|]. intros acc'. apply IH.
Qed.

Lemma respects_repeat_times (n : nat) (body : M unit) :
  respects R body -> respects R (repeat_times n body).
Proof.
  intros Hbody. induction n as [|n IH]; simpl.
  - apply respects_ret.
  - apply respects_bind; [exact Hbody|]. intros _. exact IH.
Qed.
End Respects.

(** Decomposes a method body along its binds and branches, leaving the
    assignments. *)
Ltac respects_step :=
  first
    [ simple apply respects_ret; typeclasses eauto
    | simple apply respects_raise; typeclasses eauto
    | simple apply respects_get; typeclasses eauto
    | simple apply respects_random; typeclasses eauto
    | simple apply respects_randint; typeclasses eauto
    | simple apply respects_choice; typeclasses eauto
    | simple apply respects_team_named; typeclasses eauto
    | simple apply respects_bind; [typeclasses eauto| |intros ?]
    | simple apply respects_repeat_times; [typeclasses eauto|]
    | simple apply respects_for_each; [typeclasses eauto|intros ? ?]
    | simple apply respects_modify; intros ? ].

Lemma respects_weaken {A : Type} (R R' : relation Engine) (c : M A) :
  (forall e e', R e e' -> R' e e') -> respects R c -> respects R' c.
Proof. intros HRR Hc w. apply HRR, Hc. Qed.

(** ** Relations between the engine before and after a call *)

#[global] Instance same_config_preorder : PreOrder same_config.
Proof.
  split.
  - intros e. repeat split.
  - intros e1 e2 e3 (?&?&?) (?&?&?). repeat split; congruence.
Qed.

#[global] Instance same_ledger_preorder : PreOrder same_ledger.
Proof.
  split.
  - intros e. repeat split.
  - intros e1 e2 e3 (?&?&?&?) (?&?&?&?). repeat split; congruence.
Qed.

#[global] Instance generated_preorder : PreOrder generated.
Proof.
  split.
  - intros e. split; [reflexivity|]. split; [reflexivity|].
    exists []. by rewrite app_nil_r.
  - intros e1 e2 e3 (Hc1&Hl1&new1&Ht1&Hf1) (Hc2&Hl2&new2&Ht2&Hf2).
    split; [by etrans|]. split; [by etrans|].
    exists (new1 ++ new2). rewrite Ht2, Ht1, app_assoc.
    split; [done|]. by apply Forall_app.
Qed.

(** Unfolds the monad in a straight-line body and splits on its tests. *)
Ltac run_monad :=
  unfold mbind, mret, M_bind, M_ret, raise, get_self, modify_self, random;
  cbv beta iota; cbn [fst snd world_of].

Ltac run_body :=
  run_monad;
  repeat match goal with
    | |- context [match ?x with _ => _ end] =>
        lazymatch x with
        | context [match _ with _ => _ end] => fail
        | _ => destruct x eqn:?; run_monad
        end
    end.

Lemma generate_task_generated : respects generated generate_task.
Proof.
  intros [e g]. unfold generate_task, randint, choice.
  run_body; try reflexivity.
  all: repeat split; cbn [tasks set_tasks set_task_counter].
  all: try (eexists; split; [reflexivity|]; repeat constructor).
  all: exists []; split; [by rewrite app_nil_r|constructor].
Qed.

Lemma generate_daily_tasks_generated : respects generated generate_daily_tasks.
Proof.
  unfold generate_daily_tasks. repeat respects_step.
  apply generate_task_generated.
Qed.

(** *** The registry *)

Lemma registry_rel_refl (T : relation Task) (N : Task -> Prop) :
  Reflexive T -> Reflexive (registry_rel T N).
Proof.
  intros HT ts. split.
  - intros i t Hi. by exists t.
  - intros i t' Hi Hi'. congruence.
Qed.

Lemma registry_rel_trans (T : relation Task) (N : Task -> Prop) :
  Transitive T -> (forall t t', N t -> T t t' -> N t') ->
  Transitive (registry_rel T N).
Proof.
  intros HT HN ts1 ts2 ts3 [H12 N12] [H23 N23]. split.
  - intros i t1 Hi. destruct (H12 i t1 Hi) as (t2&Hi2&HT12).
    destruct (H23 i t2 Hi2) as (t3&Hi3&HT23). exists t3. split; [done|].
    by etrans.
  - intros i t3 Hi1 Hi3. destruct (ts2 !! i) as [t2|] eqn:Hi2.
    + destruct (H23 i t2 Hi2) as (t3'&Hi3'&HT23).
      assert (t3' = t3) as -> by congruence.
      eapply HN; [|exact HT23]. by eapply N12.
    + by eapply N23.
Qed.

Lemma registry_rel_mono (T T' : relation Task) (N N' : Task -> Prop)
    (ts ts' : list Task) :
  (forall t t', T t t' -> T' t t') -> (forall t, N t -> N' t) ->
  registry_rel T N ts ts' -> registry_rel T' N' ts ts'.
Proof.
  intros HT HN [H1 H2]. split.
  - intros i t Hi. destruct (H1 i t Hi) as (t'&?&?). exists t'. auto.
  - intros i t' Hi Hi'. eauto.
Qed.

Lemma registry_rel_length (T : relation Task) (ts ts' : list Task) :
  registry_rel T (fun _ => False) ts ts' -> length ts' = length ts.
Proof.
  intros [H1 H2]. apply Nat.le_antisymm.
  - apply Nat.nlt_ge. intros Hlt.
    destruct (lookup_lt_is_Some_2 ts' (length ts) Hlt) as [t' Ht'].
    eapply H2; [|exact Ht']. by apply lookup_ge_None_2.
  - apply Nat.nlt_ge. intros Hlt.
    destruct (lookup_lt_is_Some_2 ts (length ts') Hlt) as [t Ht].
    destruct (H1 _ _ Ht) as (t'&Ht'&_).
    apply lookup_lt_Some in Ht'. lia.
Qed.

Lemma registry_rel_app (T : relation Task) (N : Task -> Prop)
    (ts new : list Task) :
  Reflexive T -> Forall N new -> registry_rel T N ts (ts ++ new).
Proof.
  intros HT Hnew. split.
  - intros i t Hi. exists t. split; [|done]. by apply lookup_app_l_Some.
  - intros i t' Hi Hi'. apply lookup_ge_None in Hi.
    rewrite lookup_app_r in Hi' by done.
    rewrite Forall_forall in Hnew. apply Hnew.
    eapply list_elem_of_lookup_2. exact Hi'.
Qed.

Lemma registry_rel_alter (T : relation Task) (N : Task -> Prop)
    (ts : list Task) (i : nat) (f : Task -> Task) :
  Reflexive T -> (forall t, ts !! i = Some t -> T t (f t)) ->
  registry_rel T N ts (alter f i ts).
Proof.
  intros HT Hf. split.
  - intros j t Hj. destruct (decide (i = j)) as [->|Hne].
    + exists (f t). rewrite list_lookup_alter_eq, Hj. split; [done|]. auto.
    + exists t. by rewrite list_lookup_alter_ne.
  - intros j t' Hj Hj'. destruct (decide (i = j)) as [->|Hne].
    + rewrite list_lookup_alter_eq, Hj in Hj'. done.
    + rewrite list_lookup_alter_ne in Hj' by done. congruence.
Qed.

Lemma modified_at_refl (i : nat) (T : relation Task) :
  Reflexive T -> Reflexive (modified_at i T).
Proof.
  intros HT ts. split; [done|]. split; [done|]. intros t Ht. by exists t.
Qed.

Lemma modified_at_trans (i : nat) (T : relation Task) :
  Transitive T -> Transitive (modified_at i T).
Proof.
  intros HT ts1 ts2 ts3 (Hl12&Ho12&Hi12) (Hl23&Ho23&Hi23).
  split; [congruence|]. split.
  - intros j Hj. rewrite Ho23, Ho12; done.
  - intros t1 Ht1. destruct (Hi12 t1 Ht1) as (t2&Ht2&HT12).
    destruct (Hi23 t2 Ht2) as (t3&Ht3&HT23). exists t3. split; [done|].
    by etrans.
Qed.

Lemma modified_at_alter (i : nat) (T : relation Task) (f : Task -> Task)
    (ts : list Task) :
  (forall t, ts !! i = Some t -> T t (f t)) -> modified_at i T ts (alter f i ts).
Proof.
  intros Hf. split; [apply length_alter|]. split.
  - intros j Hj. by apply list_lookup_alter_ne.
  - intros t Ht. exists (f t). rewrite list_lookup_alter_eq, Ht. auto.
Qed.

Lemma modified_at_mono (i : nat) (T T' : relation Task) (ts ts' : list Task) :
  (forall t t', ts !! i = Some t -> T t t' -> T' t t') ->
  modified_at i T ts ts' -> modified_at i T' ts ts'.
Proof.
  intros HT (Hl&Ho&Hi). split; [done|]. split; [done|].
  intros t Ht. destruct (Hi t Ht) as (t'&?&?). exists t'. eauto.
Qed.

Lemma modified_at_registry (i : nat) (T : relation Task) (N : Task -> Prop)
    (ts ts' : list Task) :
  Reflexive T -> modified_at i T ts ts' -> registry_rel T N ts ts'.
Proof.
  intros HT (Hl&Ho&Hi). split.
  - intros j t Hj. destruct (decide (j = i)) as [->|Hne]; [by apply Hi|].
    exists t. by rewrite Ho.
  - intros j t' Hj Hj'. apply lookup_ge_None in Hj.
    apply lookup_lt_Some in Hj'. lia.
Qed.

(** *** [progress_tasks] *)

Lemma set_dependencies_same (t : Task) : set_dependencies (dependencies t) t = t.
Proof. by destruct t. Qed.

Lemma list_remove_first_sublist (x : string) (xs : list string) :
  sublist (list_remove_first x xs) xs.
Proof.
  induction xs as [|y ys IH]; simpl; [done|].
  destruct (String.eqb y x).
  - by apply sublist_cons.
  - by apply sublist_skip.
Qed.

#[global] Instance resolve_step_preorder : PreOrder resolve_step.
Proof.
  split.
  - intros t. exists (dependencies t). by rewrite set_dependencies_same.
  - intros t1 t2 t3 (ds1&Hs1&->) (ds2&Hs2&->). exists ds2.
    split; [by etrans|done].
Qed.

#[global] Instance resolving_preorder (i : nat) : PreOrder (resolving i).
Proof.
  split.
  - intros e. split; [done|]. split; [done|]. apply modified_at_refl, _.
  - intros e1 e2 e3 (?&?&?) (?&?&?). split; [by etrans|].
    split; [by etrans|]. eapply modified_at_trans; [apply _|done..].
Qed.

#[global] Instance progressing_preorder (i : nat) : PreOrder (progressing i).
Proof.
  split.
  - intros e. split; [done|]. split; [done|]. apply modified_at_refl, _.
  - intros e1 e2 e3 (?&?&?) (?&?&?). split; [by etrans|].
    split; [by etrans|]. eapply modified_at_trans; [apply _|done..].
Qed.

#[global] Instance progressed_preorder : PreOrder progressed.
Proof.
  split.
  - intros e. split; [done|]. split; [done|]. apply registry_rel_refl, _.
  - intros e1 e2 e3 (?&?&?) (?&?&?). split; [by etrans|].
    split; [by etrans|]. eapply registry_rel_trans; [apply _|done|done..].
Qed.

Lemma resolve_dependencies_resolving (i fuel j : nat) :
  respects (resolving i) (resolve_dependencies i fuel j).
Proof.
  revert j. induction fuel as [|fuel IH]; intros j; simpl.
  - respects_step.
  - respects_step; [respects_step|].
    destruct (tasks a !! i) as [t|]; [|respects_step].
    destruct (dependencies t !! j) as [dep|]; [|respects_step].
    repeat respects_step; [|apply IH].
    destruct (Qltb _ _); repeat respects_step.
    split; [done|]. split; [done|]. apply modified_at_alter.
    intros t' _. eexists. split; [|done]. apply list_remove_first_sublist.
Qed.

Lemma resolving_progressing (i : nat) (e e' : Engine) :
  (forall t, tasks e !! i = Some t -> status t = IN_PROGRESS) ->
  resolving i e e' -> progressing i e e'.
Proof.
  intros Hs (Hc&Hl&Hm). split; [done|]. split; [done|].
  eapply modified_at_mono; [|exact Hm].
  intros t t' Ht (ds&Hds&->). apply rtc_once, step_resolve; auto.
Qed.

Lemma no_dependencies_true (i : nat) (e : Engine) (t : Task) :
  no_dependencies i e = true -> tasks e !! i = Some t -> dependencies t = [].
Proof.
  unfold no_dependencies. intros Hn Ht. rewrite Ht in Hn. simpl in Hn.
  by destruct (dependencies t).
Qed.

Lemma progress_task_progressing (i : nat) :
  respects (progressing i) (progress_task i).
Proof.
  intros [e g]. unfold progress_task. rewrite bind_eq. cbn [get_self fst].
  destruct (tasks e !! i) as [t|] eqn:Ht; [|reflexivity].
  destruct (bool_decide (status t = IN_PROGRESS)) eqn:Hs; [|reflexivity].
  apply bool_decide_eq_true in Hs.
  set (c1 := (if no_dependencies i e then mret tt
              else resolve_dependencies i (length (dependencies t)) 0)
             : M unit).
  assert (respects (resolving i) c1) as Hc.
  { subst c1. destruct (no_dependencies i e);
      [respects_step|apply resolve_dependencies_resolving]. }
  specialize (Hc (e, g)). rewrite bind_eq.
  destruct (c1 (e, g)) as [[] [e1 g1]|x [e1 g1]]; cbn [world_of fst] in Hc |- *.
  2:{ apply resolving_progressing; [|done]. intros t0 Ht0. congruence. }
  assert (progressing i e e1) as Hp.
  { apply resolving_progressing; [|done]. intros t0 Ht0. congruence. }
  destruct Hc as (_&_&_&_&Hi). destruct (Hi t Ht) as (t1&Ht1&ds&Hds&->).
  run_monad. destruct (no_dependencies i e1) eqn:Hn; [|exact Hp].
  run_monad. destruct (Qltb _ _); [|exact Hp]. cbn [world_of fst].
  etrans; [exact Hp|]. split; [done|]. split; [done|].
  apply modified_at_alter. intros t1' Ht1'. apply rtc_once, step_ready.
  - assert (t1' = set_dependencies ds t) as -> by congruence. done.
  - by eapply no_dependencies_true.
Qed.

Lemma progress_tasks_progressed : respects progressed progress_tasks.
Proof.
  unfold progress_tasks. repeat respects_step.
  eapply respects_weaken; [|apply progress_task_progressing].
  intros e e' (?&?&?). split; [done|]. split; [done|].
  eapply modified_at_registry; [apply _|done].
Qed.

(** *** [attempt_deployments] *)

(** Reads fields through the attribute assignments. *)
Tactic Notation "engine_simpl" :=
  cbn [params failure_cost_multiplier allow_friday_deploys current_date tasks
       task_counter total_cost daily_costs metrics failed_deploys
       successful_deploys delayed_tasks total_recovery_hours set_tasks
       set_task_counter set_total_cost set_daily_costs set_metrics
       set_current_date update_task fst snd world_of].
Tactic Notation "engine_simpl" "in" hyp(H) :=
  cbn [params failure_cost_multiplier allow_friday_deploys current_date tasks
       task_counter total_cost daily_costs metrics failed_deploys
       successful_deploys delayed_tasks total_recovery_hours set_tasks
       set_task_counter set_total_cost set_daily_costs set_metrics
       set_current_date update_task fst snd world_of] in H.

Lemma calculate_recovery_time_ext (e e' : Engine) :
  params e' = params e -> current_date e' = current_date e ->
  calculate_recovery_time e' = calculate_recovery_time e.
Proof. unfold calculate_recovery_time. by intros -> ->. Qed.

Lemma should_deploy_today_ext (e e' : Engine) :
  allow_friday_deploys e' = allow_friday_deploys e ->
  current_date e' = current_date e ->
  should_deploy_today e' = should_deploy_today e.
Proof. unfold should_deploy_today. by intros -> ->. Qed.

(** One iteration of the loop, as an equation. *)
Lemma deploy_task_eq (daily_cost : Q) (i : nat) (e : Engine) (g : Rng) :
  deploy_task daily_cost i (e, g) =
  if Qltb (tape g (pos g)) (base_deploy_failure_rate (params e)) then
    let h := calculate_recovery_time e in
    let cost :=
      h * team_size (params e) * avg_hourly_rate (params e)
        * failure_cost_multiplier e
      + h * hourly_downtime_cost (params e) * failure_cost_multiplier e in
    Ok (daily_cost + cost)
       (set_metrics
          (mkMetrics (failed_deploys (metrics e) + 1)
                     (successful_deploys (metrics e))
                     (delayed_tasks (metrics e))
                     (total_recovery_hours (metrics e) + h))
          (set_total_cost (total_cost e + cost)
             (update_task i (task_failed h) e)),
        rng_next g)
  else
    Ok daily_cost
       (set_metrics
          (mkMetrics (failed_deploys (metrics e))
                     (successful_deploys (metrics e) + 1)
                     (delayed_tasks (metrics e))
                     (total_recovery_hours (metrics e)))
          (update_task i (task_deployed (current_date e)) e),
        rng_next g).
Proof.
  unfold deploy_task, calculate_deploy_risk. run_monad.
  by destruct (Qltb _ _).
Qed.

Lemma deploy_loop (refs : list nat) :
  NoDup refs ->
  forall acc e g, exists c e' g',
    for_each deploy_task acc refs (e, g) = Ok c (e', g') /\
    deploy_loop_post refs acc e c e'.
Proof.
  induction 1 as [|i refs Hi Hnd IH]; intros acc e g.
  - exists acc, e, g. split; [done|]. unfold deploy_loop_post, attempted.
    repeat split; try done; [|lra]. intros j t Hj. by apply elem_of_nil in Hj.
  - cbn [for_each]. rewrite bind_eq, deploy_task_eq.
    set (h := calculate_recovery_time e).
    destruct (Qltb _ _); cbv beta iota zeta;
      match goal with |- context [for_each deploy_task ?a refs (?e1, ?g1)] =>
        destruct (IH a e1 g1) as (c&e'&g'&Hrun&Hpost) end;
      exists c, e', g'; (split; [exact Hrun|]);
      destruct Hpost as ((Hp&Hm&Ha)&Hd&Hdc&Htc&Hdl&(Hlen&Hout&Hin)&Htot);
      rewrite (calculate_recovery_time_ext e) in Hin by reflexivity;
      engine_simpl in Hp; engine_simpl in Hm; engine_simpl in Ha;
      engine_simpl in Hd; engine_simpl in Hdc; engine_simpl in Htc;
      engine_simpl in Hdl; engine_simpl in Hlen; engine_simpl in Hout;
      engine_simpl in Hin; engine_simpl in Htot; fold h in Hin.
    all: rewrite length_alter in Hlen.
    all: repeat split; try done.
    all: try (intros j Hj; apply not_elem_of_cons in Hj as [Hji Hj];
              rewrite Hout by done; by apply list_lookup_alter_ne).
    all: try (intros j t Hj Ht; apply elem_of_cons in Hj as [->|Hj];
              [ rewrite Hout by done; rewrite list_lookup_alter_eq, Ht; cbn; auto
              | apply Hin; [done|]; rewrite list_lookup_alter_ne; [done|];
                intros ->; contradiction ]).
    all: lra.
Qed.

Lemma elem_of_ready_refs (ts : list Task) (j : nat) :
  j ∈ ready_refs ts <-> is_ready ts j.
Proof.
  unfold ready_refs. rewrite list_elem_of_filter, elem_of_seq.
  split; [tauto|]. intros Hr. split; [done|]. split; [lia|].
  unfold is_ready in Hr. destruct (ts !! j) eqn:Hj; [|done].
  apply lookup_lt_Some in Hj. lia.
Qed.

Lemma NoDup_ready_refs (ts : list Task) : NoDup (ready_refs ts).
Proof. apply NoDup_filter, NoDup_seq. Qed.

Lemma attempt_deployments_spec (e : Engine) (g : Rng) :
  exists c e' g',
    attempt_deployments (e, g) = Ok c (e', g') /\ attempt_post e c e'.
Proof.
  unfold attempt_deployments, attempt_post. rewrite bind_eq.
  cbn [get_self fst]. destruct (should_deploy_today e); cbn [negb].
  - apply deploy_loop, NoDup_ready_refs.
  - exists 0, e, g. split; [reflexivity|done].
Qed.

Lemma calculate_recovery_time_cases (e : Engine) :
  calculate_recovery_time e = normal_recovery_hours (params e) \/
  calculate_recovery_time e =
    normal_recovery_hours (params e) * weekend_recovery_multiplier (params e).
Proof. unfold calculate_recovery_time. destruct (bool_decide _); auto. Qed.

Lemma attempt_post_deployed (e : Engine) (c : Q) (e' : Engine) :
  attempt_post e c e' -> deployed e e'.
Proof.
  unfold attempt_post. destruct (should_deploy_today e).
  - intros (Hc&_&_&_&_&(Hlen&Hout&Hin)&_). split; [done|]. split.
    + intros j t Hj.
      destruct (decide (j ∈ ready_refs (tasks e))) as [Hr|Hr].
      * pose proof Hr as Hready. apply elem_of_ready_refs in Hready.
        unfold is_ready in Hready. rewrite Hj in Hready.
        injection Hready as Hready.
        destruct (Hin j t Hr Hj) as [Hj'|Hj']; eexists; (split; [exact Hj'|]).
        -- right. by apply step_deployed.
        -- right. apply step_failed; [done|].
           apply calculate_recovery_time_cases.
      * exists t. rewrite Hout by done. split; [done|by left].
    + intros j t' Hj Hj'. apply lookup_ge_None in Hj.
      apply lookup_lt_Some in Hj'. lia.
  - intros [-> _]. split; [done|]. apply registry_rel_refl. by left.
Qed.

(** *** [calculate_daily_delay_cost] *)

Lemma calculate_daily_delay_cost_eq (e : Engine) (g : Rng) :
  calculate_daily_delay_cost (e, g) =
  if delayed_today e then Ok (0 + delay_cost_of e) (charge_delay e, g)
  else Ok 0 (e, g).
Proof.
  unfold calculate_daily_delay_cost, delayed_today, charge_delay,
    delay_cost_of.
  run_monad. destruct (ready_tasks (tasks e)) as [|t ts]; cbn [length].
  - rewrite bool_decide_eq_false_2 by lia. by rewrite andb_false_r.
  - rewrite bool_decide_eq_true_2 by lia. rewrite andb_true_r.
    by destruct (should_deploy_today e).
Qed.

(** *** Any method *)

#[global] Instance evolved_preorder : PreOrder evolved.
Proof.
  split.
  - intros e. split; [done|]. apply registry_rel_refl, _.
  - intros e1 e2 e3 [Hc12 H12] [Hc23 H23]. split; [by etrans|].
    destruct Hc12 as (Hp&_&_). rewrite Hp in H23.
    eapply registry_rel_trans; [apply _| |exact H12|exact H23].
    intros t t' (t0&Hf&Ht0) Htt'. exists t0. split; [done|]. by etrans.
Qed.

Lemma generated_evolved (e e' : Engine) : generated e e' -> evolved e e'.
Proof.
  intros (Hc&_&new&Ht&Hnew). split; [done|]. rewrite Ht.
  apply registry_rel_app; [apply _|].
  eapply Forall_impl; [exact Hnew|]. intros t Hfresh. by exists t.
Qed.

Lemma progressed_evolved (e e' : Engine) : progressed e e' -> evolved e e'.
Proof.
  intros (Hc&_&Hr). split; [done|].
  eapply registry_rel_mono; [| |exact Hr]; [|done].
  intros t t' Htt'. eapply rtc_subrel; [|exact Htt']. intros ???. by left.
Qed.

Lemma deployed_evolved (e e' : Engine) : deployed e e' -> evolved e e'.
Proof.
  intros (Hc&Hr). split; [done|].
  eapply registry_rel_mono; [| |exact Hr]; [|done].
  intros t t' [->|Hstep]; [done|]. apply rtc_once. by right.
Qed.

Lemma same_tasks_evolved (e e' : Engine) :
  same_config e e' -> tasks e' = tasks e -> evolved e e'.
Proof. intros Hc Ht. split; [done|]. rewrite Ht. apply registry_rel_refl, _. Qed.

Lemma attempt_deployments_deployed : respects deployed attempt_deployments.
Proof.
  intros [e g]. destruct (attempt_deployments_spec e g) as (c&e'&g'&->&Hpost).
  by eapply attempt_post_deployed.
Qed.

Lemma generate_daily_tasks_evolved : respects evolved generate_daily_tasks.
Proof.
  eapply respects_weaken;
    [apply generated_evolved|apply generate_daily_tasks_generated].
Qed.

Lemma progress_tasks_evolved : respects evolved progress_tasks.
Proof.
  eapply respects_weaken;
    [apply progressed_evolved|apply progress_tasks_progressed].
Qed.

Lemma attempt_deployments_evolved : respects evolved attempt_deployments.
Proof.
  eapply respects_weaken;
    [apply deployed_evolved|apply attempt_deployments_deployed].
Qed.

Lemma calculate_daily_delay_cost_evolved :
  respects evolved calculate_daily_delay_cost.
Proof.
  intros [e g]. rewrite calculate_daily_delay_cost_eq.
  destruct (delayed_today e); [|reflexivity].
  by apply same_tasks_evolved.
Qed.

Lemma close_day_evolved (deploy_cost delay_cost : Q) :
  respects evolved (close_day deploy_cost delay_cost).
Proof. intros [e g]. by apply same_tasks_evolved. Qed.

Lemma simulate_day_evolved : respects evolved simulate_day.
Proof.
  unfold simulate_day.
  respects_step; [apply generate_daily_tasks_evolved|].
  respects_step; [apply progress_tasks_evolved|].
  respects_step; [apply attempt_deployments_evolved|].
  respects_step; [apply calculate_daily_delay_cost_evolved|].
  apply close_day_evolved.
Qed.

Lemma run_simulation_evolved (days : Z) : respects evolved (run_simulation days).
Proof.
  unfold run_simulation.
  respects_step; [|repeat respects_step].
  respects_step. apply simulate_day_evolved.
Qed.

Lemma call_evolved (m : method) (w : World) : evolved (fst w) (fst (call m w)).
Proof.
  destruct m; cbn [call].
  - apply generate_daily_tasks_evolved.
  - apply progress_tasks_evolved.
  - apply attempt_deployments_evolved.
  - apply calculate_daily_delay_cost_evolved.
  - apply simulate_day_evolved.
  - apply run_simulation_evolved.
Qed.

(** ** Invariants of the registry *)

Lemma registry_invariant (I : Task -> Prop) (ps : Params) (ts ts' : list Task) :
  (forall t, fresh t -> I t) ->
  (forall t t', task_step ps t t' -> I t -> I t') ->
  registry_rel (rtc (task_step ps)) (born ps) ts ts' ->
  (forall t, t ∈ ts -> I t) -> forall t', t' ∈ ts' -> I t'.
Proof.
  intros Hfresh Hstep [Hold Hnew] Hts t' Ht'.
  assert (forall t1 t2, rtc (task_step ps) t1 t2 -> I t1 -> I t2) as Hrtc.
  { induction 1; eauto. }
  apply list_elem_of_lookup in Ht' as [i Hi'].
  destruct (ts !! i) as [t|] eqn:Hi.
  - destruct (Hold i t Hi) as (t''&Hi''&Htt).
    assert (t'' = t') as -> by congruence.
    eapply Hrtc; [exact Htt|]. apply Hts. by eapply list_elem_of_lookup_2.
  - destruct (Hnew i t' Hi Hi') as (t0&Hf&Ht0). eapply Hrtc; eauto.
Qed.

Lemma reachable_invariant (I : Params -> Task -> Prop) :
  (forall ps t, fresh t -> I ps t) ->
  (forall ps t t', task_step ps t t' -> I ps t -> I ps t') ->
  forall e, reachable e -> forall t, t ∈ tasks e -> I (params e) t.
Proof.
  intros Hfresh Hstep e. induction 1 as [now allow ps mult|e g m He IH].
  - intros t Ht. by apply elem_of_nil in Ht.
  - destruct (call_evolved m (e, g)) as [(Hp&_&_) Hreg]. cbn [fst] in Hp, Hreg.
    rewrite Hp. eapply registry_invariant; [apply Hfresh|apply Hstep|done..].
Qed.

Lemma task_step_status (ps : Params) (t t' : Task) :
  task_step ps t t' ->
  status t' = status t \/ transition (status t) (status t').
Proof.
  intros [Hp|Hd]; [destruct Hp as [t ds Hs _|t Hs _]
                  |destruct Hd as [t d Hs|t h Hs _]]; cbn; rewrite Hs.
  - by left.
  - right. constructor.
  - right. constructor.
  - right. constructor.
Qed.

Lemma lifecycle_status (ps : Params) (t t' : Task) :
  rtc (task_step ps) t t' -> rtc transition (status t) (status t').
Proof.
  induction 1 as [t|t1 t2 t3 H12 _ IH]; [done|].
  destruct (task_step_status _ _ _ H12) as [Heq|Htr].
  - by rewrite <- Heq.
  - by eapply rtc_l.
Qed.

Lemma terminal_status (s s' : TaskStatus) :
  rtc transition s s' -> s = DEPLOYED \/ s = FAILED -> s' = s.
Proof.
  intros Hrtc Hs. destruct Hrtc as [|s1 s2 s3 H12 _]; [done|].
  destruct Hs as [-> | ->]; inversion H12.
Qed.

Lemma progress_steps_status (t t' : Task) :
  rtc progress_step t t' ->
  status t' = status t \/ transition (status t) (status t').
Proof.
  revert t'. apply rtc_ind_r; [by left|].
  intros t2 t3 _ Hstep [Heq|Htr].
  - rewrite <- Heq. destruct Hstep as [t2 ds Hs _|t2 Hs _]; cbn; rewrite Hs.
    + by left.
    + right. constructor.
  - exfalso. destruct Hstep as [t2 ds Hs _|t2 Hs _];
      rewrite Hs in Htr; inversion Htr.
Qed.

(** ** The life cycle of a task (claim C1) *)

Lemma deploy_step_status (ps : Params) (t t' : Task) :
  deploy_step ps t t' -> transition (status t) (status t').
Proof. destruct 1 as [t d Hs|t h Hs _]; cbn; rewrite Hs; constructor. Qed.

Lemma primitive_status_step (m : method) (w : World) :
  primitive m ->
  registry_rel
    (fun t t' => status t' = status t \/ transition (status t) (status t'))
    (fun t' => status t' = IN_PROGRESS)
    (tasks (fst w)) (tasks (fst (call m w))).
Proof.
  destruct m; cbn [primitive call]; intros Hprim; try done.
  - destruct (generate_daily_tasks_generated w) as (_&_&new&->&Hnew).
    apply registry_rel_app; [by left|].
    eapply Forall_impl; [exact Hnew|]. by intros t (?&_).
  - destruct (progress_tasks_progressed w) as (_&_&Hreg).
    eapply registry_rel_mono; [| |exact Hreg]; [|done].
    apply progress_steps_status.
  - destruct (attempt_deployments_deployed w) as (_&Hreg).
    eapply registry_rel_mono; [| |exact Hreg]; [|done].
    intros t t' [->|Hstep]; [by left|right]. by eapply deploy_step_status.
  - destruct w as [e g]. rewrite calculate_daily_delay_cost_eq.
    destruct (delayed_today e); apply registry_rel_refl; by left.
Qed.

(** C1. Whatever method is called, a task object found in the registry
    afterwards has a status that lies forward of the one it had before the
    call along IN_PROGRESS -> READY_TO_DEPLOY -> {DEPLOYED, FAILED} (forward
    of IN_PROGRESS when the call created it); a status DEPLOYED or FAILED is
    kept; and each method of a day-step moves a task by at most one
    transition, so DEPLOYED and FAILED are entered from READY_TO_DEPLOY
    only. *)
Theorem task_status_moves_forward (m : method) (w : World) (i : nat)
    (t' : Task) :
  tasks (fst (call m w)) !! i = Some t' ->
  match tasks (fst w) !! i with
  | Some t =>
      rtc transition (status t) (status t') /\
      (status t = DEPLOYED \/ status t = FAILED -> status t' = status t) /\
      (primitive m ->
         status t' = status t \/ transition (status t) (status t')) /\
      (primitive m -> status t' = DEPLOYED \/ status t' = FAILED ->
         status t = status t' \/ status t = READY_TO_DEPLOY)
  | None =>
      rtc transition IN_PROGRESS (status t') /\
      (primitive m -> status t' = IN_PROGRESS)
  end.
Proof.
  intros Hi'. destruct (call_evolved m w) as [_ [Hold Hnew]].
  destruct (tasks (fst w) !! i) as [t|] eqn:Hi.
  - destruct (Hold i t Hi) as (t''&Hi''&Hlife).
    assert (t'' = t') as -> by congruence.
    apply lifecycle_status in Hlife.
    assert (primitive m ->
            status t' = status t \/ transition (status t) (status t'))
      as Hone.
    { intros Hprim. destruct (primitive_status_step m w Hprim) as [Hstep _].
      destruct (Hstep i t Hi) as (t''&Hi''2&Hs). congruence. }
    split; [done|]. split; [by apply terminal_status|]. split; [done|].
    intros Hprim Hterm. destruct (Hone Hprim) as [Heq|Htr]; [by left|].
    right. destruct Htr; [|done..]. by destruct Hterm.
  - destruct (Hnew i t' Hi Hi') as (t0&(Hs0&_)&Hlife).
    apply lifecycle_status in Hlife. rewrite Hs0 in Hlife. split; [done|].
    intros Hprim. destruct (primitive_status_step m w Hprim) as [_ Hborn].
    by eapply Hborn.
Qed.

(** On the Tuesday after [monday_evening] the task of Monday becomes ready
    and is deployed. *)
Lemma task_status_moves_forward_witness :
  let t' := mkTask 1 monday 3 DEPLOYED (Some (monday + 1)%Z) 0 [] in
  tasks (fst (call SimulateDay monday_evening)) !! O = Some t' /\
  match tasks (fst monday_evening) !! O with
  | Some t =>
      rtc transition (status t) (status t') /\
      (status t = DEPLOYED \/ status t = FAILED -> status t' = status t) /\
      (primitive SimulateDay ->
         status t' = status t \/ transition (status t) (status t')) /\
      (primitive SimulateDay -> status t' = DEPLOYED \/ status t' = FAILED ->
         status t = status t' \/ status t = READY_TO_DEPLOY)
  | None =>
      rtc transition IN_PROGRESS (status t') /\
      (primitive SimulateDay -> status t' = IN_PROGRESS)
  end.
Proof.
  intros t'. split; [reflexivity|].
  apply (task_status_moves_forward SimulateDay monday_evening O t').
  reflexivity.
Defined.

(** ** Dependencies (claim C10) *)

Lemma task_step_dependencies (ps : Params) (t t' : Task) :
  task_step ps t t' -> sublist (dependencies t') (dependencies t).
Proof.
  intros [Hp|Hd]; [destruct Hp as [t ds _ Hds|t _ _]
                  |destruct Hd as [t d _|t h _ _]]; by cbn.
Qed.

Lemma lifecycle_dependencies (ps : Params) (t t' : Task) :
  rtc (task_step ps) t t' -> sublist (dependencies t') (dependencies t).
Proof.
  induction 1 as [t|t1 t2 t3 H12 _ IH]; [done|].
  etrans; [exact IH|]. by eapply task_step_dependencies.
Qed.

(** C10. In an engine that a caller can obtain, every task object has at
    most one dependency, and whatever method is called next, the task object
    is still in the registry with dependencies that were only removed from
    (in order) those it had. *)
Theorem at_most_one_dependency (e : Engine) (g : Rng) (m : method)
    (i : nat) (t : Task) :
  reachable e -> tasks e !! i = Some t ->
  (length (dependencies t) <= 1)%nat /\
  exists t', tasks (fst (call m (e, g))) !! i = Some t' /\
             sublist (dependencies t') (dependencies t).
Proof.
  intros He Hi. split.
  - apply (reachable_invariant
             (fun _ t => (length (dependencies t) <= 1)%nat)) with (e := e).
    + by intros _ t0 (_&_&_&Hlen).
    + intros ps t1 t2 Hstep Hlen.
      apply task_step_dependencies, sublist_length in Hstep. lia.
    + done.
    + by eapply list_elem_of_lookup_2.
  - destruct (call_evolved m (e, g)) as [_ [Hold _]].
    destruct (Hold i t Hi) as (t'&Hi'&Hlife). exists t'. split; [done|].
    by eapply lifecycle_dependencies.
Qed.

(** The first task of [monday_tasks] loses its dependency when the Security
    Team completes (draw 0.05). *)
Lemma at_most_one_dependency_witness :
  let t := mkTask 1 monday 3 IN_PROGRESS None 0 ["Security Team"] in
  (length (dependencies t) <= 1)%nat /\
  exists t', tasks (fst (call ProgressTasks (monday_tasks, rng_of [0.05])))
               !! O = Some t' /\
             sublist (dependencies t') (dependencies t).
Proof.
  intros t.
  apply (at_most_one_dependency monday_tasks (rng_of [0.05]) ProgressTasks O t).
  - apply reachable_call, reachable_init.
  - reflexivity.
Defined.

(** ** [deploy_date] and [recovery_hours] against [status] (claim C8) *)







(** ** Recovery hours of a failed deployment (claim C7) *)

Lemma calculate_recovery_time_weekend (e : Engine) :
  (weekend_rate (current_date e) ->
   calculate_recovery_time e =
     normal_recovery_hours (params e) * weekend_recovery_multiplier (params e))
  /\
  (~ weekend_rate (current_date e) ->
   calculate_recovery_time e = normal_recovery_hours (params e)).
Proof.
  unfold calculate_recovery_time, weekend_rate.
  destruct (bool_decide _) eqn:Hd.
  - apply bool_decide_eq_true in Hd. split; [done|]. intros Hn.
    rewrite !elem_of_cons, elem_of_nil in Hd. tauto.
  - apply bool_decide_eq_false in Hd. split; [|done]. intros Hw.
    rewrite !elem_of_cons, elem_of_nil in Hd. tauto.
Qed.

(** C7. A task object that [attempt_deployments] turns into FAILED has
    [recovery_hours] equal to [normal_recovery_hours] times
    [weekend_recovery_multiplier] when the current day is a Friday, Saturday
    or Sunday, and equal to [normal_recovery_hours] on every other day. *)
Theorem failed_deployment_recovery_hours (e : Engine) (g : Rng) (i : nat)
    (t t' : Task) :
  tasks e !! i = Some t -> status t <> FAILED ->
  tasks (fst (call AttemptDeployments (e, g))) !! i = Some t' ->
  status t' = FAILED ->
  (weekend_rate (current_date e) ->
   recovery_hours t' =
     normal_recovery_hours (params e) * weekend_recovery_multiplier (params e))
  /\
  (~ weekend_rate (current_date e) ->
   recovery_hours t' = normal_recovery_hours (params e)).
Proof.
  intros Hi Hs Hi' Hs'. cbn [call] in Hi'.
  destruct (attempt_deployments_spec e g) as (c&e'&g'&Hrun&Hpost).
  rewrite Hrun in Hi'. cbn [world_of fst] in Hi'.
  assert (recovery_hours t' = calculate_recovery_time e) as ->;
    [|apply calculate_recovery_time_weekend].
  unfold attempt_post in Hpost. destruct (should_deploy_today e).
  - destruct Hpost as (_&_&_&_&_&(_&Hout&Hin)&_).
    destruct (decide (i ∈ ready_refs (tasks e))) as [Hr|Hr].
    + destruct (Hin i t Hr Hi) as [Hj|Hj]; rewrite Hj in Hi';
        injection Hi' as <-; [done|reflexivity].
    + rewrite Hout, Hi in Hi' by done. congruence.
  - destruct Hpost as [-> _]. congruence.
Qed.

Lemma failed_deployment_recovery_hours_witness :
  let t' := mkTask 1 friday 3 FAILED None 6 [] in
  (weekend_rate (current_date ready_on_friday) ->
   recovery_hours t' =
     normal_recovery_hours (params ready_on_friday)
     * weekend_recovery_multiplier (params ready_on_friday))
  /\
  (~ weekend_rate (current_date ready_on_friday) ->
   recovery_hours t' = normal_recovery_hours (params ready_on_friday)).
Proof.
  intros t'.
  apply (failed_deployment_recovery_hours ready_on_friday (rng_of [0.01]) O
           (mkTask 1 friday 3 READY_TO_DEPLOY None 0 []) t').
  - reflexivity.
  - discriminate.
  - reflexivity.
  - reflexivity.
Defined.

(** ** The cost of a deployment attempt (claim C6) *)



(** ** The structure of a day-step *)

Lemma bind_Ok {A B : Type} (c : M A) (f : A -> M B) (w w'' : World) (b : B) :
  (c ≫= f) w = Ok b w'' ->
  exists a w', c w = Ok a w' /\ f a w' = Ok b w''.
Proof. rewrite bind_eq. destruct (c w) as [a w'|x w']; [eauto|done]. Qed.

Lemma bind_Raise {A B : Type} (c : M A) (f : A -> M B) (w w'' : World)
    (x : exn) :
  (c ≫= f) w = Raise x w'' ->
  c w = Raise x w'' \/ exists a w', c w = Ok a w' /\ f a w' = Raise x w''.
Proof.
  rewrite bind_eq. destruct (c w) as [a w'|y w'].
  - intros Hf. right. by exists a, w'.
  - intros [= -> ->]. by left.
Qed.

Lemma should_deploy_today_false (e : Engine) :
  should_deploy_today e = false <-> deploys_skipped e.
Proof.
  unfold should_deploy_today, deploys_skipped.
  destruct (Z.eqb_spec (weekday (current_date e)) 4); [tauto|].
  split; [done|tauto].
Qed.

Lemma should_deploy_today_true (e : Engine) :
  should_deploy_today e = true <-> ~ deploys_skipped e.
Proof.
  rewrite <- should_deploy_today_false. by destruct (should_deploy_today e).
Qed.

Lemma simulate_day_from_delay (w : World) :
  simulate_day w =
  (deploy_cost ← day_until_delay;
   delay_cost ← calculate_daily_delay_cost;
   close_day deploy_cost delay_cost) w.
Proof.
  unfold simulate_day, day_until_delay. rewrite !bind_eq.
  destruct (generate_daily_tasks w) as [[] w1|x w1]; [|done].
  rewrite !bind_eq. by destruct (progress_tasks w1) as [[] w2|x w2].
Qed.

(** What the engine looks like when the delay cost is computed. *)
Lemma day_until_delay_spec (e : Engine) (g : Rng) (c : Q) (e3 : Engine)
    (g3 : Rng) :
  day_until_delay (e, g) = Ok c (e3, g3) ->
  same_config e e3 /\ current_date e3 = current_date e /\
  daily_costs e3 = daily_costs e /\
  delayed_tasks (metrics e3) = delayed_tasks (metrics e) /\
  total_cost e3 - total_cost e == c /\
  (should_deploy_today e = false -> c = 0).
Proof.
  unfold day_until_delay. intros Hrun.
  apply bind_Ok in Hrun as ([] & [e1 g1] & Hgen & Hrun).
  apply bind_Ok in Hrun as ([] & [e2 g2] & Hprog & Hrun).
  pose proof (generate_daily_tasks_generated (e, g)) as Hg.
  rewrite Hgen in Hg. destruct Hg as (Hc1&(Ht1&Hd1&Hm1&Hn1)&_).
  pose proof (progress_tasks_progressed (e1, g1)) as Hp.
  rewrite Hprog in Hp. destruct Hp as (Hc2&(Ht2&Hd2&Hm2&Hn2)&_).
  cbn [world_of fst] in *.
  destruct (attempt_deployments_spec e2 g2) as (c'&e3'&g3'&Hatt&Hpost).
  rewrite Hatt in Hrun. injection Hrun as -> -> ->.
  assert (should_deploy_today e2 = should_deploy_today e) as Hsd.
  { destruct Hc1 as (_&_&Ha1), Hc2 as (_&_&Ha2).
    apply should_deploy_today_ext; congruence. }
  unfold attempt_post in Hpost. rewrite Hsd in Hpost.
  destruct (should_deploy_today e).
  - destruct Hpost as (Hc3&Hn3&Hd3&_&Hm3&_&Htot).
    split; [by do 2 (etrans; [|done])|].
    repeat split; try congruence.
    rewrite <- Ht1, <- Ht2. rewrite Htot. ring.
  - destruct Hpost as [-> ->].
    split; [by etrans|]. repeat split; try congruence.
    rewrite Ht2, Ht1. ring.
Qed.

(** ** The delay cost of a day (claim C5) *)



(** ** The ledger (claim C9) *)

Lemma sumQ_app (xs : list Q) (c : Q) : sumQ (xs ++ [c]) == sumQ xs + c.
Proof.
  induction xs as [|x xs IH]; cbn [sumQ app]; [ring|]. rewrite IH. ring.
Qed.

Lemma simulate_day_ledger_Ok (e : Engine) (g : Rng) (e' : Engine) (g' : Rng) :
  simulate_day (e, g) = Ok tt (e', g') ->
  exists c, daily_costs e' = daily_costs e ++ [c] /\
            total_cost e' == total_cost e + c.
Proof.
  rewrite simulate_day_from_delay. intros Hrun.
  apply bind_Ok in Hrun as (deploy_cost & [e3 g3] & Huntil & Hrun).
  apply bind_Ok in Hrun as (delay_cost & [e4 g4] & Hdelay & Hrun).
  injection Hrun as <- <-. engine_simpl.
  destruct (day_until_delay_spec _ _ _ _ _ Huntil) as (_&_&Hdc&_&Htot&_).
  rewrite calculate_daily_delay_cost_eq in Hdelay.
  exists (deploy_cost + delay_cost).
  destruct (delayed_today e3); injection Hdelay as <- <- <-;
    unfold charge_delay; engine_simpl; (split; [by rewrite Hdc|lra]).
Qed.

Lemma simulate_day_ledger_Raise (e : Engine) (g : Rng) (x : exn) (e' : Engine)
    (g' : Rng) :
  simulate_day (e, g) = Raise x (e', g') -> same_ledger e e'.
Proof.
  unfold simulate_day. intros Hrun.
  pose proof (generate_daily_tasks_generated (e, g)) as Hg.
  apply bind_Raise in Hrun as [Hgen|([] & [e1 g1] & Hgen & Hrun)];
    rewrite Hgen in Hg; destruct Hg as (_&Hl1&_); [done|].
  pose proof (progress_tasks_progressed (e1, g1)) as Hp.
  apply bind_Raise in Hrun as [Hprog|([] & [e2 g2] & Hprog & Hrun)];
    rewrite Hprog in Hp; destruct Hp as (_&Hl2&_); [by etrans|].
  exfalso.
  destruct (attempt_deployments_spec e2 g2) as (c&e3&g3&Hatt&_).
  apply bind_Raise in Hrun as [Hraise|(c' & [e3' g3'] & _ & Hrun)];
    [congruence|].
  apply bind_Raise in Hrun as [Hraise|(? & ? & _ & Hrun)]; [|done].
  rewrite calculate_daily_delay_cost_eq in Hraise.
  by destruct (delayed_today e3').
Qed.



(** ** Two runs that differ in the failure-cost multiplier (claim C2) *)

Section Related.
Context (Sim : relation Engine).

Lemma related_ret {A : Type} (Rv : A -> A -> Prop) (a1 a2 : A) :
  Rv a1 a2 -> related Sim Rv (mret a1) (mret a2).
Proof. intros Ha e1 e2 g Hsim. by cbn. Qed.

Lemma related_raise {A : Type} (Rv : A -> A -> Prop) (x : exn) :
  related Sim Rv (raise x) (raise x).
Proof. intros e1 e2 g Hsim. by cbn. Qed.

Lemma related_get : related Sim Sim get_self get_self.
Proof. intros e1 e2 g Hsim. by cbn. Qed.

Lemma related_random : related Sim eq random random.
Proof. intros e1 e2 g Hsim. by cbn. Qed.

Lemma related_modify (f1 f2 : Engine -> Engine) :
  (forall e1 e2, Sim e1 e2 -> Sim (f1 e1) (f2 e2)) ->
  related Sim eq (modify_self f1) (modify_self f2).
Proof. intros Hf e1 e2 g Hsim. cbn. auto. Qed.

Lemma related_bind {A B : Type} (Rv : A -> A -> Prop) (Rv' : B -> B -> Prop)
    (c1 c2 : M A) (f1 f2 : A -> M B) :
  related Sim Rv c1 c2 ->
  (forall a1 a2, Rv a1 a2 -> related Sim Rv' (f1 a1) (f2 a2)) ->
  related Sim Rv' (c1 ≫= f1) (c2 ≫= f2).
Proof.
  intros Hc Hf e1 e2 g Hsim. rewrite !bind_eq. specialize (Hc e1 e2 g Hsim).
  destruct (c1 (e1, g)) as [a1 [e1' g1']|x1 [e1' g1']],
           (c2 (e2, g)) as [a2 [e2' g2']|x2 [e2' g2']]; try done.
  destruct Hc as (Ha&Hsim'&<-). by apply Hf.
Qed.

Lemma related_mono {A : Type} (Rv Rv' : A -> A -> Prop) (c1 c2 : M A) :
  (forall a1 a2, Rv a1 a2 -> Rv' a1 a2) ->
  related Sim Rv c1 c2 -> related Sim Rv' c1 c2.
Proof.
  intros HR Hc e1 e2 g Hsim. specialize (Hc e1 e2 g Hsim).
  destruct (c1 (e1, g)) as [a1 [e1' g1']|x1 [e1' g1']],
           (c2 (e2, g)) as [a2 [e2' g2']|x2 [e2' g2']]; try done.
  destruct Hc as (Ha&Hsim'&Hg). auto.
Qed.

Lemma related_randint (a b : Z) : related Sim eq (randint a b) (randint a b).
Proof.
  unfold randint. destruct (b <? a)%Z; [apply related_raise|].
  eapply related_bind; [apply related_random|].
  intros u ? <-. by apply related_ret.
Qed.

Lemma related_choice {A : Type} (xs : list A) :
  related Sim eq (choice xs) (choice xs).
Proof.
  unfold choice. destruct xs as [|x xs]; [apply related_raise|].
  eapply related_bind; [apply related_random|]. intros u ? <-.
  destruct (_ !! _); [by apply related_ret|apply related_raise].
Qed.

Lemma related_team_named (dep : string) (teams : list Team) :
  related Sim eq (team_named dep teams) (team_named dep teams).
Proof.
  unfold team_named.
  destruct (List.find _ _); [by apply related_ret|apply related_raise].
Qed.

Lemma related_for_each {A B : Type} (Racc : B -> B -> Prop)
    (body1 body2 : B -> A -> M B) (xs : list A) :
  (forall acc1 acc2 x, Racc acc1 acc2 ->
     related Sim Racc (body1 acc1 x) (body2 acc2 x)) ->
  forall acc1 acc2, Racc acc1 acc2 ->
    related Sim Racc (for_each body1 acc1 xs) (for_each body2 acc2 xs).
Proof.
  intros Hbody. induction xs as [|x xs IH]; intros acc1 acc2 Hacc; cbn [for_each].
  - by apply related_ret.
  - eapply related_bind; [by apply Hbody|]. apply IH.
Qed.

Lemma related_repeat_times (n : nat) (body1 body2 : M unit) :
  related Sim eq body1 body2 ->
  related Sim eq (repeat_times n body1) (repeat_times n body2).
Proof.
  intros Hbody. induction n as [|n IH]; cbn [repeat_times].
  - by apply related_ret.
  - eapply related_bind; [exact Hbody|]. by intros _ _ _.
Qed.

End Related.




Section RelatedMethods.
Context (k : Q).









End RelatedMethods.

Section RelatedCosts.
Context (k : Q).







End RelatedCosts.

(** *** Observed runs against the methods *)









(** ** The construction date (claim C3) *)

(** C3 fails on the code.  Two engines with the same policy, parameters and
    multiplier, fed the same draws for one day, return different results
    when one is constructed on a Monday and the other on a Friday: the
    constructor reads the clock, and the day of the week decides whether the
    ready task is deployed (cost 0) or delayed (cost 24000). *)
Theorem result_depends_on_construction_day :
  returned (one_day_from monday)
    = Some (mkResult 0 [0] (mkMetrics 0 1 0 0) false) /\
  returned (one_day_from friday)
    = Some (mkResult 24000 [24000] (mkMetrics 0 0 1 0) false) /\
  returned (one_day_from monday) <> returned (one_day_from friday).
Proof.
  assert (returned (one_day_from monday)
          = Some (mkResult 0 [0] (mkMetrics 0 1 0 0) false)) as Hmon
    by (vm_compute; reflexivity).
  assert (returned (one_day_from friday)
          = Some (mkResult 24000 [24000] (mkMetrics 0 0 1 0) false)) as Hfri
    by (vm_compute; reflexivity).
  split; [done|]. split; [done|]. rewrite Hmon, Hfri. discriminate.
Qed.

(** ** Caller-contract violations (claim C4) *)

Lemma run_simulation_no_days (days : Z) (e : Engine) (g : Rng) :
  (days <= 0)%Z -> run_simulation days (e, g) = Ok (result_of e) (e, g).
Proof.
  intros Hdays. unfold run_simulation.
  assert (Z.to_nat days = O) as -> by lia. reflexivity.
Qed.

Lemma generate_task_reversed_range (e : Engine) (g : Rng) :
  (snd (task_complexity_range (params e))
   < fst (task_complexity_range (params e)))%Z ->
  generate_task (e, g)
  = Raise ValueError (set_task_counter (task_counter e + 1) e, g).
Proof.
  intros Hrange. unfold generate_task, randint. run_monad.
  engine_simpl. by rewrite (proj2 (Z.ltb_lt _ _) Hrange).
Qed.

Lemma generate_task_no_teams (e : Engine) (g : Rng) :
  (fst (task_complexity_range (params e))
   <= snd (task_complexity_range (params e)))%Z ->
  other_teams (params e) = [] ->
  tape g (S (pos g)) < dependency_probability (params e) ->
  generate_task (e, g)
  = Raise IndexError
      (set_task_counter (task_counter e + 1) e, rng_next (rng_next g)).
Proof.
  intros Hrange Hteams Hdraw. unfold generate_task, randint, choice. run_monad.
  engine_simpl. rewrite (proj2 (Z.ltb_ge _ _) Hrange). run_monad.
  cbn [rng_next tape pos]. rewrite (proj2 (Qltb_lt _ _) Hdraw).
  by rewrite Hteams.
Qed.

Lemma simulate_day_first_task (e : Engine) (g : Rng) (x : exn) (w : World) :
  (0 < new_tasks_per_day (params e))%Z ->
  generate_task (e, g) = Raise x w ->
  simulate_day (e, g) = Raise x w.
Proof.
  intros Hn Hgen. unfold simulate_day, generate_daily_tasks. run_monad.
  destruct (Z.to_nat (new_tasks_per_day (params e))) as [|n] eqn:Hnat; [lia|].
  cbn [repeat_times]. run_monad. by rewrite Hgen.
Qed.

Lemma run_simulation_first_task (days : Z) (e : Engine) (g : Rng) (x : exn)
    (w : World) :
  (0 < days)%Z -> (0 < new_tasks_per_day (params e))%Z ->
  generate_task (e, g) = Raise x w ->
  run_simulation days (e, g) = Raise x w.
Proof.
  intros Hdays Hn Hgen. unfold run_simulation.
  destruct (Z.to_nat days) as [|d] eqn:Hd; [lia|].
  cbn [repeat_times]. rewrite !bind_eq.
  by rewrite (simulate_day_first_task e g x w Hn Hgen).
Qed.

(** C4, as the code has it.  Nothing is checked at construction or at the
    entry of [run_simulation].  With [days <= 0] the run executes no day-step
    and returns the result of the fresh engine.  With [days >= 1] and
    [new_tasks_per_day >= 1], a complexity range whose low end exceeds its
    high end makes the first task generation raise ValueError, and an empty
    team set makes it raise IndexError when the dependency draw of the first
    task succeeds; the run then returns no result. *)
Theorem contract_violations_are_not_checked (now : Z) (allow : bool)
    (ps : Params) (multiplier : Q) (g : Rng) (days : Z) :
  let e := init now allow (Some ps) multiplier in
  let lo := fst (task_complexity_range ps) in
  let hi := snd (task_complexity_range ps) in
  params e = ps /\
  ((days <= 0)%Z ->
     run_simulation days (e, g)
     = Ok (mkResult 0 [] (mkMetrics 0 0 0 0) allow) (e, g)) /\
  ((0 < days)%Z -> (0 < new_tasks_per_day ps)%Z -> (hi < lo)%Z ->
     run_simulation days (e, g)
     = Raise ValueError (set_task_counter 1 e, g)) /\
  ((0 < days)%Z -> (0 < new_tasks_per_day ps)%Z -> (lo <= hi)%Z ->
     other_teams ps = [] -> tape g (S (pos g)) < dependency_probability ps ->
     run_simulation days (e, g)
     = Raise IndexError (set_task_counter 1 e, rng_next (rng_next g))).
Proof.
  intros e lo hi. split; [reflexivity|]. split; [|split].
  - intros Hdays. by rewrite run_simulation_no_days.
  - intros Hdays Hn Hrange.
    apply run_simulation_first_task; [done..|].
    by apply generate_task_reversed_range.
  - intros Hdays Hn Hrange Hteams Hdraw.
    apply run_simulation_first_task; [done..|].
    by apply generate_task_no_teams.
Qed.

(** The defaults with the range reversed: the first day raises ValueError. *)
Lemma contract_violations_are_not_checked_witness :
  run_simulation 0 (init monday true (Some reversed_range) 1, rng_of [])
  = Ok (mkResult 0 [] (mkMetrics 0 0 0 0) true)
       (init monday true (Some reversed_range) 1, rng_of []) /\
  run_simulation 7 (init monday true (Some reversed_range) 1, rng_of [])
  = Raise ValueError
      (set_task_counter 1 (init monday true (Some reversed_range) 1),
       rng_of []).
Proof.
  split.
  - apply (contract_violations_are_not_checked monday true reversed_range 1
             (rng_of []) 0). done.
  - apply (contract_violations_are_not_checked monday true reversed_range 1
             (rng_of []) 7); done.
Defined.

(** A run of 0 days under the defaults, and a run of one day without
    external teams in which no dependency draw succeeds, violate the
    contract and return a result. *)
Lemma contract_violations_raise_counterexample :
  contract_violated 0 SIMULATION_DEFAULTS /\
  returned (run_simulation 0 (init monday true None 1, rng_of []))
    = Some (mkResult 0 [] (mkMetrics 0 0 0 0) true) /\
  contract_violated 1 no_teams /\
  returned
    (run_simulation 1
       (init monday true (Some no_teams) 1,
        rng_of [0.5; 0.9; 0.5; 0.9; 0.5; 0.9; 0.9; 0.9; 0.9]))
    = Some (mkResult 0 [0] (mkMetrics 0 0 0 0) true).
Proof.
  split; [by left|]. split; [reflexivity|]. split.
  - right. left. split; [reflexivity|]. by intros [=].
  - vm_compute. reflexivity.
Qed.

(** ** The dependency loop never runs out of fuel *)

Lemma resolve_dependencies_S (i fuel j : nat) (e : Engine) (g : Rng) :
  resolve_dependencies i (S fuel) j (e, g) =
  match tasks e !! i with
  | None => Ok tt (e, g)
  | Some task =>
      match dependencies task !! j with
      | None => Ok tt (e, g)
      | Some dep =>
          match List.find (fun t => String.eqb (name t) dep)
                          (other_teams (params e)) with
          | None => Raise StopIteration (e, g)
          | Some team =>
              resolve_dependencies i fuel (S j)
                (if Qltb (tape g (pos g)) (task_completion_rate team)
                 then update_task i (fun t =>
                        set_dependencies
                          (list_remove_first dep (dependencies t)) t) e
                 else e,
                 rng_next g)
          end
      end
  end.
Proof.
  cbn [resolve_dependencies]. unfold team_named. run_monad.
  destruct (tasks e !! i) as [task|]; [|done].
  destruct (dependencies task !! j) as [dep|]; [|done].
  destruct (List.find _ _) as [team|]; [|done]. run_monad.
  by destruct (Qltb _ _).
Qed.

Lemma list_remove_first_length (x : string) (xs : list string) :
  (length (list_remove_first x xs) <= length xs)%nat.
Proof. apply sublist_length, list_remove_first_sublist. Qed.

(** Started with the length of the list as fuel, the loop ends because the
    iterator is exhausted: one more unit of fuel changes nothing. *)
Lemma resolve_dependencies_fuel (i fuel j : nat) (e : Engine) (g : Rng)
    (t : Task) :
  tasks e !! i = Some t ->
  (length (dependencies t) <= j + fuel)%nat ->
  resolve_dependencies i (S fuel) j (e, g)
  = resolve_dependencies i fuel j (e, g).
Proof.
  revert j e g t. induction fuel as [|fuel IH]; intros j e g t Hi Hlen.
  - rewrite resolve_dependencies_S, Hi.
    rewrite (lookup_ge_None_2 (dependencies t) j) by lia. done.
  - rewrite (resolve_dependencies_S i (S fuel)), (resolve_dependencies_S i fuel).
    rewrite Hi. destruct (dependencies t !! j) as [dep|]; [|done].
    destruct (List.find _ _) as [team|]; [|done].
    destruct (Qltb _ _).
    + eapply IH.
      * unfold update_task. engine_simpl.
        rewrite list_lookup_alter_eq, Hi. reflexivity.
      * cbn [set_dependencies dependencies].
        pose proof (list_remove_first_length dep (dependencies t)). lia.
    + eapply IH; [exact Hi|lia].
Qed.

(** ** Two runs that differ in the construction date *)

Ltac same_weekday_destruct H :=
  let Hp := fresh "Hp" in let Hf := fresh "Hf" in let Ha := fresh "Ha" in
  let Hw := fresh "Hw" in let Hts := fresh "Hts" in let Hc := fresh "Hc" in
  let Htot := fresh "Htot" in let Hdc := fresh "Hdc" in
  let Hm := fresh "Hm" in
  pose proof H as (Hp&Hf&Ha&Hw&Hts&Hc&Htot&Hdc&Hm).

Ltac same_weekday_solve :=
  match goal with
  | H : same_weekday _ _ |- same_weekday _ _ =>
      let Hp := fresh "Hp" in let Hf := fresh "Hf" in let Ha := fresh "Ha" in
      let Hw := fresh "Hw" in let Hts := fresh "Hts" in
      let Hc := fresh "Hc" in let Htot := fresh "Htot" in
      let Hdc := fresh "Hdc" in let Hm := fresh "Hm" in
      destruct H as (Hp&Hf&Ha&Hw&Hts&Hc&Htot&Hdc&Hm);
      unfold same_weekday; engine_simpl;
      rewrite ?Hp, ?Hf, ?Ha, ?Hc, ?Htot, ?Hdc, ?Hm; repeat split; try done
  end.

Lemma same_weekday_calculate_recovery_time (e1 e2 : Engine) :
  same_weekday e1 e2 ->
  calculate_recovery_time e2 = calculate_recovery_time e1.
Proof.
  intros (Hp&_&_&Hw&_). unfold calculate_recovery_time. by rewrite Hp, Hw.
Qed.

Lemma same_weekday_should_deploy_today (e1 e2 : Engine) :
  same_weekday e1 e2 -> should_deploy_today e2 = should_deploy_today e1.
Proof.
  intros (_&_&Ha&Hw&_). unfold should_deploy_today. by rewrite Ha, Hw.
Qed.

Lemma same_weekday_lookup (e1 e2 : Engine) (i : nat) :
  same_weekday e1 e2 ->
  option_Forall2 same_but_dates (tasks e1 !! i) (tasks e2 !! i).
Proof. intros (_&_&_&_&Hts&_). by apply Forall2_lookup. Qed.

Lemma same_weekday_update (e1 e2 : Engine) (i : nat) (f1 f2 : Task -> Task) :
  (forall t1 t2, same_but_dates t1 t2 -> same_but_dates (f1 t1) (f2 t2)) ->
  same_weekday e1 e2 ->
  same_weekday (update_task i f1 e1) (update_task i f2 e2).
Proof.
  intros Hf Hsame. same_weekday_solve. apply Forall2_alter; [done|].
  intros t1 t2 _ _. apply Hf.
Qed.

Lemma same_weekday_no_dependencies (i : nat) (e1 e2 : Engine) :
  same_weekday e1 e2 -> no_dependencies i e2 = no_dependencies i e1.
Proof.
  intros Hsame. unfold no_dependencies.
  destruct (same_weekday_lookup e1 e2 i Hsame) as [t1 t2 (_&_&_&_&Hd)|];
    [|done].
  cbn. by rewrite Hd.
Qed.

Lemma same_weekday_ready_refs (e1 e2 : Engine) :
  same_weekday e1 e2 -> ready_refs (tasks e2) = ready_refs (tasks e1).
Proof.
  intros Hsame. unfold ready_refs.
  destruct Hsame as (_&_&_&_&Hts&_).
  rewrite <- (Forall2_length _ _ _ Hts). apply list_filter_iff. intros i.
  unfold is_ready. rewrite Forall2_lookup in Hts.
  destruct (Hts i) as [t1 t2 (_&_&Hs&_)|]; [|done]. cbn. by rewrite Hs.
Qed.

Lemma same_weekday_ready_tasks (e1 e2 : Engine) :
  same_weekday e1 e2 ->
  length (ready_tasks (tasks e2)) = length (ready_tasks (tasks e1)).
Proof.
  intros (_&_&_&_&Hts&_). unfold ready_tasks.
  induction Hts as [|t1 t2 ts1 ts2 (_&_&Hs&_) _ IH]; [done|].
  rewrite !filter_cons, Hs.
  destruct (decide (status t1 = READY_TO_DEPLOY)); cbn [length];
    by rewrite IH.
Qed.

Lemma weekday_succ (d1 d2 : Z) :
  weekday d2 = weekday d1 -> weekday (d2 + 1) = weekday (d1 + 1).
Proof.
  unfold weekday. intros Hw.
  replace (d2 + 1 + 6)%Z with ((d2 + 6) + 1)%Z by lia.
  replace (d1 + 1 + 6)%Z with ((d1 + 6) + 1)%Z by lia.
  rewrite (Z.add_mod (d2 + 6)), (Z.add_mod (d1 + 6)) by lia.
  by rewrite Hw.
Qed.

Ltac weekday_step :=
  first
    [ simple apply related_raise
    | simple apply related_randint
    | simple apply related_choice
    | simple apply related_team_named
    | simple apply related_ret; [reflexivity]
    | simple eapply related_bind;
        [simple apply related_random|intros ? ? <-]
    | simple eapply related_bind;
        [simple apply related_randint|intros ? ? <-]
    | simple eapply related_bind;
        [simple apply related_choice|intros ? ? <-]
    | simple eapply related_bind;
        [simple apply related_team_named|intros ? ? <-] ].

Lemma generate_task_same_weekday :
  related same_weekday eq generate_task generate_task.
Proof.
  unfold generate_task.
  eapply related_bind with (Rv := eq).
  { apply related_modify. intros e1 e2 Hsame. same_weekday_solve. }
  intros _ _ _. eapply related_bind; [apply related_get|].
  intros e1 e2 Hsame. same_weekday_destruct Hsame. rewrite Hp, Hc.
  do 2 weekday_step. eapply related_bind with (Rv := eq).
  - destruct (Qltb _ _); repeat weekday_step.
  - intros ds ? <-. apply related_modify. intros e1' e2' Hsame'.
    same_weekday_solve. apply Forall2_app; [done|].
    by repeat constructor.
Qed.

Lemma generate_daily_tasks_same_weekday :
  related same_weekday eq generate_daily_tasks generate_daily_tasks.
Proof.
  unfold generate_daily_tasks.
  eapply related_bind; [apply related_get|]. intros e1 e2 Hsame.
  same_weekday_destruct Hsame. rewrite Hp.
  apply related_repeat_times, generate_task_same_weekday.
Qed.

Lemma resolve_dependencies_same_weekday (i fuel j : nat) :
  related same_weekday eq
    (resolve_dependencies i fuel j) (resolve_dependencies i fuel j).
Proof.
  revert j. induction fuel as [|fuel IH]; intros j; cbn [resolve_dependencies].
  - weekday_step.
  - eapply related_bind; [apply related_get|]. intros e1 e2 Hsame.
    same_weekday_destruct Hsame. rewrite Hp.
    destruct (same_weekday_lookup e1 e2 i Hsame) as [t1 t2 (_&_&_&_&Hd)|];
      [|weekday_step].
    rewrite Hd. destruct (dependencies t1 !! j) as [dep|]; [|weekday_step].
    do 2 weekday_step.
    eapply related_bind with (Rv := eq); [|intros _ _ _; apply IH].
    destruct (Qltb _ _); [|weekday_step].
    apply related_modify. intros e1' e2' Hsame'.
    apply same_weekday_update; [|done].
    intros t1' t2' (?&?&?&?&Hd'). unfold same_but_dates. cbn.
    by rewrite Hd'.
Qed.

Lemma progress_task_same_weekday (i : nat) :
  related same_weekday eq (progress_task i) (progress_task i).
Proof.
  unfold progress_task.
  eapply related_bind; [apply related_get|]. intros e1 e2 Hsame.
  rewrite (same_weekday_no_dependencies i e1 e2 Hsame).
  destruct (same_weekday_lookup e1 e2 i Hsame) as [t1 t2 (_&_&Hs&_&Hd)|];
    [|weekday_step].
  rewrite Hs, Hd. destruct (bool_decide _); [|weekday_step].
  eapply related_bind with (Rv := eq).
  { destruct (no_dependencies i e1);
      [weekday_step|apply resolve_dependencies_same_weekday]. }
  intros _ _ _. eapply related_bind; [apply related_get|].
  intros e1' e2' Hsame'.
  rewrite (same_weekday_no_dependencies i e1' e2' Hsame').
  destruct (no_dependencies i e1'); [|weekday_step].
  weekday_step. destruct (Qltb _ _); [|weekday_step].
  apply related_modify. intros e1'' e2'' Hsame''.
  apply same_weekday_update; [|done].
  intros t1' t2' (?&?&?&?&?). by unfold same_but_dates.
Qed.

Lemma progress_tasks_same_weekday :
  related same_weekday eq progress_tasks progress_tasks.
Proof.
  unfold progress_tasks.
  eapply related_bind; [apply related_get|]. intros e1 e2 Hsame.
  destruct Hsame as (_&_&_&_&Hts&_). rewrite <- (Forall2_length _ _ _ Hts).
  apply related_for_each; [|done].
  intros [] [] i _. apply progress_task_same_weekday.
Qed.

Lemma deploy_task_same_weekday (acc : Q) (i : nat) :
  related same_weekday eq (deploy_task acc i) (deploy_task acc i).
Proof.
  intros e1 e2 g Hsame. rewrite !deploy_task_eq.
  rewrite (same_weekday_calculate_recovery_time e1 e2 Hsame).
  same_weekday_destruct Hsame. rewrite Hp, Hf, Htot, Hm.
  destruct (Qltb _ _); cbv zeta.
  - split; [done|]. split; [|done].
    pose proof (same_weekday_update e1 e2 i
                  (task_failed (calculate_recovery_time e1))
                  (task_failed (calculate_recovery_time e1))) as Hup.
    destruct Hup as (?&?&?&?&?&?&?&?&?); [|done|by repeat split].
    intros t1 t2 (?&?&?&?&?). by unfold same_but_dates.
  - split; [done|]. split; [|done].
    pose proof (same_weekday_update e1 e2 i
                  (task_deployed (current_date e1))
                  (task_deployed (current_date e2))) as Hup.
    destruct Hup as (?&?&?&?&?&?&?&?&?); [|done|by repeat split].
    intros t1 t2 (?&?&?&?&?). by unfold same_but_dates.
Qed.

Lemma attempt_deployments_same_weekday :
  related same_weekday eq attempt_deployments attempt_deployments.
Proof.
  unfold attempt_deployments.
  eapply related_bind; [apply related_get|]. intros e1 e2 Hsame.
  rewrite (same_weekday_should_deploy_today e1 e2 Hsame).
  rewrite (same_weekday_ready_refs e1 e2 Hsame).
  destruct (should_deploy_today e1); cbn [negb]; [|weekday_step].
  apply related_for_each; [|done].
  intros acc ? i <-. apply deploy_task_same_weekday.
Qed.

Lemma calculate_daily_delay_cost_same_weekday :
  related same_weekday eq calculate_daily_delay_cost calculate_daily_delay_cost.
Proof.
  intros e1 e2 g Hsame. rewrite !calculate_daily_delay_cost_eq.
  unfold delayed_today, charge_delay, delay_cost_of.
  rewrite (same_weekday_should_deploy_today e1 e2 Hsame).
  rewrite (same_weekday_ready_tasks e1 e2 Hsame).
  same_weekday_destruct Hsame. rewrite Hp, Htot, Hm.
  destruct (_ && _); [|done]. split; [done|]. split; [|done].
  unfold same_weekday. engine_simpl. by repeat split.
Qed.

Lemma close_day_same_weekday (deploy_cost delay_cost : Q) :
  related same_weekday eq
    (close_day deploy_cost delay_cost) (close_day deploy_cost delay_cost).
Proof.
  unfold close_day. apply related_modify. intros e1 e2 Hsame.
  same_weekday_solve. by apply weekday_succ.
Qed.

Lemma simulate_day_same_weekday :
  related same_weekday eq simulate_day simulate_day.
Proof.
  unfold simulate_day.
  eapply related_bind; [apply generate_daily_tasks_same_weekday|].
  intros _ _ _.
  eapply related_bind; [apply progress_tasks_same_weekday|]. intros _ _ _.
  eapply related_bind; [apply attempt_deployments_same_weekday|].
  intros deploy_cost ? <-.
  eapply related_bind; [apply calculate_daily_delay_cost_same_weekday|].
  intros delay_cost ? <-. apply close_day_same_weekday.
Qed.

Lemma run_simulation_same_weekday (days : Z) :
  related same_weekday eq (run_simulation days) (run_simulation days).
Proof.
  unfold run_simulation. eapply related_bind with (Rv := eq).
  { apply related_repeat_times, simulate_day_same_weekday. }
  intros _ _ _. eapply related_bind; [apply related_get|].
  intros e1 e2 (_&_&Ha&_&_&_&Htot&Hdc&Hm). apply related_ret.
  unfold result_of. by rewrite Ha, Htot, Hdc, Hm.
Qed.

(** The construction date matters through its day of the week only: two
    engines constructed on the same day of the week, with the same policy,
    parameters and multiplier, and fed the same draws, return the same
    result or raise the same exception. *)
Lemma result_depends_on_weekday_only (now1 now2 : Z) (allow : bool)
    (ps : option Params) (multiplier : Q) (g : Rng) (days : Z) :
  weekday now2 = weekday now1 ->
  match run_simulation days (init now1 allow ps multiplier, g),
        run_simulation days (init now2 allow ps multiplier, g) with
  | Ok r1 _, Ok r2 _ => r1 = r2
  | Raise x1 _, Raise x2 _ => x1 = x2
  | _, _ => False
  end.
Proof.
  intros Hw.
  assert (same_weekday (init now1 allow ps multiplier)
                       (init now2 allow ps multiplier)) as Hsame.
  { unfold same_weekday. cbn. by repeat split. }
  pose proof (run_simulation_same_weekday days _ _ g Hsame) as Hrel.
  destruct (run_simulation days (init now1 allow ps multiplier, g))
    as [r1 [e1 g1]|x1 [e1 g1]],
    (run_simulation days (init now2 allow ps multiplier, g))
    as [r2 [e2 g2]|x2 [e2 g2]]; try done; by destruct Hrel.
Qed.

(** * Further properties *)

(** Decomposes a method body along its binds, branches and matches. *)
Ltac respects_auto :=
  repeat first
    [ respects_step
    | progress cbv zeta
    | match goal with
      | |- respects _ (match ?x with _ => _ end) => destruct x
      end ].

(** ** Task identifiers *)

Lemma increasing_nil : increasing [].
Proof. intros i j a b _ Hi. by rewrite lookup_nil in Hi. Qed.

Lemma increasing_app (l1 l2 : list Z) :
  (forall a b, a ∈ l1 -> b ∈ l2 -> (a < b)%Z) ->
  increasing l1 -> increasing l2 -> increasing (l1 ++ l2).
Proof.
  intros Hcross H1 H2 i j a b Hij Hi Hj.
  apply lookup_app_Some in Hi as [Hi|[Hlen Hi]],
        Hj as [Hj|[Hlen' Hj]].
  - by eapply H1.
  - eapply Hcross; by eapply list_elem_of_lookup_2.
  - apply lookup_lt_Some in Hj. lia.
  - eapply (H2 (i - length l1)%nat (j - length l1)%nat); [lia|done..].
Qed.

#[global] Instance same_ids_preorder : PreOrder same_ids.
Proof.
  split.
  - by intros e.
  - intros e1 e2 e3 [Hc12 Hi12] [Hc23 Hi23]. split; congruence.
Qed.

#[global] Instance ids_extended_preorder : PreOrder ids_extended.
Proof.
  split.
  - intros e. split; [done|]. exists []. rewrite app_nil_r.
    split; [done|]. split; [apply increasing_nil|constructor].
  - intros e1 e2 e3 (Hc12&new1&Hi12&Hs1&Hb1) (Hc23&new2&Hi23&Hs2&Hb2).
    split; [lia|]. exists (new1 ++ new2).
    split; [by rewrite Hi23, Hi12, app_assoc|]. split.
    + apply increasing_app; [|done..]. intros n1 n2 Hn1 Hn2.
      rewrite Forall_forall in Hb1, Hb2.
      specialize (Hb1 n1 Hn1). specialize (Hb2 n2 Hn2). lia.
    + apply Forall_app. split; (eapply Forall_impl; [eassumption|]);
        cbn; intros; lia.
Qed.

Lemma same_ids_extended (e e' : Engine) : same_ids e e' -> ids_extended e e'.
Proof.
  intros [Hc Hi]. split; [lia|]. exists []. rewrite app_nil_r.
  split; [done|]. split; [apply increasing_nil|constructor].
Qed.

Lemma fmap_id_alter (i : nat) (f : Task -> Task) (ts : list Task) :
  (forall t, id (f t) = id t) -> id <$> alter f i ts = id <$> ts.
Proof.
  intros Hf. rewrite (list_fmap_alter id f (fun n => n)).
  - apply list_eq. intros j. destruct (decide (i = j)) as [->|Hne].
    + rewrite list_lookup_alter_eq. by destruct (_ !! j).
    + by rewrite list_lookup_alter_ne.
  - apply Forall_forall. intros t _. apply Hf.
Qed.

(** Closes [same_ids e e'] when [e'] is [e] after attribute assignments. *)
Ltac same_ids_solve :=
  split; [done|]; engine_simpl; try done; by apply fmap_id_alter.

Lemma resolve_dependencies_same_ids (i fuel j : nat) :
  respects same_ids (resolve_dependencies i fuel j).
Proof.
  revert j. induction fuel as [|fuel IH]; intros j; cbn [resolve_dependencies].
  - respects_step.
  - respects_auto; [|apply IH]. same_ids_solve.
Qed.

Lemma progress_tasks_same_ids : respects same_ids progress_tasks.
Proof.
  unfold progress_tasks, progress_task. respects_auto.
  - apply resolve_dependencies_same_ids.
  - same_ids_solve.
Qed.

Lemma attempt_deployments_same_ids : respects same_ids attempt_deployments.
Proof.
  unfold attempt_deployments, deploy_task. respects_auto; same_ids_solve.
Qed.

Lemma calculate_daily_delay_cost_same_ids :
  respects same_ids calculate_daily_delay_cost.
Proof. unfold calculate_daily_delay_cost. respects_auto. same_ids_solve. Qed.

Lemma close_day_same_ids (deploy_cost delay_cost : Q) :
  respects same_ids (close_day deploy_cost delay_cost).
Proof. unfold close_day. respects_auto. same_ids_solve. Qed.

Lemma increasing_singleton (n : Z) : increasing [n].
Proof.
  intros i j a b Hij Hi Hj. apply lookup_lt_Some in Hj. cbn in Hj. lia.
Qed.

Lemma generate_task_ids_extended : respects ids_extended generate_task.
Proof.
  intros [e g]. unfold generate_task, randint, choice.
  run_body; (split; [engine_simpl; lia|]); engine_simpl.
  all: try (exists []; rewrite app_nil_r;
            split; [done|]; split; [apply increasing_nil|constructor]).
  all: eexists [_]; rewrite fmap_snoc; (split; [reflexivity|]);
    (split; [apply increasing_singleton|]); repeat constructor; cbn; lia.
Qed.

Lemma generate_daily_tasks_ids_extended :
  respects ids_extended generate_daily_tasks.
Proof.
  unfold generate_daily_tasks. repeat respects_step.
  apply generate_task_ids_extended.
Qed.

Lemma simulate_day_ids_extended : respects ids_extended simulate_day.
Proof.
  unfold simulate_day.
  respects_step; [apply generate_daily_tasks_ids_extended|].
  respects_step;
    [eapply respects_weaken; [apply same_ids_extended
                             |apply progress_tasks_same_ids]|].
  respects_step;
    [eapply respects_weaken; [apply same_ids_extended
                             |apply attempt_deployments_same_ids]|].
  respects_step;
    [eapply respects_weaken; [apply same_ids_extended
                             |apply calculate_daily_delay_cost_same_ids]|].
  eapply respects_weaken; [apply same_ids_extended|apply close_day_same_ids].
Qed.

Lemma call_ids_extended (m : method) (w : World) :
  ids_extended (fst w) (fst (call m w)).
Proof.
  destruct m; cbn [call].
  - apply generate_daily_tasks_ids_extended.
  - apply same_ids_extended, progress_tasks_same_ids.
  - apply same_ids_extended, attempt_deployments_same_ids.
  - apply same_ids_extended, calculate_daily_delay_cost_same_ids.
  - apply simulate_day_ids_extended.
  - unfold run_simulation.
    respects_step; [|repeat respects_step].
    respects_step. apply simulate_day_ids_extended.
Qed.

Lemma reachable_ids (e : Engine) :
  reachable e ->
  (0 <= task_counter e)%Z /\
  increasing (id <$> tasks e) /\
  Forall (fun n => (0 < n <= task_counter e)%Z) (id <$> tasks e).
Proof.
  induction 1 as [now allow ps mult|e g m _ (IHc&IHinc&IHb)].
  - split; [done|]. split; [apply increasing_nil|constructor].
  - destruct (call_ids_extended m (e, g)) as (Hc&new&Hids&Hinc&Hb).
    cbn [fst] in Hc, Hids, Hb. rewrite Hids. rewrite Forall_forall in IHb, Hb.
    split; [lia|]. split.
    + apply increasing_app; [|done..]. intros a b Ha Hb'.
      specialize (IHb a Ha). specialize (Hb b Hb'). lia.
    + apply Forall_app. split; apply Forall_forall; intros n Hn.
      * specialize (IHb n Hn). lia.
      * specialize (Hb n Hn). lia.
Qed.

(** X1. In an engine that a caller can obtain, every task has an [id]
    between 1 and [task_counter], and a task that comes later in the
    registry has a larger [id]: identifiers are never reused, also after a
    task generation that raised. *)
Theorem task_ids_are_unique (e : Engine) (i j : nat) (ti tj : Task) :
  reachable e -> tasks e !! i = Some ti -> tasks e !! j = Some tj ->
  (0 < id ti <= task_counter e)%Z /\
  ((i < j)%nat -> (id ti < id tj)%Z) /\
  (id ti = id tj -> i = j).
Proof.
  intros He Hi Hj. destruct (reachable_ids e He) as (_&Hinc&Hb).
  assert ((id <$> tasks e) !! i = Some (id ti)) as Hi'
    by (by rewrite list_lookup_fmap, Hi).
  assert ((id <$> tasks e) !! j = Some (id tj)) as Hj'
    by (by rewrite list_lookup_fmap, Hj).
  split; [|split].
  - rewrite Forall_forall in Hb. apply Hb. by eapply list_elem_of_lookup_2.
  - intros Hij. by eapply Hinc.
  - intros Heq. destruct (Nat.lt_trichotomy i j) as [Hlt|[->|Hgt]]; [|done|].
    + pose proof (Hinc i j _ _ Hlt Hi' Hj'). lia.
    + pose proof (Hinc j i _ _ Hgt Hj' Hi'). lia.
Qed.

Lemma task_ids_are_unique_witness :
  let t1 := mkTask 1 monday 3 IN_PROGRESS None 0 ["Security Team"] in
  let t3 := mkTask 3 monday 3 IN_PROGRESS None 0 [] in
  (0 < id t1 <= task_counter monday_tasks)%Z /\
  ((0 < 2)%nat -> (id t1 < id t3)%Z) /\
  (id t1 = id t3 -> O = 2%nat).
Proof.
  intros t1 t3. apply (task_ids_are_unique monday_tasks O 2 t1 t3).
  - apply reachable_call, reachable_init.
  - reflexivity.
  - reflexivity.
Defined.

(** ** What a call never changes *)

Lemma task_step_not_terminal (ps : Params) (t t' : Task) :
  task_step ps t t' ->
  status t = IN_PROGRESS \/ status t = READY_TO_DEPLOY.
Proof.
  intros [Hp|Hd]; [destruct Hp|destruct Hd]; auto.
Qed.

(** X2. Whatever method is called, a task object that is DEPLOYED or FAILED
    is left exactly as it is: its [deploy_date] and [recovery_hours] were
    set once and for all, and it is never attempted again. *)
Theorem terminal_task_is_frozen (m : method) (w : World) (i : nat) (t : Task) :
  tasks (fst w) !! i = Some t ->
  status t = DEPLOYED \/ status t = FAILED ->
  tasks (fst (call m w)) !! i = Some t.
Proof.
  intros Hi Hterm. destruct (call_evolved m w) as [_ [Hold _]].
  destruct (Hold i t Hi) as (t'&Hi'&Hlife).
  destruct Hlife as [|t1 t2 t3 Hstep _]; [done|].
  apply task_step_not_terminal in Hstep.
  destruct Hterm as [Hs|Hs], Hstep as [Hs'|Hs']; congruence.
Qed.

(** The failed task of [friday_failure] survives a week of further days. *)
Lemma terminal_task_is_frozen_witness :
  tasks (fst (call (RunSimulation 7) friday_failure)) !! O
  = Some (mkTask 1 friday 3 FAILED None (2 * 3) []).
Proof.
  apply (terminal_task_is_frozen (RunSimulation 7) friday_failure O).
  - vm_compute. reflexivity.
  - by right.
Defined.

Lemma task_step_identity (ps : Params) (t t' : Task) :
  task_step ps t t' ->
  id t' = id t /\ created_date t' = created_date t /\
  complexity t' = complexity t.
Proof.
  intros [Hp|Hd]; [destruct Hp|destruct Hd]; by cbn.
Qed.

Lemma lifecycle_identity (ps : Params) (t t' : Task) :
  rtc (task_step ps) t t' ->
  id t' = id t /\ created_date t' = created_date t /\
  complexity t' = complexity t.
Proof.
  induction 1 as [t|t1 t2 t3 Hstep _ (H1&H2&H3)]; [done|].
  destruct (task_step_identity _ _ _ Hstep) as (H1'&H2'&H3').
  repeat split; congruence.
Qed.

(** X3. Whatever method is called, the task object at a position keeps its
    [id], [created_date] and [complexity]; no method removes or reorders
    task objects. *)
Theorem task_identity_is_kept (m : method) (w : World) (i : nat) (t : Task) :
  tasks (fst w) !! i = Some t ->
  exists t', tasks (fst (call m w)) !! i = Some t' /\
             id t' = id t /\ created_date t' = created_date t /\
             complexity t' = complexity t.
Proof.
  intros Hi. destruct (call_evolved m w) as [_ [Hold _]].
  destruct (Hold i t Hi) as (t'&Hi'&Hlife). exists t'. split; [done|].
  by eapply lifecycle_identity.
Qed.

(** The task of Monday after the Tuesday of [monday_evening]. *)
Lemma task_identity_is_kept_witness :
  exists t', tasks (fst (call SimulateDay monday_evening)) !! O = Some t' /\
             id t' = 1%Z /\ created_date t' = monday /\
             complexity t' = 3%Z.
Proof.
  apply (task_identity_is_kept SimulateDay monday_evening O
           (mkTask 1 monday 3 IN_PROGRESS None 0 [])).
  vm_compute. reflexivity.
Defined.

(** ** Dependencies block readiness *)

(** X4. In an engine that a caller can obtain, a task that is no longer
    IN_PROGRESS has no dependency left: a task never becomes ready, and is
    never deployed, while it waits for a team. *)
Theorem ready_task_has_no_dependency (e : Engine) (t : Task) :
  reachable e -> t ∈ tasks e -> status t <> IN_PROGRESS ->
  dependencies t = [].
Proof.
  intros He Ht.
  apply (reachable_invariant
           (fun _ t => status t <> IN_PROGRESS -> dependencies t = []))
    with (e := e); [| |done..].
  - intros _ t0 (Hs&_) Hne. done.
  - intros ps t1 t2 [Hp|Hd] IH;
      [destruct Hp as [t1 ds Hs _|t1 Hs Hd]|destruct Hd as [t1 d Hs|t1 h Hs _]];
      cbn; intros Hne; try done; apply IH; by rewrite Hs.
Qed.

Lemma ready_task_has_no_dependency_witness :
  dependencies (mkTask 1 monday 3 FAILED None 2 []) = [].
Proof.
  apply (ready_task_has_no_dependency (monday_failure one_task_per_day)).
  - apply reachable_call, reachable_init.
  - apply list_elem_of_lookup_2 with O. vm_compute. reflexivity.
  - discriminate.
Defined.

(** ** Methods that keep a predicate on the state *)

Section Preserves.
Context (P : World -> Prop).
Context (Pnext : forall e g, P (e, g) -> P (e, rng_next g)).

Lemma preserves_ret {A : Type} (a : A) : preserves P (mret a).
Proof. by intros w. Qed.

Lemma preserves_raise {A : Type} (x : exn) : preserves P (@raise A x).
Proof. by intros w. Qed.

Lemma preserves_get : preserves P get_self.
Proof. by intros w. Qed.

Lemma preserves_random : preserves P random.
Proof. intros [e g] Hw. by apply Pnext. Qed.

Lemma preserves_modify (f : Engine -> Engine) :
  (forall e g, P (e, g) -> P (f e, g)) -> preserves P (modify_self f).
Proof. intros Hf [e g] Hw. by apply Hf. Qed.

Lemma preserves_bind {A B : Type} (c : M A) (f : A -> M B) :
  preserves P c -> (forall a, preserves P (f a)) -> preserves P (c ≫= f).
Proof.
  intros Hc Hf w Hw. rewrite bind_eq. specialize (Hc w Hw).
  destruct (c w) as [a w'|x w']; [|done]. by apply Hf.
Qed.

Lemma preserves_randint (a b : Z) : preserves P (randint a b).
Proof.
  unfold randint. destruct (b <? a)%Z; [apply preserves_raise|].
  apply preserves_bind; [apply preserves_random|].
  intros u. apply preserves_ret.
Qed.

Lemma preserves_choice {A : Type} (xs : list A) : preserves P (choice xs).
Proof.
  unfold choice. destruct xs as [|x xs]; [apply preserves_raise|].
  apply preserves_bind; [apply preserves_random|]. intros u.
  destruct (_ !! _); [apply preserves_ret|apply preserves_raise].
Qed.

Lemma preserves_team_named (dep : string) (teams : list Team) :
  preserves P (team_named dep teams).
Proof.
  unfold team_named.
  destruct (List.find _ _); [apply preserves_ret|apply preserves_raise].
Qed.

Lemma preserves_for_each {A B : Type} (body : B -> A -> M B) (xs : list A) :
  (forall acc x, preserves P (body acc x)) ->
  forall acc, preserves P (for_each body acc xs).
Proof.
  intros Hbody. induction xs as [|x xs IH]; intros acc; cbn [for_each].
  - apply preserves_ret.
  - apply preserves_bind; [apply Hbody|]. intros acc'. apply IH.
Qed.

Lemma preserves_repeat_times (n : nat) (body : M unit) :
  preserves P body -> preserves P (repeat_times n body).
Proof.
  intros Hbody. induction n as [|n IH]; cbn [repeat_times].
  - apply preserves_ret.
  - apply preserves_bind; [exact Hbody|]. intros _. exact IH.
Qed.

End Preserves.

Ltac preserves_step :=
  first
    [ simple apply preserves_ret
    | simple apply preserves_raise
    | simple apply preserves_get
    | simple apply preserves_random; [assumption]
    | simple apply preserves_randint; [assumption]
    | simple apply preserves_choice; [assumption]
    | simple apply preserves_team_named
    | simple apply preserves_bind; [|intros ?]
    | simple apply preserves_repeat_times
    | simple apply preserves_for_each; intros ? ?
    | simple apply preserves_modify; intros ? ? ? ].

Ltac preserves_auto :=
  repeat first
    [ preserves_step
    | progress cbv zeta
    | match goal with
      | |- preserves _ (match ?x with _ => _ end) => destruct x
      end ].

(** ** Methods that return *)

Lemma returns_bind {A B : Type} (P : World -> Prop) (c : M A)
    (Q : A -> World -> Prop) (f : A -> M B) (R : B -> World -> Prop) :
  returns P c Q -> (forall a, returns (Q a) (f a) R) ->
  returns P (c ≫= f) R.
Proof.
  intros Hc Hf w Hw. rewrite bind_eq.
  destruct (Hc w Hw) as (a&w'&Hrun&Hq). rewrite Hrun. by apply Hf.
Qed.

Lemma returns_weaken {A : Type} (P P' : World -> Prop) (c : M A)
    (Q Q' : A -> World -> Prop) :
  (forall w, P' w -> P w) -> (forall a w, Q a w -> Q' a w) ->
  returns P c Q -> returns P' c Q'.
Proof.
  intros HP HQ Hc w Hw. destruct (Hc w (HP w Hw)) as (a&w'&Hrun&Hq).
  exists a, w'. auto.
Qed.

Lemma returns_conj {A : Type} (P P' : World -> Prop) (c : M A)
    (Q : A -> World -> Prop) :
  returns P c Q -> preserves P' c ->
  returns (fun w => P w /\ P' w) c (fun a w => Q a w /\ P' w).
Proof.
  intros Hc Hp w [Hw Hw']. destruct (Hc w Hw) as (a&w'&Hrun&Hq).
  exists a, w'. split; [done|]. split; [done|].
  specialize (Hp w Hw'). by rewrite Hrun in Hp.
Qed.

Lemma returns_for_each {A B : Type} (I : World -> Prop)
    (body : B -> A -> M B) (xs : list A) :
  (forall acc x, returns I (body acc x) (fun _ => I)) ->
  forall acc, returns I (for_each body acc xs) (fun _ => I).
Proof.
  intros Hbody. induction xs as [|x xs IH]; intros acc; cbn [for_each].
  - intros w Hw. by exists acc, w.
  - eapply returns_bind; [apply Hbody|]. intros acc'. apply IH.
Qed.


(** ** Dependencies name configured teams *)

#[global] Instance teams_kept_preorder : PreOrder teams_kept.
Proof.
  split.
  - by intros e.
  - intros e1 e2 e3 [Hp12 Hk12] [Hp23 Hk23]. split; [congruence|auto].
Qed.

Lemma known_teams_registry (T : relation Task) (e e' : Engine) :
  params e' = params e ->
  registry_rel T (fun _ => False) (tasks e) (tasks e') ->
  (forall t t', T t t' -> sublist (dependencies t') (dependencies t)) ->
  teams_kept e e'.
Proof.
  intros Hp [Hold Hnew] Hsub. split; [done|]. intros Hk t' d Ht' Hd.
  rewrite Hp. apply list_elem_of_lookup in Ht' as [i Hi'].
  destruct (tasks e !! i) as [t|] eqn:Hi; [|by destruct (Hnew i t' Hi Hi')].
  destruct (Hold i t Hi) as (t''&Hi''&HT).
  assert (t'' = t') as -> by congruence.
  apply (Hk t d); [by eapply list_elem_of_lookup_2|].
  by apply (sublist_subseteq _ _ (Hsub _ _ HT)).
Qed.

Lemma progress_steps_dependencies (t t' : Task) :
  rtc progress_step t t' -> sublist (dependencies t') (dependencies t).
Proof.
  induction 1 as [t|t1 t2 t3 Hstep _ IH]; [done|]. etrans; [exact IH|].
  destruct Hstep; by cbn.
Qed.

Lemma progress_tasks_teams_kept : respects teams_kept progress_tasks.
Proof.
  intros w. destruct (progress_tasks_progressed w) as ((Hp&_)&_&Hreg).
  eapply known_teams_registry; [done..|apply progress_steps_dependencies].
Qed.

Lemma attempt_deployments_teams_kept : respects teams_kept attempt_deployments.
Proof.
  intros w. destruct (attempt_deployments_deployed w) as ((Hp&_)&Hreg).
  eapply known_teams_registry; [done..|].
  intros t t' [->|Hstep]; [done|]. destruct Hstep; by cbn.
Qed.

Lemma calculate_daily_delay_cost_teams_kept :
  respects teams_kept calculate_daily_delay_cost.
Proof.
  intros [e g]. rewrite calculate_daily_delay_cost_eq.
  by destruct (delayed_today e).
Qed.

Lemma close_day_teams_kept (deploy_cost delay_cost : Q) :
  respects teams_kept (close_day deploy_cost delay_cost).
Proof. by intros [e g]. Qed.

Lemma generate_task_teams_kept : respects teams_kept generate_task.
Proof.
  intros [e g]. unfold generate_task, randint, choice.
  run_body; (split; [done|]); engine_simpl; try done.
  all: intros Hk t' d Ht' Hd; apply elem_of_app in Ht' as [Ht'|Ht'];
    [by eapply Hk|].
  all: apply list_elem_of_singleton in Ht' as ->; cbn in Hd.
  all: try by apply elem_of_nil in Hd.
  all: apply list_elem_of_singleton in Hd as ->; eexists; split; [|done].
  all: match goal with
       | H : other_teams _ = _ |- _ =>
           engine_simpl; engine_simpl in H; rewrite H
       end.
  all: by eapply list_elem_of_lookup_2.
Qed.

Lemma simulate_day_teams_kept : respects teams_kept simulate_day.
Proof.
  unfold simulate_day, generate_daily_tasks.
  respects_step.
  { repeat respects_step. apply generate_task_teams_kept. }
  respects_step; [apply progress_tasks_teams_kept|].
  respects_step; [apply attempt_deployments_teams_kept|].
  respects_step; [apply calculate_daily_delay_cost_teams_kept|].
  apply close_day_teams_kept.
Qed.

Lemma call_teams_kept (m : method) (w : World) :
  teams_kept (fst w) (fst (call m w)).
Proof.
  destruct m; cbn [call].
  - unfold generate_daily_tasks. repeat respects_step.
    apply generate_task_teams_kept.
  - apply progress_tasks_teams_kept.
  - apply attempt_deployments_teams_kept.
  - apply calculate_daily_delay_cost_teams_kept.
  - apply simulate_day_teams_kept.
  - unfold run_simulation.
    respects_step; [|repeat respects_step].
    respects_step. apply simulate_day_teams_kept.
Qed.

Lemma reachable_known_teams (e : Engine) : reachable e -> known_teams e.
Proof.
  induction 1 as [now allow ps mult|e g m _ IH].
  - intros t d Ht. by apply elem_of_nil in Ht.
  - by apply (call_teams_kept m (e, g)).
Qed.

Lemma find_known (ps : Params) (d : string) :
  known_team ps d ->
  exists team,
    List.find (fun t => String.eqb (name t) d) (other_teams ps) = Some team.
Proof.
  intros (team&Hin&Hname).
  destruct (List.find _ _) as [team'|] eqn:Hfind; [by exists team'|].
  apply list_elem_of_In in Hin.
  pose proof (find_none _ _ Hfind team Hin) as Hne. cbn in Hne.
  rewrite Hname, String.eqb_refl in Hne. done.
Qed.

Lemma known_teams_update (i : nat) (f : Task -> Task) (e : Engine) :
  (forall t, sublist (dependencies (f t)) (dependencies t)) ->
  known_teams e -> known_teams (update_task i f e).
Proof.
  intros Hf.
  apply (known_teams_registry
           (fun t t' => sublist (dependencies t') (dependencies t)));
    [done| |done].
  cbn. apply registry_rel_alter; [by intros t|]. intros t _. apply Hf.
Qed.

Lemma resolve_dependencies_returns (i fuel j : nat) :
  returns (fun w => known_teams (fst w)) (resolve_dependencies i fuel j)
          (fun _ w => known_teams (fst w)).
Proof.
  revert j. induction fuel as [|fuel IH]; intros j [e g] Hk.
  - by exists tt, (e, g).
  - rewrite resolve_dependencies_S.
    destruct (tasks e !! i) as [task|] eqn:Hi; [|by exists tt, (e, g)].
    destruct (dependencies task !! j) as [dep|] eqn:Hj;
      [|by exists tt, (e, g)].
    destruct (find_known (params e) dep) as [team ->].
    { apply (Hk task); by eapply list_elem_of_lookup_2. }
    apply IH. cbn [fst]. destruct (Qltb _ _); [|done].
    apply known_teams_update; [|done].
    intros t. cbn. apply list_remove_first_sublist.
Qed.

Lemma progress_task_returns (i : nat) :
  returns (fun w => known_teams (fst w)) (progress_task i)
          (fun _ w => known_teams (fst w)).
Proof.
  intros [e g] Hk. unfold progress_task. rewrite bind_eq. cbn [get_self fst].
  destruct (tasks e !! i) as [t|] eqn:Ht; [|by exists tt, (e, g)].
  destruct (bool_decide _); [|by exists tt, (e, g)].
  rewrite bind_eq.
  assert (exists w', (if no_dependencies i e then mret tt
                      else resolve_dependencies i (length (dependencies t)) 0)
                       (e, g) = Ok tt w' /\ known_teams (fst w'))
    as ([e1 g1]&->&Hk1).
  { destruct (no_dependencies i e); [by exists (e, g)|].
    destruct (resolve_dependencies_returns i (length (dependencies t)) 0
                (e, g) Hk) as ([]&w'&Hrun&Hk'). by exists w'. }
  run_monad. destruct (no_dependencies i e1); [|by exists tt, (e1, g1)].
  run_monad. destruct (Qltb _ _); [|by eexists tt, (_, _)].
  eexists tt, (_, _). split; [reflexivity|].
  by apply known_teams_update.
Qed.

Lemma progress_tasks_returns :
  returns (fun w => known_teams (fst w)) progress_tasks
          (fun _ w => known_teams (fst w)).
Proof.
  unfold progress_tasks. intros [e g] Hk. rewrite bind_eq. cbn [get_self fst].
  apply returns_for_each; [|done]. intros acc i. apply progress_task_returns.
Qed.

(** X5. On an engine that a caller can obtain, [progress_tasks] always
    returns: the team of a dependency is always found, so the lookup
    [next(...)] never raises StopIteration, whatever the configuration and
    the draws. *)
Theorem progress_tasks_never_raises (e : Engine) (g : Rng) :
  reachable e ->
  exists e' g', progress_tasks (e, g) = Ok tt (e', g').
Proof.
  intros He.
  destruct (progress_tasks_returns (e, g) (reachable_known_teams e He))
    as ([]&[e' g']&Hrun&_).
  by exists e', g'.
Qed.

Lemma progress_tasks_never_raises_witness :
  exists e' g', progress_tasks (monday_tasks, rng_of [0.05]) = Ok tt (e', g').
Proof.
  apply (progress_tasks_never_raises monday_tasks (rng_of [0.05])).
  apply reachable_call, reachable_init.
Defined.

(** ** A well-formed configuration never raises *)

Lemma unit_tape_next (g : Rng) : unit_tape g -> unit_tape (rng_next g).
Proof. intros Ht n. apply (Ht n). Qed.

Lemma frame_ok_next (e : Engine) (g : Rng) :
  frame_ok (e, g) -> frame_ok (e, rng_next g).
Proof. intros [Hc Ht]. split; [done|]. by apply unit_tape_next. Qed.

(** Closes [frame_ok] after attribute assignments, which keep [params]. *)
Ltac frame_ok_solve :=
  match goal with
  | H : frame_ok _ |- frame_ok _ => exact H
  end.


Lemma generate_daily_tasks_frame_ok : preserves frame_ok generate_daily_tasks.
Proof.
  pose proof frame_ok_next.
  unfold generate_daily_tasks, generate_task. preserves_auto; frame_ok_solve.
Qed.





Lemma Qfloor_unit (u : Q) (n : Z) :
  0 <= u -> u < 1 -> (0 < n)%Z -> (0 <= Qfloor (u * inject_Z n) < n)%Z.
Proof.
  intros Hu0 Hu1 Hn.
  assert (0 < inject_Z n) as Hn'
    by (change 0 with (inject_Z 0); by rewrite <- Zlt_Qlt).
  split.
  - change 0%Z with (Qfloor 0). apply Qfloor_resp_le.
    apply Qmult_le_0_compat; [done|]. by apply Qlt_le_weak.
  - destruct (Z.lt_ge_cases (Qfloor (u * inject_Z n)) n) as [|Hge]; [done|].
    exfalso. rewrite Zle_Qle in Hge.
    pose proof (Qfloor_le (u * inject_Z n)) as Hfl.
    assert (u * inject_Z n < 1 * inject_Z n) as Hlt
      by (by apply Qmult_lt_compat_r).
    rewrite Qmult_1_l in Hlt. lra.
Qed.








Lemma unit_tape_rng_of (us : list Q) :
  Forall (fun u => 0 <= u /\ u < 1) us -> unit_tape (rng_of us).
Proof.
  intros Hus n. cbn. destruct (us !! n) as [u|] eqn:Hn; cbn.
  - rewrite Forall_forall in Hus. apply Hus. by eapply list_elem_of_lookup_2.
  - split; [apply Qle_refl|reflexivity].
Qed.



(** ** Every ready task is attempted *)

Lemma filter_ext_in {A : Type} (P1 P2 : A -> Prop)
    `{!forall x, Decision (P1 x)} `{!forall x, Decision (P2 x)} (l : list A) :
  (forall x, x ∈ l -> (P1 x <-> P2 x)) -> filter P1 l = filter P2 l.
Proof.
  induction l as [|x l IH]; intros Hext; [done|].
  rewrite !filter_cons.
  assert (filter P1 l = filter P2 l) as ->.
  { apply IH. intros y Hy. apply Hext. by right. }
  pose proof (Hext x (list_elem_of_here x l)) as Hx.
  destruct (decide (P1 x)), (decide (P2 x)); tauto.
Qed.

Lemma filter_none {A : Type} (P : A -> Prop) `{!forall x, Decision (P x)}
    (l : list A) :
  (forall x, x ∈ l -> ~ P x) -> filter P l = [].
Proof.
  intros Hnone. destruct (filter P l) as [|x l'] eqn:Hf; [done|].
  assert (x ∈ filter P l) as Hx by (rewrite Hf; left).
  apply list_elem_of_filter in Hx as [HP Hin]. by destruct (Hnone x Hin).
Qed.

Lemma ready_refs_snoc (ts : list Task) (t : Task) :
  ready_refs (ts ++ [t]) =
  ready_refs ts
  ++ (if decide (status t = READY_TO_DEPLOY) then [length ts] else []).
Proof.
  unfold ready_refs. rewrite length_app. cbn [length].
  rewrite Nat.add_1_r, seq_S, filter_app. cbn [Nat.add]. f_equal.
  - apply filter_ext_in. intros i Hi. apply elem_of_seq in Hi.
    unfold is_ready. by rewrite lookup_app_l by lia.
  - rewrite filter_cons, filter_nil.
    assert (is_ready (ts ++ [t]) (length ts) <-> status t = READY_TO_DEPLOY)
      as Hiff.
    { unfold is_ready.
      rewrite (list_lookup_middle ts [] t (length ts)) by done. cbn.
      split; congruence. }
    destruct (decide (is_ready (ts ++ [t]) (length ts))),
             (decide (status t = READY_TO_DEPLOY)); tauto.
Qed.

Lemma ready_refs_length (ts : list Task) :
  length (ready_refs ts) = length (ready_tasks ts).
Proof.
  induction ts as [|t ts IH] using rev_ind; [done|].
  rewrite ready_refs_snoc. unfold ready_tasks in *.
  rewrite filter_app, !length_app, IH, filter_cons, filter_nil.
  by destruct (decide (status t = READY_TO_DEPLOY)).
Qed.

Lemma deploy_loop_counts (refs : list nat) (acc : Q) (e : Engine) (g : Rng)
    (c : Q) (e' : Engine) (g' : Rng) :
  for_each deploy_task acc refs (e, g) = Ok c (e', g') ->
  (failed_deploys (metrics e') + successful_deploys (metrics e')
   = failed_deploys (metrics e) + successful_deploys (metrics e)
     + Z.of_nat (length refs))%Z /\
  pos g' = (pos g + length refs)%nat /\ tape g' = tape g.
Proof.
  revert acc e g. induction refs as [|i refs IH]; intros acc e g; cbn [for_each].
  - intros [= _ <- <-]. cbn. split; [lia|]. split; [lia|done].
  - rewrite bind_eq, deploy_task_eq.
    destruct (Qltb _ _); cbv zeta; intros Hrun;
      destruct (IH _ _ _ Hrun) as (Hcount&Hpos&Htape);
      engine_simpl in Hcount; cbn [rng_next pos tape] in Hpos, Htape;
      cbn [length]; (split; [lia|]); (split; [lia|done]).
Qed.

Lemma attempt_post_none_ready (e : Engine) (c : Q) (e' : Engine) :
  attempt_post e c e' -> should_deploy_today e = true ->
  ready_tasks (tasks e') = [].
Proof.
  unfold attempt_post. intros Hpost Hsd. rewrite Hsd in Hpost.
  destruct Hpost as (_&_&_&_&_&(Hlen&Hout&Hin)&_).
  apply filter_none. intros t' Ht' Hs.
  apply list_elem_of_lookup in Ht' as [j Hj'].
  destruct (decide (j ∈ ready_refs (tasks e))) as [Hr|Hr].
  - destruct (tasks e !! j) as [t|] eqn:Hj.
    + destruct (Hin j t Hr Hj) as [Hd|Hf]; rewrite Hj' in *;
        [injection Hd as ->|injection Hf as ->]; done.
    + apply elem_of_ready_refs in Hr. unfold is_ready in Hr.
      by rewrite Hj in Hr.
  - rewrite Hout in Hj' by done. apply Hr, elem_of_ready_refs.
    unfold is_ready. by rewrite Hj', <- Hs.
Qed.

(** X7. [attempt_deployments] never raises.  On a day when deploys proceed
    it attempts every READY_TO_DEPLOY task exactly once: afterwards no task
    is READY_TO_DEPLOY, the failed and successful counts have grown together
    by the number of tasks that were ready, and exactly that many draws were
    consumed.  On a Friday without Friday deploys it returns 0 and changes
    nothing. *)
Theorem every_ready_task_is_attempted (e : Engine) (g : Rng) :
  exists c e' g',
    attempt_deployments (e, g) = Ok c (e', g') /\
    if should_deploy_today e then
      ready_tasks (tasks e') = [] /\
      (failed_deploys (metrics e') + successful_deploys (metrics e')
       = failed_deploys (metrics e) + successful_deploys (metrics e)
         + Z.of_nat (length (ready_tasks (tasks e))))%Z /\
      pos g' = (pos g + length (ready_tasks (tasks e)))%nat
    else c = 0 /\ e' = e /\ g' = g.
Proof.
  destruct (attempt_deployments_spec e g) as (c&e'&g'&Hrun&Hpost).
  exists c, e', g'. split; [done|].
  pose proof (attempt_post_none_ready e c e' Hpost) as Hnone.
  unfold attempt_post in Hpost.
  unfold attempt_deployments in Hrun. rewrite bind_eq in Hrun.
  cbn [get_self fst] in Hrun.
  destruct (should_deploy_today e); cbn [negb] in Hrun.
  - destruct (deploy_loop_counts _ _ _ _ _ _ _ Hrun) as (Hcount&Hpos&_).
    rewrite ready_refs_length in Hcount, Hpos. auto.
  - injection Hrun as <- <- <-. done.
Qed.

(** X8. After a day-step that completes on a day when deploys proceed, no
    task is READY_TO_DEPLOY: a ready task waits overnight only on a Friday
    without Friday deploys. *)
Theorem no_task_waits_after_deploy_day (e : Engine) (g : Rng) (e' : Engine)
    (g' : Rng) :
  simulate_day (e, g) = Ok tt (e', g') -> ~ deploys_skipped e ->
  ready_tasks (tasks e') = [].
Proof.
  intros Hrun Hsd. apply should_deploy_today_true in Hsd.
  unfold simulate_day in Hrun.
  apply bind_Ok in Hrun as ([] & [e1 g1] & Hgen & Hrun).
  apply bind_Ok in Hrun as ([] & [e2 g2] & Hprog & Hrun).
  apply bind_Ok in Hrun as (dc & [e3 g3] & Hatt & Hrun).
  apply bind_Ok in Hrun as (lc & [e4 g4] & Hdelay & Hrun).
  injection Hrun as <- <-. engine_simpl.
  pose proof (generate_daily_tasks_generated (e, g)) as Hg.
  rewrite Hgen in Hg. destruct Hg as ((_&_&Ha1)&(_&_&_&Hd1)&_).
  pose proof (progress_tasks_progressed (e1, g1)) as Hp.
  rewrite Hprog in Hp. destruct Hp as ((_&_&Ha2)&(_&_&_&Hd2)&_).
  cbn [world_of fst] in *.
  destruct (attempt_deployments_spec e2 g2) as (c&e3'&g3'&Hatt'&Hpost).
  rewrite Hatt in Hatt'. injection Hatt' as <- <- <-.
  assert (should_deploy_today e2 = true) as Hsd2.
  { rewrite <- Hsd. apply should_deploy_today_ext; congruence. }
  pose proof (attempt_post_none_ready _ _ _ Hpost Hsd2) as Hnone.
  rewrite calculate_daily_delay_cost_eq in Hdelay.
  destruct (delayed_today e3); injection Hdelay as <- <- <-; done.
Qed.

Lemma no_task_waits_after_deploy_day_witness :
  ready_tasks (tasks (fst (call SimulateDay monday_evening))) = [].
Proof.
  apply (no_task_waits_after_deploy_day (fst monday_evening)
           (snd monday_evening) _ (snd (call SimulateDay monday_evening))).
  - vm_compute. reflexivity.
  - intros [Hfri _]. by vm_compute in Hfri.
Defined.

(** ** The total cost in terms of the metrics *)

#[global] Instance cost_kept_preorder : PreOrder cost_kept.
Proof.
  split.
  - by intros e.
  - intros e1 e2 e3 [Hc12 Hk12] [Hc23 Hk23]. split; [by etrans|auto].
Qed.










Lemma reachable_call_world (m : method) (w : World) :
  reachable (fst w) -> reachable (fst (call m w)).
Proof. destruct w as [e g]. apply reachable_call. Qed.



(** ** Policies and risks that switch a cost off *)

#[global] Instance delay_kept_preorder : PreOrder delay_kept.
Proof.
  split.
  - by intros e.
  - intros e1 e2 e3 [Ha12 Hd12] [Ha23 Hd23]. split; [congruence|].
    intros Ha. rewrite Hd23, Hd12; congruence.
Qed.

Lemma delay_kept_same_ledger (e e' : Engine) :
  same_config e e' -> same_ledger e e' -> delay_kept e e'.
Proof. intros (_&_&Ha) (_&_&Hm&_). split; [done|]. by rewrite Hm. Qed.

Lemma attempt_deployments_delay_kept : respects delay_kept attempt_deployments.
Proof.
  intros [e g]. destruct (attempt_deployments_spec e g) as (c&e'&g'&->&Hpost).
  cbn [world_of fst]. unfold attempt_post in Hpost.
  destruct (should_deploy_today e).
  - destruct Hpost as ((_&_&Ha)&_&_&_&Hdl&_). by split.
  - by destruct Hpost as [-> _].
Qed.

Lemma calculate_daily_delay_cost_delay_kept :
  respects delay_kept calculate_daily_delay_cost.
Proof.
  intros [e g]. rewrite calculate_daily_delay_cost_eq.
  destruct (delayed_today e) eqn:Hdelayed; [|reflexivity].
  cbn [world_of fst]. split; [done|]. intros Ha. exfalso.
  unfold delayed_today, should_deploy_today in Hdelayed. rewrite Ha in Hdelayed.
  by destruct (weekday (current_date e) =? 4)%Z.
Qed.

Lemma simulate_day_delay_kept : respects delay_kept simulate_day.
Proof.
  unfold simulate_day.
  respects_step.
  { intros w. destruct (generate_daily_tasks_generated w) as (Hc&Hl&_).
    by apply delay_kept_same_ledger. }
  respects_step.
  { intros w. destruct (progress_tasks_progressed w) as (Hc&Hl&_).
    by apply delay_kept_same_ledger. }
  respects_step; [apply attempt_deployments_delay_kept|].
  respects_step; [apply calculate_daily_delay_cost_delay_kept|].
  by intros [e g].
Qed.

Lemma call_delay_kept (m : method) (w : World) :
  delay_kept (fst w) (fst (call m w)).
Proof.
  destruct m; cbn [call].
  - destruct (generate_daily_tasks_generated w) as (Hc&Hl&_).
    by apply delay_kept_same_ledger.
  - destruct (progress_tasks_progressed w) as (Hc&Hl&_).
    by apply delay_kept_same_ledger.
  - apply attempt_deployments_delay_kept.
  - apply calculate_daily_delay_cost_delay_kept.
  - apply simulate_day_delay_kept.
  - unfold run_simulation.
    respects_step; [|repeat respects_step].
    respects_step. apply simulate_day_delay_kept.
Qed.

(** X10. An engine constructed with [allow_friday_deploys = True] never
    counts a delayed task, whatever methods are called on it: its policy
    never skips a deploy, so no delay cost is ever charged. *)
Theorem friday_deploys_never_delay (e : Engine) :
  reachable e -> allow_friday_deploys e = true ->
  delayed_tasks (metrics e) = 0%Z.
Proof.
  induction 1 as [now allow ps mult|e g m _ IH]; [done|].
  destruct (call_delay_kept m (e, g)) as [Ha Hd]. cbn [fst] in Ha, Hd.
  intros Hallow. rewrite Ha in Hallow. rewrite Hd by done. auto.
Qed.

Lemma friday_deploys_never_delay_witness :
  delayed_tasks (metrics (fst (call (RunSimulation 7) friday_failure))) = 0%Z.
Proof.
  apply friday_deploys_never_delay.
  - unfold friday_failure. do 2 apply reachable_call_world.
    apply reachable_init.
  - vm_compute. reflexivity.
Defined.

Lemma no_risk_next (failed : Z) (hours : Q) (e : Engine) (g : Rng) :
  no_risk failed hours (e, g) -> no_risk failed hours (e, rng_next g).
Proof. intros (Hr&Ht&Hf&Hh). repeat split; try done; apply (Ht n). Qed.

(** Closes [no_risk] after attribute assignments that keep the parameters
    and the failure metrics. *)
Ltac no_risk_solve :=
  match goal with
  | H : no_risk _ _ _ |- no_risk _ _ _ => exact H
  end.

Section NoRisk.
Context (failed : Z) (hours : Q).

Lemma resolve_dependencies_no_risk (i fuel j : nat) :
  preserves (no_risk failed hours) (resolve_dependencies i fuel j).
Proof.
  pose proof (no_risk_next failed hours).
  revert j. induction fuel as [|fuel IH]; intros j; cbn [resolve_dependencies].
  - preserves_step.
  - preserves_auto; [no_risk_solve|apply IH].
Qed.

Lemma generate_daily_tasks_no_risk :
  preserves (no_risk failed hours) generate_daily_tasks.
Proof.
  pose proof (no_risk_next failed hours).
  unfold generate_daily_tasks, generate_task. preserves_auto; no_risk_solve.
Qed.

Lemma progress_tasks_no_risk :
  preserves (no_risk failed hours) progress_tasks.
Proof.
  pose proof (no_risk_next failed hours).
  unfold progress_tasks, progress_task. preserves_auto;
    first [no_risk_solve|apply resolve_dependencies_no_risk].
Qed.

Lemma deploy_task_no_risk (acc : Q) (i : nat) :
  preserves (no_risk failed hours) (deploy_task acc i).
Proof.
  intros [e g] Hw. rewrite deploy_task_eq.
  pose proof Hw as (Hrate&Htape&_). cbn [fst snd] in Hrate, Htape.
  destruct (Htape (pos g)) as [Hu _].
  rewrite (proj2 (Qltb_ge _ _)) by lra. cbn [world_of].
  by apply (no_risk_next failed hours).
Qed.

Lemma attempt_deployments_no_risk :
  preserves (no_risk failed hours) attempt_deployments.
Proof.
  pose proof (no_risk_next failed hours).
  unfold attempt_deployments. preserves_auto. apply deploy_task_no_risk.
Qed.

Lemma calculate_daily_delay_cost_no_risk :
  preserves (no_risk failed hours) calculate_daily_delay_cost.
Proof.
  pose proof (no_risk_next failed hours).
  unfold calculate_daily_delay_cost. preserves_auto; no_risk_solve.
Qed.

Lemma simulate_day_no_risk : preserves (no_risk failed hours) simulate_day.
Proof.
  unfold simulate_day.
  preserves_step; [apply generate_daily_tasks_no_risk|].
  preserves_step; [apply progress_tasks_no_risk|].
  preserves_step; [apply attempt_deployments_no_risk|].
  preserves_step; [apply calculate_daily_delay_cost_no_risk|].
  unfold close_day. preserves_step. no_risk_solve.
Qed.

Lemma call_no_risk (m : method) (w : World) :
  no_risk failed hours w -> no_risk failed hours (call m w).
Proof.
  destruct m; cbn [call].
  - apply generate_daily_tasks_no_risk.
  - apply progress_tasks_no_risk.
  - apply attempt_deployments_no_risk.
  - apply calculate_daily_delay_cost_no_risk.
  - apply simulate_day_no_risk.
  - unfold run_simulation.
    preserves_step; [|preserves_auto].
    preserves_step. apply simulate_day_no_risk.
Qed.

End NoRisk.

(** X11. With [base_deploy_failure_rate <= 0] and draws in the unit
    interval, no method ever records a failed deployment: the failed-deploy
    count and the cumulative recovery hours stay what they were. *)
Theorem no_failure_without_risk (m : method) (e : Engine) (g : Rng) :
  base_deploy_failure_rate (params e) <= 0 -> unit_tape g ->
  failed_deploys (metrics (fst (call m (e, g)))) = failed_deploys (metrics e)
  /\
  total_recovery_hours (metrics (fst (call m (e, g))))
  = total_recovery_hours (metrics e).
Proof.
  intros Hrate Htape.
  destruct (call_no_risk (failed_deploys (metrics e))
              (total_recovery_hours (metrics e)) m (e, g)) as (_&_&Hf&Hh).
  - split; [exact Hrate|]. split; [exact Htape|]. by split.
  - by split.
Qed.

Lemma no_failure_without_risk_witness :
  let e := init monday true
             (Some (mkParams 5 75 3 (1, 5)%Z 1000 2000 0 3 2 1 0.3
                             (other_teams SIMULATION_DEFAULTS))) 1 in
  failed_deploys
    (metrics (fst (call (RunSimulation 30) (e, rng_of [0.5; 0.1; 0.6]))))
  = failed_deploys (metrics e)
  /\
  total_recovery_hours
    (metrics (fst (call (RunSimulation 30) (e, rng_of [0.5; 0.1; 0.6]))))
  = total_recovery_hours (metrics e).
Proof.
  intros e.
  apply (no_failure_without_risk (RunSimulation 30) e (rng_of [0.5; 0.1; 0.6])).
  - by vm_compute.
  - apply unit_tape_rng_of. repeat constructor; by vm_compute.
Defined.

(** ** Runs *)

Lemma repeat_times_add (a b : nat) (body : M unit) (w : World) :
  repeat_times (a + b) body w
  = (_ ← repeat_times a body; repeat_times b body) w.
Proof.
  revert w. induction a as [|a IH]; intros w; [done|].
  cbn [Nat.add repeat_times]. rewrite !bind_eq.
  destruct (body w) as [[] w1|x w1]; [|done].
  by rewrite IH, bind_eq.
Qed.

(** X12. Calling [run_simulation] twice on the same instance, for [a] and
    then [b] days, leaves the engine and the generator as one call for
    [a + b] days does and returns the same result, or raises the same
    exception: a run continues from the state the previous one left. *)
Theorem run_simulation_continues (a b : Z) (w : World) :
  (0 <= a)%Z -> (0 <= b)%Z ->
  (_ ← run_simulation a; run_simulation b) w = run_simulation (a + b) w.
Proof.
  intros Ha Hb. unfold run_simulation.
  rewrite Z2Nat.inj_add by done. rewrite !bind_eq, repeat_times_add, !bind_eq.
  by destruct (repeat_times (Z.to_nat a) simulate_day w) as [[] w1|x w1].
Qed.

Lemma run_simulation_continues_witness :
  (_ ← run_simulation 1; run_simulation 1) blocked_friday
  = run_simulation (1 + 1) blocked_friday.
Proof. apply (run_simulation_continues 1 1 blocked_friday); lia. Defined.






(** ** Invariants of the engine *)

#[global] Instance keeps_preorder (I : Engine -> Prop) : PreOrder (keeps I).
Proof.
  split.
  - intros e He. exact He.
  - intros e1 e2 e3 H12 H23 H1. apply H23, H12, H1.
Qed.

Lemma simulate_day_keeps (I : Engine -> Prop) :
  respects (keeps I) generate_daily_tasks ->
  respects (keeps I) progress_tasks ->
  respects (keeps I) attempt_deployments ->
  respects (keeps I) calculate_daily_delay_cost ->
  (forall deploy_cost delay_cost,
     respects (keeps I) (close_day deploy_cost delay_cost)) ->
  respects (keeps I) simulate_day.
Proof.
  intros Hgen Hprog Hatt Hdelay Hclose. unfold simulate_day.
  respects_step; [exact Hgen|].
  respects_step; [exact Hprog|].
  respects_step; [exact Hatt|].
  respects_step; [exact Hdelay|].
  apply Hclose.
Qed.

Lemma call_keeps (I : Engine -> Prop) :
  respects (keeps I) generate_daily_tasks ->
  respects (keeps I) progress_tasks ->
  respects (keeps I) attempt_deployments ->
  respects (keeps I) calculate_daily_delay_cost ->
  (forall deploy_cost delay_cost,
     respects (keeps I) (close_day deploy_cost delay_cost)) ->
  forall m w, I (fst w) -> I (fst (call m w)).
Proof.
  intros Hgen Hprog Hatt Hdelay Hclose m w.
  pose proof (simulate_day_keeps I Hgen Hprog Hatt Hdelay Hclose) as Hday.
  destruct m; cbn [call].
  - apply Hgen.
  - apply Hprog.
  - apply Hatt.
  - apply Hdelay.
  - apply Hday.
  - revert w. change (respects (keeps I) (run_simulation days)).
    unfold run_simulation.
    respects_step; [|repeat respects_step].
    respects_step. exact Hday.
Qed.

Lemma reachable_keeps (I : Engine -> Prop) :
  respects (keeps I) generate_daily_tasks ->
  respects (keeps I) progress_tasks ->
  respects (keeps I) attempt_deployments ->
  respects (keeps I) calculate_daily_delay_cost ->
  (forall deploy_cost delay_cost,
     respects (keeps I) (close_day deploy_cost delay_cost)) ->
  (forall now allow ps multiplier, I (init now allow ps multiplier)) ->
  forall e, reachable e -> I e.
Proof.
  intros Hgen Hprog Hatt Hdelay Hclose Hinit e.
  induction 1 as [now allow ps mult|e g m _ IH]; [apply Hinit|].
  by apply (call_keeps I Hgen Hprog Hatt Hdelay Hclose m (e, g)).
Qed.

(** ** The metrics and the registry *)

Lemma registry_rel_Forall2 (T : relation Task) (ts ts' : list Task) :
  registry_rel T (fun _ => False) ts ts' -> Forall2 T ts ts'.
Proof.
  intros Hreg. pose proof (registry_rel_length _ _ _ Hreg) as Hlen.
  destruct Hreg as [Hold _].
  apply Forall2_same_length_lookup_2; [done|].
  intros i t t' Hi Hi'. destruct (Hold i t Hi) as (t''&Hi''&HT). congruence.
Qed.





#[global] Instance quiet_preorder : PreOrder quiet.
Proof.
  split.
  - by intros t.
  - intros t1 t2 t3 (Hh12&Hd12&Hf12) (Hh23&Hd23&Hf23).
    split; [congruence|]. split; tauto.
Qed.












(** ** The dates on a task object *)

Lemma progress_steps_dates (t t' : Task) :
  rtc progress_step t t' ->
  created_date t' = created_date t /\ deploy_date t' = deploy_date t.
Proof.
  induction 1 as [t|t1 t2 t3 Hstep _ [IHc IHd]]; [done|].
  rewrite IHc, IHd. by destruct Hstep.
Qed.

Lemma dates_ordered_ext (e e' : Engine) (t : Task) :
  allow_friday_deploys e' = allow_friday_deploys e ->
  (current_date e <= current_date e')%Z ->
  dates_ordered e t -> dates_ordered e' t.
Proof.
  intros Ha Hd [Hc Hdep]. split; [lia|]. intros d Hdd.
  destruct (Hdep d Hdd) as [Hr Hfri]. split; [lia|]. by rewrite Ha.
Qed.

Lemma generate_task_dates : respects (keeps dates_kept) generate_task.
Proof.
  intros [e g]. unfold generate_task, randint, choice.
  run_body; intros Hk; try exact Hk.
  all: unfold dates_kept; engine_simpl; apply Forall_app; split; [exact Hk|].
  all: apply Forall_singleton; split; cbn; [lia|done].
Qed.

Lemma generate_daily_tasks_dates :
  respects (keeps dates_kept) generate_daily_tasks.
Proof.
  unfold generate_daily_tasks. repeat respects_step.
  apply generate_task_dates.
Qed.

Lemma progress_tasks_dates : respects (keeps dates_kept) progress_tasks.
Proof.
  intros w. destruct (progress_tasks_progressed w)
    as ((_&_&Ha)&(_&_&_&Hd)&Hreg).
  intros Hk. unfold dates_kept in *. rewrite Forall_forall in Hk.
  apply Forall_forall. intros t' Ht'.
  apply list_elem_of_lookup in Ht' as [i Hi'].
  apply registry_rel_Forall2 in Hreg.
  destruct (Forall2_lookup_r _ _ _ _ _ Hreg Hi') as (t&Hi&Hsteps).
  destruct (progress_steps_dates _ _ Hsteps) as [Hc Hdd].
  apply (dates_ordered_ext (fst w)); [done|lia|].
  assert (dates_ordered (fst w) t) as [Hct Hdt]
    by (apply Hk; by eapply list_elem_of_lookup_2).
  split; [by rewrite Hc|]. rewrite Hc, Hdd. exact Hdt.
Qed.

Lemma attempt_deployments_dates :
  respects (keeps dates_kept) attempt_deployments.
Proof.
  intros [e g]. destruct (attempt_deployments_spec e g) as (c&e'&g'&->&Hpost).
  cbn [world_of fst]. unfold attempt_post in Hpost.
  destruct (should_deploy_today e) eqn:Hsd; [|by destruct Hpost as [-> _]].
  destruct Hpost as ((_&_&Ha)&Hd&_&_&_&(Hlen&Hout&Hin)&_).
  intros Hk. unfold dates_kept in *. rewrite Forall_forall in Hk.
  apply Forall_forall. intros t' Ht'.
  apply list_elem_of_lookup in Ht' as [j Hj'].
  destruct (lookup_lt_is_Some_2 (tasks e) j) as [t Hj].
  { apply lookup_lt_Some in Hj'. lia. }
  assert (dates_ordered e t) as [Hct Hdt]
    by (apply Hk; by eapply list_elem_of_lookup_2).
  apply (dates_ordered_ext e); [done|lia|].
  destruct (decide (j ∈ ready_refs (tasks e))) as [Hr|Hr].
  - destruct (Hin j t Hr Hj) as [Hdep|Hfail]; rewrite Hj' in *.
    + injection Hdep as ->. split; [done|]. cbn. intros d [= <-].
      split; [lia|]. intros Hallow Hfri.
      unfold should_deploy_today in Hsd. rewrite Hfri, Hallow in Hsd. done.
    + injection Hfail as ->. by split.
  - rewrite Hout, Hj in Hj' by done. injection Hj' as <-. by split.
Qed.

Lemma calculate_daily_delay_cost_dates :
  respects (keeps dates_kept) calculate_daily_delay_cost.
Proof.
  intros [e g]. rewrite calculate_daily_delay_cost_eq.
  destruct (delayed_today e); intros Hk; exact Hk.
Qed.

Lemma close_day_dates (deploy_cost delay_cost : Q) :
  respects (keeps dates_kept) (close_day deploy_cost delay_cost).
Proof.
  intros [e g] Hk. unfold dates_kept in *. cbn.
  eapply Forall_impl; [exact Hk|]. intros t.
  apply dates_ordered_ext; cbn; [done|lia].
Qed.

(** X15. In an engine that a caller can obtain, every task was created no
    later than the engine's current date, and a task that carries a deploy
    date was deployed on or after the day it was created and no later than
    the current date; if the engine forbids Friday deploys, no deploy date
    is a Friday. *)
Theorem deploy_dates_are_deploy_days (e : Engine) (t : Task) :
  reachable e -> t ∈ tasks e ->
  (created_date t <= current_date e)%Z /\
  forall d, deploy_date t = Some d ->
    (created_date t <= d <= current_date e)%Z /\
    (allow_friday_deploys e = false -> weekday d <> 4%Z).
Proof.
  intros He Ht.
  apply (reachable_keeps dates_kept
           generate_daily_tasks_dates progress_tasks_dates
           attempt_deployments_dates calculate_daily_delay_cost_dates
           close_day_dates) in He.
  - unfold dates_kept in He. rewrite Forall_forall in He. by apply He.
  - intros now allow ps mult. constructor.
Qed.

(** The task of Monday in [monday_evening] is deployed on the Tuesday. *)
Lemma deploy_dates_are_deploy_days_witness :
  let e := fst (call SimulateDay monday_evening) in
  let t := mkTask 1 monday 3 DEPLOYED (Some (monday + 1)%Z) 0 [] in
  (created_date t <= current_date e)%Z /\
  forall d, deploy_date t = Some d ->
    (created_date t <= d <= current_date e)%Z /\
    (allow_friday_deploys e = false -> weekday d <> 4%Z).
Proof.
  intros e t. apply (deploy_dates_are_deploy_days e t).
  - unfold e, monday_evening. do 2 apply reachable_call_world.
    apply reachable_init.
  - apply list_elem_of_lookup_2 with O. vm_compute. reflexivity.
Defined.

(** ** Costs that cannot be negative *)

Lemma nonneg_costs_ext (e e' : Engine) :
  same_config e e' -> nonneg_costs e -> nonneg_costs e'.
Proof. intros (Hp&Hm&_). unfold nonneg_costs. by rewrite Hp, Hm. Qed.

#[global] Instance cost_grows_preorder : PreOrder cost_grows.
Proof.
  split.
  - intros e. split; [reflexivity|]. intros _. apply Qle_refl.
  - intros e1 e2 e3 [Hc12 Hg12] [Hc23 Hg23]. split; [by etrans|].
    intros Hn. eapply Qle_trans; [by apply Hg12|].
    apply Hg23. by eapply nonneg_costs_ext.
Qed.

Lemma cost_grows_same_ledger (e e' : Engine) :
  same_config e e' -> same_ledger e e' -> cost_grows e e'.
Proof.
  intros Hc (Htot&_). split; [done|]. intros _. rewrite Htot. apply Qle_refl.
Qed.

Lemma calculate_recovery_time_nonneg (e : Engine) :
  nonneg_costs e -> 0 <= calculate_recovery_time e.
Proof.
  intros (_&_&_&_&Hh&Hw&_). unfold calculate_recovery_time.
  destruct (bool_decide _); [by apply Qmult_le_0_compat|done].
Qed.

Lemma failure_cost_nonneg (e : Engine) :
  nonneg_costs e ->
  0 <= calculate_recovery_time e * team_size (params e)
       * avg_hourly_rate (params e) * failure_cost_multiplier e
       + calculate_recovery_time e * hourly_downtime_cost (params e)
         * failure_cost_multiplier e.
Proof.
  intros Hn. pose proof (calculate_recovery_time_nonneg e Hn) as Hh.
  destruct Hn as (Hts&Hr&Hdc&_&_&_&Hm).
  rewrite <- (Qplus_0_r 0). apply Qplus_le_compat;
    repeat apply Qmult_le_0_compat; done.
Qed.

Lemma delay_cost_of_nonneg (e : Engine) : nonneg_costs e -> 0 <= delay_cost_of e.
Proof.
  intros (_&_&_&Hrev&_). unfold delay_cost_of.
  repeat apply Qmult_le_0_compat; [|done|done].
  change 0 with (inject_Z 0). rewrite <- Zle_Qle. lia.
Qed.

Lemma deploy_task_cost_grows (acc : Q) (i : nat) :
  respects cost_grows (deploy_task acc i).
Proof.
  intros [e g]. rewrite deploy_task_eq.
  destruct (Qltb _ _); cbv zeta; cbn [world_of fst]; (split; [done|]);
    engine_simpl; intros Hn; [|apply Qle_refl].
  pose proof (failure_cost_nonneg e Hn). lra.
Qed.

Lemma attempt_deployments_cost_grows :
  respects cost_grows attempt_deployments.
Proof.
  unfold attempt_deployments. respects_auto. apply deploy_task_cost_grows.
Qed.

Lemma calculate_daily_delay_cost_cost_grows :
  respects cost_grows calculate_daily_delay_cost.
Proof.
  intros [e g]. rewrite calculate_daily_delay_cost_eq.
  destruct (delayed_today e); [|reflexivity]. cbn [world_of fst].
  split; [done|]. unfold charge_delay. engine_simpl. intros Hn.
  pose proof (delay_cost_of_nonneg e Hn). lra.
Qed.

Lemma generate_daily_tasks_cost_grows :
  respects cost_grows generate_daily_tasks.
Proof.
  intros w. destruct (generate_daily_tasks_generated w) as (Hc&Hl&_).
  by apply cost_grows_same_ledger.
Qed.

Lemma progress_tasks_cost_grows : respects cost_grows progress_tasks.
Proof.
  intros w. destruct (progress_tasks_progressed w) as (Hc&Hl&_).
  by apply cost_grows_same_ledger.
Qed.

Lemma simulate_day_cost_grows : respects cost_grows simulate_day.
Proof.
  unfold simulate_day.
  respects_step; [apply generate_daily_tasks_cost_grows|].
  respects_step; [apply progress_tasks_cost_grows|].
  respects_step; [apply attempt_deployments_cost_grows|].
  respects_step; [apply calculate_daily_delay_cost_cost_grows|].
  intros [e g]. split; [done|]. intros _. apply Qle_refl.
Qed.

Lemma call_cost_grows (m : method) (w : World) :
  cost_grows (fst w) (fst (call m w)).
Proof.
  destruct m; cbn [call].
  - apply generate_daily_tasks_cost_grows.
  - apply progress_tasks_cost_grows.
  - apply attempt_deployments_cost_grows.
  - apply calculate_daily_delay_cost_cost_grows.
  - apply simulate_day_cost_grows.
  - unfold run_simulation.
    respects_step; [|repeat respects_step].
    respects_step. apply simulate_day_cost_grows.
Qed.

(** X16. If no rate, duration or multiplier of the configuration is
    negative, no method call lowers the running total, whether it returns or
    raises. *)
Theorem total_cost_never_decreases (m : method) (w : World) :
  nonneg_costs (fst w) -> total_cost (fst w) <= total_cost (fst (call m w)).
Proof. intros Hn. by apply (call_cost_grows m w). Qed.

Lemma defaults_nonneg_costs (now : Z) (allow : bool) (multiplier : Q) :
  0 <= multiplier -> nonneg_costs (init now allow None multiplier).
Proof. intros Hm. unfold nonneg_costs. cbn. repeat split; try done. Qed.

Lemma total_cost_never_decreases_witness :
  total_cost (fst blocked_friday)
  <= total_cost (fst (call (RunSimulation 2) blocked_friday)).
Proof.
  apply (total_cost_never_decreases (RunSimulation 2) blocked_friday).
  unfold nonneg_costs. cbn. repeat split; done.
Defined.

Lemma simulate_day_daily_nonneg : respects (keeps daily_nonneg) simulate_day.
Proof.
  intros [e g] Hk Hn. pose proof (simulate_day_cost_grows (e, g)) as [Hc Hg].
  cbn [fst] in Hc, Hg.
  assert (nonneg_costs e) as Hne.
  { destruct Hc as (Hp&Hm&_). unfold nonneg_costs in *.
    by rewrite <- Hp, <- Hm. }
  specialize (Hk Hne). specialize (Hg Hne).
  destruct (simulate_day (e, g)) as [[] [e' g']|x [e' g']] eqn:Hrun;
    cbn [world_of fst] in *.
  - destruct (simulate_day_ledger_Ok _ _ _ _ Hrun) as (c&Hdc&Htot).
    rewrite Hdc. apply Forall_app. split; [done|].
    apply Forall_singleton. lra.
  - destruct (simulate_day_ledger_Raise _ _ _ _ _ Hrun) as (_&Hdc&_).
    by rewrite Hdc.
Qed.

Lemma call_daily_nonneg (m : method) (w : World) :
  daily_nonneg (fst w) -> daily_nonneg (fst (call m w)).
Proof.
  assert (forall (e e' : Engine), same_config e e' ->
            daily_costs e' = daily_costs e -> keeps daily_nonneg e e')
    as Hsame.
  { intros e e' (Hp&Hm&_) Hdc Hk Hn. rewrite Hdc. apply Hk.
    unfold nonneg_costs in *. by rewrite <- Hp, <- Hm. }
  destruct m; cbn [call].
  - destruct (generate_daily_tasks_generated w) as (Hc&(_&Hdc&_)&_).
    by apply Hsame.
  - destruct (progress_tasks_progressed w) as (Hc&(_&Hdc&_)&_).
    by apply Hsame.
  - destruct w as [e g].
    destruct (attempt_deployments_spec e g) as (c&e'&g'&->&Hpost).
    cbn [world_of fst]. unfold attempt_post in Hpost.
    destruct (should_deploy_today e).
    + destruct Hpost as (Hc&_&Hdc&_). by apply Hsame.
    + by destruct Hpost as [-> _].
  - destruct w as [e g]. rewrite calculate_daily_delay_cost_eq.
    destruct (delayed_today e); [|done]. by apply Hsame.
  - apply simulate_day_daily_nonneg.
  - revert w. change (respects (keeps daily_nonneg) (run_simulation days)).
    unfold run_simulation.
    respects_step; [|repeat respects_step].
    respects_step. apply simulate_day_daily_nonneg.
Qed.

(** X17. In an engine that a caller can obtain and whose configuration has
    no negative rate, duration or multiplier, no entry of [daily_costs] is
    negative. *)
Theorem daily_costs_are_nonnegative (e : Engine) :
  reachable e -> nonneg_costs e -> Forall (fun c => 0 <= c) (daily_costs e).
Proof.
  induction 1 as [now allow ps mult|e g m _ IH]; [by constructor|].
  apply (call_daily_nonneg m (e, g)). exact IH.
Qed.

Lemma daily_costs_are_nonnegative_witness :
  Forall (fun c => 0 <= c) (daily_costs (fst saturday_evening)).
Proof.
  apply (daily_costs_are_nonnegative (fst saturday_evening)).
  - unfold saturday_evening. do 2 apply reachable_call_world.
    apply reachable_init.
  - unfold nonneg_costs. cbn. repeat split; done.
Defined.

(** ** The tasks of a day *)

Lemma generate_task_creates (e : Engine) (g : Rng) (e' : Engine) (g' : Rng) :
  unit_tape g -> generate_task (e, g) = Ok tt (e', g') ->
  unit_tape g' /\ params e' = params e /\ current_date e' = current_date e /\
  task_counter e' = (task_counter e + 1)%Z /\
  exists t, tasks e' = tasks e ++ [t] /\
            as_generated (params e) (current_date e) (task_counter e + 1) t.
Proof.
  intros Htape. unfold generate_task, randint, choice.
  run_monad. engine_simpl.
  destruct (_ <? _)%Z eqn:Hrange; [done|]. apply Z.ltb_ge in Hrange.
  run_monad. cbn [rng_next tape pos].
  destruct (Htape (pos g)) as [Hu0 Hu1].
  destruct (Qfloor_unit (tape g (pos g))
              (snd (task_complexity_range (params e))
               - fst (task_complexity_range (params e)) + 1) Hu0 Hu1)
    as [Hlo Hhi]; [lia|].
  set (fl := Qfloor (tape g (pos g)
                     * inject_Z (snd (task_complexity_range (params e))
                                 - fst (task_complexity_range (params e))
                                 + 1))) in *.
  clearbody fl.
  destruct (Qltb _ _).
  - destruct (other_teams (params e)) as [|team teams] eqn:Hts; [done|].
    run_monad. cbn [rng_next tape pos].
    destruct ((team :: teams) !! _) as [x|] eqn:Hx; [|done].
    intros [= <- <-]. engine_simpl.
    split; [by do 3 apply unit_tape_next|]. do 3 (split; [done|]).
    eexists. split; [reflexivity|]. unfold as_generated.
    cbn [id created_date status deploy_date recovery_hours complexity
         dependencies].
    do 5 (split; [reflexivity|]). split; [lia|].
    right. exists x. split; [|reflexivity]. rewrite Hts.
    eapply list_elem_of_lookup_2. exact Hx.
  - intros [= <- <-]. engine_simpl.
    split; [by do 2 apply unit_tape_next|]. do 3 (split; [done|]).
    eexists. split; [reflexivity|]. unfold as_generated.
    cbn [id created_date status deploy_date recovery_hours complexity
         dependencies].
    do 5 (split; [reflexivity|]). split; [lia|]. by left.
Qed.

Lemma repeat_generate_task (n : nat) (e : Engine) (g : Rng) (e' : Engine)
    (g' : Rng) :
  unit_tape g -> repeat_times n generate_task (e, g) = Ok tt (e', g') ->
  params e' = params e /\ current_date e' = current_date e /\
  task_counter e' = (task_counter e + Z.of_nat n)%Z /\
  exists new,
    tasks e' = tasks e ++ new /\ length new = n /\
    forall i t, new !! i = Some t ->
      as_generated (params e) (current_date e)
        (task_counter e + 1 + Z.of_nat i) t.
Proof.
  revert e g. induction n as [|n IH]; intros e g Htape; cbn [repeat_times].
  - intros [= <- <-]. do 2 (split; [done|]). split; [lia|].
    exists []. by rewrite app_nil_r.
  - intros Hrun. apply bind_Ok in Hrun as ([] & [e1 g1] & Hone & Hrun).
    destruct (generate_task_creates _ _ _ _ Htape Hone)
      as (Htape1&Hp1&Hd1&Hc1&t&Ht1&Hgen).
    destruct (IH _ _ Htape1 Hrun) as (Hp&Hd&Hc&new&Ht&Hlen&Hnew).
    split; [congruence|]. split; [congruence|]. split; [lia|].
    exists (t :: new). split; [by rewrite Ht, Ht1, <- app_assoc|].
    split; [by cbn [length]; rewrite Hlen|].
    intros [|i] t'; cbn [lookup list_lookup].
    + intros [= <-]. by rewrite Z.add_0_r.
    + intros Hi. specialize (Hnew i t' Hi).
      rewrite Hp1, Hd1, Hc1 in Hnew.
      by replace (task_counter e + 1 + Z.of_nat (S i))%Z
        with (task_counter e + 1 + 1 + Z.of_nat i)%Z by lia.
Qed.

(** X18. When [generate_daily_tasks] returns, with draws in the unit
    interval, it has appended exactly [new_tasks_per_day] task objects (none
    if that number is not positive) and advanced the counter by as many; the
    new tasks carry consecutive identifiers from [task_counter + 1] on, are
    created today and IN_PROGRESS, have a complexity within
    [task_complexity_range], and depend on no team or on one configured
    team. *)
Theorem generated_tasks_are_numbered (e : Engine) (g : Rng) (e' : Engine)
    (g' : Rng) :
  unit_tape g -> generate_daily_tasks (e, g) = Ok tt (e', g') ->
  task_counter e'
  = (task_counter e + Z.max 0 (new_tasks_per_day (params e)))%Z /\
  exists new,
    tasks e' = tasks e ++ new /\
    length new = Z.to_nat (new_tasks_per_day (params e)) /\
    forall i t, new !! i = Some t ->
      as_generated (params e) (current_date e)
        (task_counter e + 1 + Z.of_nat i) t.
Proof.
  intros Htape. unfold generate_daily_tasks. rewrite bind_eq.
  cbn [get_self fst]. intros Hrun.
  destruct (repeat_generate_task _ _ _ _ _ Htape Hrun) as (_&_&Hc&Hnew).
  split; [lia|done].
Qed.

(** The three tasks of [monday_tasks]. *)
Lemma generated_tasks_are_numbered_witness :
  task_counter monday_tasks
  = (task_counter (init monday true None 1)
     + Z.max 0 (new_tasks_per_day (params (init monday true None 1))))%Z /\
  exists new,
    tasks monday_tasks = tasks (init monday true None 1) ++ new /\
    length new
    = Z.to_nat (new_tasks_per_day (params (init monday true None 1))) /\
    forall i t, new !! i = Some t ->
      as_generated (params (init monday true None 1))
        (current_date (init monday true None 1))
        (task_counter (init monday true None 1) + 1 + Z.of_nat i) t.
Proof.
  apply (generated_tasks_are_numbered (init monday true None 1)
           (rng_of [0.5; 0.1; 0.6; 0.5; 0.9; 0.5; 0.9]) monday_tasks
           (mkRng (tape (rng_of [0.5; 0.1; 0.6; 0.5; 0.9; 0.5; 0.9])) 7)).
  - apply unit_tape_rng_of. repeat constructor; by vm_compute.
  - vm_compute. reflexivity.
Defined.

(** ** The comparison of the two strategies *)


Lemma cumulative_lookup (cs : list Q) (i : nat) (a : Q) :
  cumulative cs !! i = Some a <->
  (i < length cs)%nat /\ a = sumQ (take (S i) cs).
Proof.
  unfold cumulative. rewrite list_lookup_fmap. split.
  - intros Hi. destruct (seq 0 (length cs) !! i) as [j|] eqn:Hj; [|done].
    apply lookup_seq in Hj as [-> Hlt]. cbn in Hi. split; [done|congruence].
  - intros [Hlt ->]. by rewrite lookup_seq_lt.
Qed.

Lemma sumQ_snoc_le (cs : list Q) (c : Q) : 0 <= c -> sumQ cs <= sumQ (cs ++ [c]).
Proof. intros Hc. rewrite sumQ_app. lra. Qed.



(** X20. Each point of the cumulative costs is the previous point plus the
    cost of that day, so the curve never falls when no day cost is
    negative. *)
Theorem cumulative_costs_never_fall (cs : list Q) (i : nat) (a b : Q) :
  Forall (fun c => 0 <= c) cs ->
  cumulative cs !! i = Some a -> cumulative cs !! S i = Some b ->
  exists c, cs !! S i = Some c /\ b == a + c /\ a <= b.
Proof.
  intros Hcs Ha Hb. apply cumulative_lookup in Ha as [_ ->].
  apply cumulative_lookup in Hb as [Hlt ->].
  destruct (lookup_lt_is_Some_2 cs (S i) Hlt) as [c Hc]. exists c.
  split; [done|]. rewrite (take_S_r cs (S i) c Hc), sumQ_app.
  split; [reflexivity|].
  rewrite Forall_forall in Hcs.
  assert (0 <= c) by (apply Hcs; by eapply list_elem_of_lookup_2). lra.
Qed.

Lemma cumulative_costs_never_fall_witness :
  exists c, [24000; 28500] !! 1%nat = Some c /\ 52500 == 24000 + c /\
            24000 <= 52500.
Proof.
  apply (cumulative_costs_never_fall [24000; 28500] O 24000 52500).
  - repeat constructor; by vm_compute.
  - vm_compute. reflexivity.
  - vm_compute. reflexivity.
Defined.






(** ** A ready task on a deploy day *)

Lemma progress_steps_ready (t t' : Task) :
  rtc progress_step t t' -> status t <> IN_PROGRESS -> t' = t.
Proof.
  intros Hsteps Hs. destruct Hsteps as [|t1 t2 t3 Hstep _]; [done|].
  by destruct Hstep.
Qed.

(** X22. In a day-step that completes, a task that is READY_TO_DEPLOY in the
    morning is not touched by the generation and the progress of the day.
    On a Friday without Friday deploys it is left as it is; on any other day
    it ends the day DEPLOYED with today as its deploy date, or FAILED with
    the recovery time of today. *)
Theorem ready_task_is_attempted_today (e : Engine) (g : Rng) (e' : Engine)
    (g' : Rng) (i : nat) (t : Task) :
  simulate_day (e, g) = Ok tt (e', g') ->
  tasks e !! i = Some t -> status t = READY_TO_DEPLOY ->
  (deploys_skipped e -> tasks e' !! i = Some t) /\
  (~ deploys_skipped e ->
   tasks e' !! i = Some (task_deployed (current_date e) t) \/
   tasks e' !! i = Some (task_failed (calculate_recovery_time e) t)).
Proof.
  intros Hrun Hi Hs. unfold simulate_day in Hrun.
  apply bind_Ok in Hrun as ([] & [e1 g1] & Hgen & Hrun).
  apply bind_Ok in Hrun as ([] & [e2 g2] & Hprog & Hrun).
  apply bind_Ok in Hrun as (dc & [e3 g3] & Hatt & Hrun).
  apply bind_Ok in Hrun as (lc & [e4 g4] & Hdelay & Hrun).
  injection Hrun as <- <-. engine_simpl.
  pose proof (generate_daily_tasks_generated (e, g)) as Hg.
  rewrite Hgen in Hg.
  destruct Hg as ((Hp1&_&Ha1)&(_&_&_&Hd1)&new&Ht1&_).
  pose proof (progress_tasks_progressed (e1, g1)) as Hp.
  rewrite Hprog in Hp. destruct Hp as ((Hp2&_&Ha2)&(_&_&_&Hd2)&Hold&_).
  cbn [world_of fst] in *.
  assert (tasks e2 !! i = Some t) as Hi2.
  { destruct (Hold i t) as (t2&Hi2&Hsteps);
      [rewrite Ht1; by apply lookup_app_l_Some|].
    apply progress_steps_ready in Hsteps as ->; [done|by rewrite Hs]. }
  assert (tasks e4 = tasks e3) as ->.
  { rewrite calculate_daily_delay_cost_eq in Hdelay.
    by destruct (delayed_today e3); injection Hdelay as <- <- <-. }
  destruct (attempt_deployments_spec e2 g2) as (c&e3'&g3'&Hatt'&Hpost).
  rewrite Hatt in Hatt'. injection Hatt' as <- <- <-.
  assert (should_deploy_today e2 = should_deploy_today e) as Hsd
    by (apply should_deploy_today_ext; congruence).
  unfold attempt_post in Hpost. rewrite Hsd in Hpost. split.
  - intros Hskip. apply should_deploy_today_false in Hskip.
    rewrite Hskip in Hpost. by destruct Hpost as [-> _].
  - intros Hskip. apply should_deploy_today_true in Hskip.
    rewrite Hskip in Hpost. destruct Hpost as (_&_&_&_&_&(_&_&Hin)&_).
    rewrite <- (calculate_recovery_time_ext e e2) by congruence.
    rewrite <- Hd1, <- Hd2.
    apply Hin; [|done]. apply elem_of_ready_refs. unfold is_ready.
    by rewrite Hi2, <- Hs.
Qed.

(** On a Friday with Friday deploys, the ready task of [ready_on_friday] is
    deployed (0.5); the draws before are those of the three new tasks. *)
Lemma ready_task_is_attempted_today_witness :
  let t := mkTask 1 friday 3 READY_TO_DEPLOY None 0 [] in
  let g := rng_of [0.5; 0.9; 0.5; 0.9; 0.5; 0.9; 0.9; 0.9; 0.9; 0.5] in
  let w' := call SimulateDay (ready_on_friday, g) in
  (deploys_skipped ready_on_friday -> tasks (fst w') !! O = Some t) /\
  (~ deploys_skipped ready_on_friday ->
   tasks (fst w') !! O
   = Some (task_deployed (current_date ready_on_friday) t) \/
   tasks (fst w') !! O
   = Some (task_failed (calculate_recovery_time ready_on_friday) t)).
Proof.
  intros t g w'.
  apply (ready_task_is_attempted_today ready_on_friday g (fst w') (snd w') O t).
  - vm_compute. reflexivity.
  - reflexivity.
  - reflexivity.
Defined.

(** ** What a call never takes back *)

#[global] Instance grown_preorder : PreOrder grown.
Proof.
  split.
  - intros e. unfold grown. repeat split; reflexivity.
  - intros e1 e2 e3 (H1&H2&H3&H4&H5&H6&H7) (H1'&H2'&H3'&H4'&H5'&H6'&H7').
    unfold grown. repeat split; try lia. by etrans.
Qed.

(** Closes [grown e e'] when [e'] is [e] after attribute assignments. *)
Ltac grown_solve :=
  unfold grown; engine_simpl; rewrite ?length_alter, ?length_app;
  repeat split; first [lia|reflexivity|by apply prefix_app_r].

Lemma resolve_dependencies_grown (i fuel j : nat) :
  respects grown (resolve_dependencies i fuel j).
Proof.
  revert j. induction fuel as [|fuel IH]; intros j; cbn [resolve_dependencies].
  - respects_step.
  - respects_auto; [|apply IH]. grown_solve.
Qed.

Lemma generate_daily_tasks_grown : respects grown generate_daily_tasks.
Proof.
  unfold generate_daily_tasks, generate_task. respects_auto; grown_solve.
Qed.

Lemma progress_tasks_grown : respects grown progress_tasks.
Proof.
  unfold progress_tasks, progress_task. respects_auto.
  - apply resolve_dependencies_grown.
  - grown_solve.
Qed.

Lemma attempt_deployments_grown : respects grown attempt_deployments.
Proof.
  unfold attempt_deployments, deploy_task. respects_auto; grown_solve.
Qed.

Lemma calculate_daily_delay_cost_grown :
  respects grown calculate_daily_delay_cost.
Proof. unfold calculate_daily_delay_cost. respects_auto. grown_solve. Qed.

Lemma simulate_day_grown : respects grown simulate_day.
Proof.
  unfold simulate_day.
  respects_step; [apply generate_daily_tasks_grown|].
  respects_step; [apply progress_tasks_grown|].
  respects_step; [apply attempt_deployments_grown|].
  respects_step; [apply calculate_daily_delay_cost_grown|].
  unfold close_day. respects_auto. grown_solve.
Qed.

(** X23. No method call, whether it returns or raises, takes anything back:
    the task counter, the clock and the three counters of the metrics do not
    decrease, the registry does not shrink, and the day costs recorded so
    far stay as they are at the front of [daily_costs]. *)
Theorem nothing_is_taken_back (m : method) (w : World) :
  (task_counter (fst w) <= task_counter (fst (call m w)))%Z /\
  (current_date (fst w) <= current_date (fst (call m w)))%Z /\
  (length (tasks (fst w)) <= length (tasks (fst (call m w))))%nat /\
  daily_costs (fst w) `prefix_of` daily_costs (fst (call m w)) /\
  (failed_deploys (metrics (fst w))
   <= failed_deploys (metrics (fst (call m w))))%Z /\
  (successful_deploys (metrics (fst w))
   <= successful_deploys (metrics (fst (call m w))))%Z /\
  (delayed_tasks (metrics (fst w))
   <= delayed_tasks (metrics (fst (call m w))))%Z.
Proof.
  change (grown (fst w) (fst (call m w))). destruct m; cbn [call].
  - apply generate_daily_tasks_grown.
  - apply progress_tasks_grown.
  - apply attempt_deployments_grown.
  - apply calculate_daily_delay_cost_grown.
  - apply simulate_day_grown.
  - unfold run_simulation.
    respects_step; [|repeat respects_step].
    respects_step. apply simulate_day_grown.
Qed.

(** ** Parameters that no method reads *)

Lemma related_choice_Forall2 {A : Type} (Sim : relation Engine)
    (R : A -> A -> Prop) (xs1 xs2 : list A) :
  Forall2 R xs1 xs2 -> related Sim R (choice xs1) (choice xs2).
Proof.
  intros HF. unfold choice.
  pose proof (Forall2_length _ _ _ HF) as Hlen.
  destruct xs1 as [|x1 xs1], xs2 as [|x2 xs2]; try done.
  eapply related_bind; [apply related_random|]. intros u ? <-.
  rewrite <- Hlen. rewrite Forall2_lookup in HF.
  destruct (HF (Z.to_nat (Qfloor (u * inject_Z (Z.of_nat
                 (length (x1 :: xs1))))))) as [y1 y2 Hy|].
  - by apply related_ret.
  - apply related_raise.
Qed.

Lemma related_team_named_Forall2 (Sim : relation Engine) (dep : string)
    (teams1 teams2 : list Team) :
  Forall2 same_team teams1 teams2 ->
  related Sim same_team (team_named dep teams1) (team_named dep teams2).
Proof.
  intros HF. unfold team_named.
  induction HF as [|t1 t2 teams1 teams2 [Hn Hr] _ IH]; cbn [List.find].
  - apply related_raise.
  - rewrite Hn. destruct (String.eqb (name t1) dep); [|exact IH].
    by apply related_ret.
Qed.

Ltac unread_destruct H :=
  let Hps := fresh "Hps" in let Hf := fresh "Hf" in let Ha := fresh "Ha" in
  let Hd := fresh "Hd" in let Hts := fresh "Hts" in let Hc := fresh "Hc" in
  let Htot := fresh "Htot" in let Hdc := fresh "Hdc" in
  let Hm := fresh "Hm" in
  pose proof H as (Hps&Hf&Ha&Hd&Hts&Hc&Htot&Hdc&Hm).

(** Closes [same_but_unread] after the same attribute assignments on both
    sides. *)
Ltac unread_solve :=
  match goal with
  | H : same_but_unread _ _ |- same_but_unread _ _ =>
      let Hps := fresh "Hps" in let Hf := fresh "Hf" in let Ha := fresh "Ha" in
      let Hd := fresh "Hd" in let Hts := fresh "Hts" in
      let Hc := fresh "Hc" in let Htot := fresh "Htot" in
      let Hdc := fresh "Hdc" in let Hm := fresh "Hm" in
      destruct H as (Hps&Hf&Ha&Hd&Hts&Hc&Htot&Hdc&Hm);
      unfold same_but_unread; engine_simpl;
      rewrite ?Hf, ?Ha, ?Hd, ?Hts, ?Hc, ?Htot, ?Hdc, ?Hm;
      (split; [exact Hps|]); repeat split; done
  end.

Lemma unread_no_dependencies (i : nat) (e1 e2 : Engine) :
  same_but_unread e1 e2 -> no_dependencies i e2 = no_dependencies i e1.
Proof. intros (_&_&_&_&Hts&_). unfold no_dependencies. by rewrite Hts. Qed.

Lemma unread_should_deploy_today (e1 e2 : Engine) :
  same_but_unread e1 e2 -> should_deploy_today e2 = should_deploy_today e1.
Proof.
  intros (_&_&Ha&Hd&_). unfold should_deploy_today. by rewrite Ha, Hd.
Qed.

Lemma generate_task_unread :
  related same_but_unread eq generate_task generate_task.
Proof.
  unfold generate_task.
  eapply related_bind with (Rv := eq).
  { apply related_modify. intros e1 e2 Hsame. unread_solve. }
  intros _ _ _. eapply related_bind; [apply related_get|].
  intros e1 e2 Hsame. unread_destruct Hsame.
  destruct Hps as (_&_&_&Hrange&_&_&_&_&_&Hprob&Hteams).
  rewrite Hrange, Hprob, Hc, Hd.
  do 2 weekday_step. eapply related_bind with (Rv := eq).
  - destruct (Qltb _ _); [|weekday_step].
    eapply related_bind; [by apply related_choice_Forall2|].
    intros t1 t2 [Hname _]. apply related_ret. by rewrite Hname.
  - intros ds ? <-. apply related_modify. intros e1' e2' Hsame'.
    unread_solve.
Qed.

Lemma generate_daily_tasks_unread :
  related same_but_unread eq generate_daily_tasks generate_daily_tasks.
Proof.
  unfold generate_daily_tasks.
  eapply related_bind; [apply related_get|]. intros e1 e2 Hsame.
  destruct Hsame as ((_&_&Hn&_)&_). rewrite Hn.
  apply related_repeat_times, generate_task_unread.
Qed.

Lemma resolve_dependencies_unread (i fuel j : nat) :
  related same_but_unread eq
    (resolve_dependencies i fuel j) (resolve_dependencies i fuel j).
Proof.
  revert j. induction fuel as [|fuel IH]; intros j; cbn [resolve_dependencies].
  - weekday_step.
  - eapply related_bind; [apply related_get|]. intros e1 e2 Hsame.
    unread_destruct Hsame. rewrite Hts.
    destruct Hps as (_&_&_&_&_&_&_&_&_&_&Hteams).
    destruct (tasks e1 !! i) as [t|]; [|weekday_step].
    destruct (dependencies t !! j) as [dep|]; [|weekday_step].
    eapply related_bind; [by apply related_team_named_Forall2|].
    intros t1 t2 [_ Hrate]. rewrite Hrate. weekday_step.
    eapply related_bind with (Rv := eq); [|intros _ _ _; apply IH].
    destruct (Qltb _ _); [|weekday_step].
    apply related_modify. intros e1' e2' Hsame'. unread_solve.
Qed.

Lemma progress_task_unread (i : nat) :
  related same_but_unread eq (progress_task i) (progress_task i).
Proof.
  unfold progress_task.
  eapply related_bind; [apply related_get|]. intros e1 e2 Hsame.
  rewrite (unread_no_dependencies i e1 e2 Hsame).
  unread_destruct Hsame. rewrite Hts.
  destruct (tasks e1 !! i) as [t|]; [|weekday_step].
  destruct (bool_decide _); [|weekday_step].
  eapply related_bind with (Rv := eq).
  { destruct (no_dependencies i e1);
      [weekday_step|apply resolve_dependencies_unread]. }
  intros _ _ _. eapply related_bind; [apply related_get|].
  intros e1' e2' Hsame'.
  rewrite (unread_no_dependencies i e1' e2' Hsame').
  destruct (no_dependencies i e1'); [|weekday_step].
  weekday_step. destruct (Qltb _ _); [|weekday_step].
  apply related_modify. intros e1'' e2'' Hsame''. unread_solve.
Qed.

Lemma progress_tasks_unread :
  related same_but_unread eq progress_tasks progress_tasks.
Proof.
  unfold progress_tasks.
  eapply related_bind; [apply related_get|]. intros e1 e2 Hsame.
  destruct Hsame as (_&_&_&_&Hts&_). rewrite Hts.
  apply related_for_each; [|done].
  intros [] [] i _. apply progress_task_unread.
Qed.

Lemma deploy_task_unread (acc : Q) (i : nat) :
  related same_but_unread eq (deploy_task acc i) (deploy_task acc i).
Proof.
  intros e1 e2 g Hsame. rewrite !deploy_task_eq.
  unfold calculate_recovery_time. unread_destruct Hsame.
  pose proof Hps as (Hsize&Hrate&_&_&_&Hdown&Hfail&Hmult&Hhours&_).
  rewrite Hsize, Hrate, Hdown, Hfail, Hmult, Hhours, Hf, Hd, Htot, Hm.
  destruct (Qltb _ _); cbv zeta; (split; [done|]); (split; [|done]);
    unfold same_but_unread; engine_simpl; rewrite Hts;
    (split; [exact Hps|]); by repeat split.
Qed.

Lemma attempt_deployments_unread :
  related same_but_unread eq attempt_deployments attempt_deployments.
Proof.
  unfold attempt_deployments.
  eapply related_bind; [apply related_get|]. intros e1 e2 Hsame.
  rewrite (unread_should_deploy_today e1 e2 Hsame).
  destruct Hsame as (_&_&_&_&Hts&_). rewrite Hts.
  destruct (should_deploy_today e1); cbn [negb]; [|weekday_step].
  apply related_for_each; [|done].
  intros acc ? i <-. apply deploy_task_unread.
Qed.

Lemma calculate_daily_delay_cost_unread :
  related same_but_unread eq
    calculate_daily_delay_cost calculate_daily_delay_cost.
Proof.
  intros e1 e2 g Hsame. rewrite !calculate_daily_delay_cost_eq.
  unfold delayed_today, charge_delay, delay_cost_of.
  rewrite (unread_should_deploy_today e1 e2 Hsame).
  unread_destruct Hsame. pose proof Hps as (_&_&_&_&Hrev&_).
  rewrite Hrev, Hts, Htot, Hm.
  destruct (_ && _); [|done]. split; [done|]. split; [|done].
  unfold same_but_unread. engine_simpl. split; [exact Hps|].
  by repeat split.
Qed.

Lemma close_day_unread (deploy_cost delay_cost : Q) :
  related same_but_unread eq
    (close_day deploy_cost delay_cost) (close_day deploy_cost delay_cost).
Proof.
  unfold close_day. apply related_modify. intros e1 e2 Hsame. unread_solve.
Qed.

Lemma simulate_day_unread : related same_but_unread eq simulate_day simulate_day.
Proof.
  unfold simulate_day.
  eapply related_bind; [apply generate_daily_tasks_unread|]. intros _ _ _.
  eapply related_bind; [apply progress_tasks_unread|]. intros _ _ _.
  eapply related_bind; [apply attempt_deployments_unread|].
  intros deploy_cost ? <-.
  eapply related_bind; [apply calculate_daily_delay_cost_unread|].
  intros delay_cost ? <-. apply close_day_unread.
Qed.

Lemma run_simulation_unread (days : Z) :
  related same_but_unread eq (run_simulation days) (run_simulation days).
Proof.
  unfold run_simulation. eapply related_bind with (Rv := eq).
  { apply related_repeat_times, simulate_day_unread. }
  intros _ _ _. eapply related_bind; [apply related_get|].
  intros e1 e2 (_&_&Ha&_&_&_&Htot&Hdc&Hm). apply related_ret.
  unfold result_of. by rewrite Ha, Htot, Hdc, Hm.
Qed.

(** X24. [context_switch_cost_hours] and the [allows_friday_deploys] flag of
    a team are never read: two engines constructed alike, under
    configurations that differ in these parameters at most, and fed the same
    draws, return the same result with the same registry and the same state
    of the generator, or raise the same exception. *)
Theorem unread_parameters_have_no_effect (now : Z) (allow : bool)
    (p1 p2 : Params) (multiplier : Q) (g : Rng) (days : Z) :
  same_read p1 p2 ->
  match run_simulation days (init now allow (Some p1) multiplier, g),
        run_simulation days (init now allow (Some p2) multiplier, g) with
  | Ok r1 w1, Ok r2 w2 =>
      r1 = r2 /\ tasks (fst w1) = tasks (fst w2) /\ snd w1 = snd w2
  | Raise x1 w1, Raise x2 w2 =>
      x1 = x2 /\ tasks (fst w1) = tasks (fst w2) /\ snd w1 = snd w2
  | _, _ => False
  end.
Proof.
  intros Hread.
  assert (same_but_unread (init now allow (Some p1) multiplier)
                          (init now allow (Some p2) multiplier)) as Hsame.
  { unfold same_but_unread. cbn [init params default failure_cost_multiplier
      allow_friday_deploys current_date tasks task_counter total_cost
      daily_costs metrics from_option].
    split; [exact Hread|]. by repeat split. }
  pose proof (run_simulation_unread days _ _ g Hsame) as Hrel.
  destruct (run_simulation days (init now allow (Some p1) multiplier, g))
    as [r1 [e1 g1]|x1 [e1 g1]],
    (run_simulation days (init now allow (Some p2) multiplier, g))
    as [r2 [e2 g2]|x2 [e2 g2]]; try done;
    destruct Hrel as (?&(_&_&_&_&Hts&_)&?); by repeat split.
Qed.

(** Two days from [blocked_friday], under [one_task_per_day] and under
    [other_unread]. *)
Lemma unread_parameters_have_no_effect_witness :
  match run_simulation 2
          (init friday false (Some one_task_per_day) 1,
           rng_of [0.5; 0.9; 0.1]),
        run_simulation 2
          (init friday false (Some other_unread) 1, rng_of [0.5; 0.9; 0.1])
  with
  | Ok r1 w1, Ok r2 w2 =>
      r1 = r2 /\ tasks (fst w1) = tasks (fst w2) /\ snd w1 = snd w2
  | Raise x1 w1, Raise x2 w2 =>
      x1 = x2 /\ tasks (fst w1) = tasks (fst w2) /\ snd w1 = snd w2
  | _, _ => False
  end.
Proof.
  apply (unread_parameters_have_no_effect friday false one_task_per_day
           other_unread 1 (rng_of [0.5; 0.9; 0.1]) 2).
  unfold same_read. cbn. repeat split; try done.
  repeat constructor.
Defined.
